(** * arxiv-digest: the resumable digest pipeline

    A shallow embedding of [storage.py], [summarizer.py] and the run
    orchestrator of [main.py], and the properties of the dedup state, the
    chunk cache, the atomic persistence layer and the legacy migration.

    Conventions of the embedding:
    - a [datetime.date] is its proleptic Gregorian ordinal ([date.toordinal]),
      so comparing dates and subtracting [timedelta(days=r)] are integer
      comparison and subtraction; [isoformat]/[fromisoformat] follow
      CPython's [_ord2ymd]/[_ymd2ord];
    - the data directory is a finite map from paths (directory components
      below [data_dir], file name) to the text of the file; directories are
      implicit, so [_ensure_dir] has nothing to do;
    - a text is the sequence of its characters, one [ascii] per character:
      the texts of the model are those whose characters are below 256;
    - the [json] module, [datetime.fromisoformat], the feed, the
      language-model service and the mail transport are collaborators taken
      as parameters;
    - an exception is a value [Raise e]; effects already performed when it is
      raised stay in the world. *)

From Stdlib Require Import ZArith String Ascii List Decimal DecimalString DecimalPos DecimalN.
From stdpp Require Import gmap strings list fin_maps sorting.

Local Open Scope Z_scope.

(** ** Exceptions *)

Inductive exn :=
| JSONDecodeError
| ValueError
| KeyError
| TypeError
| AttributeError
| OverflowError
| FileNotFoundError
| ServiceError.

Inductive result (A : Type) :=
| Ok (a : A)
| Raise (e : exn).
Arguments Ok {A} a.
Arguments Raise {A} e.

Definition is_ok {A} (r : result A) : bool :=
  match r with Ok _ => true | Raise _ => false end.

Definition rbind {A B} (r : result A) (k : A → result B) : result B :=
  match r with Ok a => k a | Raise e => Raise e end.

(** ** Strings: the [str] methods and the regular expressions of the source *)

Module Str.

Definition is_digit (a : ascii) : bool :=
  (48 <=? nat_of_ascii a)%nat && (nat_of_ascii a <=? 57)%nat.

(** [s.startswith(prefix)] *)
Fixpoint startswith (s prefix : string) {struct prefix} : bool :=
  match prefix, s with
  | EmptyString, _ => true
  | String a p, String b t => Ascii.eqb a b && startswith t p
  | String _ _, EmptyString => false
  end.
#[global] Arguments startswith s prefix : simpl nomatch.

Definition rev (s : string) : string :=
  string_of_list_ascii (List.rev (list_ascii_of_string s)).

(** [s.endswith(suffix)] *)
Definition endswith (s suffix : string) : bool :=
  startswith (rev s) (rev suffix).

(** [sub in s] *)
Fixpoint contains (s sub : string) : bool :=
  startswith s sub ||
  match s with
  | EmptyString => false
  | String _ t => contains t sub
  end.

Fixpoint drop (n : nat) (s : string) : string :=
  match n, s with
  | O, _ => s
  | S k, String _ t => drop k t
  | S _, EmptyString => EmptyString
  end.

Fixpoint take_digits (s : string) : string :=
  match s with
  | String a t => if is_digit a then String a (take_digits t) else EmptyString
  | EmptyString => EmptyString
  end.

(** [s] begins with a match of [\d{4}-\d{2}-\d{2}] *)
Definition date_shape (s : string) : bool :=
  match s with
  | String y1 (String y2 (String y3 (String y4 (String h1
      (String m1 (String m2 (String h2 (String d1 (String d2 _))))))))) =>
      is_digit y1 && is_digit y2 && is_digit y3 && is_digit y4
      && Ascii.eqb h1 "-" && is_digit m1 && is_digit m2
      && Ascii.eqb h2 "-" && is_digit d1 && is_digit d2
  | _ => false
  end.

(** [LEGACY_DATE_PATTERN.search(s)]: the leftmost match, [match.group(0)] *)
Fixpoint search_date (s : string) : option string :=
  if date_shape s then Some (substring 0 10 s)
  else match s with
       | EmptyString => None
       | String _ t => search_date t
       end.

(** [re.search(r"part(\d+)", s)]: the leftmost match, [match.group(1)] *)
Fixpoint search_part (s : string) : option string :=
  match s with
  | EmptyString => None
  | String _ t =>
      if startswith s "part" && negb (String.eqb (take_digits (drop 4 s)) EmptyString)
      then Some (take_digits (drop 4 s))
      else search_part t
  end.

Fixpoint from_first_brace (s : string) : option string :=
  match s with
  | EmptyString => None
  | String a t => if Ascii.eqb a "{" then Some s else from_first_brace t
  end.

Fixpoint upto_last_brace (s : string) : option string :=
  match s with
  | EmptyString => None
  | String a t =>
      match upto_last_brace t with
      | Some r => Some (String a r)
      | None => if Ascii.eqb a "}" then Some (String a EmptyString) else None
      end
  end.

(** [re.search(r"\{.*\}", s, re.DOTALL)]: from the first opening brace to
    the last closing brace after it (the star is greedy and, with DOTALL,
    crosses line ends), [match.group(0)] *)
Definition search_braces (s : string) : option string :=
  match from_first_brace s with
  | Some t => upto_last_brace t
  | None => None
  end.

(** [str(n).zfill(w)] for a natural number: the [0wd] format *)
Definition zfill (w : nat) (s : string) : string :=
  string_of_list_ascii (repeat "0"%char (w - String.length s)) +:+ s.

Definition of_N (n : N) : string := NilZero.string_of_uint (N.to_uint n).

(** [int(s)] for a string of ASCII digits *)
Definition to_N (s : string) : N :=
  match NilZero.uint_of_string s with
  | Some u => N.of_uint u
  | None => 0%N
  end.

(** [f"{z:02d}"] *)
Definition fmt02d (z : Z) : string :=
  if z <? 0 then "-" +:+ zfill 1 (of_N (Z.to_N (- z)))
  else zfill 2 (of_N (Z.to_N z)).

End Str.

(** ** Dates *)

Module Date.

Abbreviation date := Z (only parsing).

Definition MAXORDINAL : Z := 3652059.

Definition _is_leap (y : Z) : bool :=
  (y mod 4 =? 0) && (negb (y mod 100 =? 0) || (y mod 400 =? 0)).

Definition _days_before_year (year : Z) : Z :=
  let y := year - 1 in y * 365 + y / 4 - y / 100 + y / 400.

Definition _DAYS_IN_MONTH (m : Z) : Z :=
  match m with
  | 1 => 31 | 2 => 28 | 3 => 31 | 4 => 30 | 5 => 31 | 6 => 30
  | 7 => 31 | 8 => 31 | 9 => 30 | 10 => 31 | 11 => 30 | 12 => 31
  | _ => -1
  end.

Definition _DAYS_BEFORE_MONTH (m : Z) : Z :=
  match m with
  | 1 => 0 | 2 => 31 | 3 => 59 | 4 => 90 | 5 => 120 | 6 => 151
  | 7 => 181 | 8 => 212 | 9 => 243 | 10 => 273 | 11 => 304 | 12 => 334
  | _ => -1
  end.

Definition _days_in_month (y m : Z) : Z :=
  if (m =? 2) && _is_leap y then 29 else _DAYS_IN_MONTH m.

Definition _days_before_month (y m : Z) : Z :=
  _DAYS_BEFORE_MONTH m + (if (2 <? m) && _is_leap y then 1 else 0).

Definition _ymd2ord (y m d : Z) : Z :=
  _days_before_year y + _days_before_month y m + d.

Definition _ord2ymd (n0 : Z) : Z * Z * Z :=
  let n := n0 - 1 in
  let n400 := n / 146097 in
  let n := n mod 146097 in
  let year := n400 * 400 + 1 in
  let n100 := n / 36524 in
  let n := n mod 36524 in
  let n4 := n / 1461 in
  let n := n mod 1461 in
  let n1 := n / 365 in
  let n := n mod 365 in
  let year := year + n100 * 100 + n4 * 4 + n1 in
  if (n1 =? 4) || (n100 =? 4) then (year - 1, 12, 31)
  else
    let leapyear := (n1 =? 3) && (negb (n4 =? 24) || (n100 =? 3)) in
    let month := Z.shiftr (n + 50) 5 in
    let preceding :=
      _DAYS_BEFORE_MONTH month + (if (2 <? month) && leapyear then 1 else 0) in
    if n <? preceding then
      let month := month - 1 in
      let preceding :=
        preceding
        - (_DAYS_IN_MONTH month + (if (month =? 2) && leapyear then 1 else 0)) in
      (year, month, n - preceding + 1)
    else (year, month, n - preceding + 1).

(** [d.isoformat()], which is also [d.strftime("%Y-%m-%d")] with the year
    on four digits *)
Definition isoformat (d : date) : string :=
  let '(y, m, dd) := _ord2ymd d in
  Str.zfill 4 (Str.of_N (Z.to_N y)) +:+ "-" +:+
  Str.zfill 2 (Str.of_N (Z.to_N m)) +:+ "-" +:+
  Str.zfill 2 (Str.of_N (Z.to_N dd)).

(** [date.fromisoformat(s)] on the [YYYY-MM-DD] format *)
Definition fromisoformat (s : string) : result date :=
  if Str.date_shape s && (String.length s =? 10)%nat then
    let y := Z.of_N (Str.to_N (substring 0 4 s)) in
    let m := Z.of_N (Str.to_N (substring 5 2 s)) in
    let d := Z.of_N (Str.to_N (substring 8 2 s)) in
    if (1 <=? y) && (1 <=? m) && (m <=? 12)
       && (1 <=? d) && (d <=? _days_in_month y m)
    then Ok (_ymd2ord y m d)
    else Raise ValueError
  else Raise ValueError.

(** [today - timedelta(days=r)]: a date outside [date.min .. date.max]
    is an [OverflowError] *)
Definition sub_days (today : date) (r : Z) : result date :=
  let o := today - r in
  if (1 <=? o) && (o <=? MAXORDINAL) then Ok o else Raise OverflowError.

End Date.
Import Date.


#[global] Instance result_ret : MRet result := λ A a, Ok a.
#[global] Instance result_bind : MBind result := λ A B k r, rbind r k.

(** ** JSON documents and the [json] module *)

#[local] Set Warnings "-register-all".

Inductive json :=
| JNull
| JBool (b : bool)
| JInt (z : Z)
| JStr (s : string)
| JArr (l : list json)
| JObj (kv : list (string * json)).

(** The [json] module, [int] on a [str] and [datetime.fromisoformat]:
    library code, taken as a parameter. [dumps] is
    [json.dumps(v, ensure_ascii=False)] (one line), [dumps_indent] is the same
    with [indent=2]; [loads] is [json.loads], [None] standing for
    [JSONDecodeError]. Numbers are the integers. A [datetime] is kept as the
    text its [isoformat()] gives, so [datetime_fromisoformat s] is
    [datetime.fromisoformat(s).isoformat()]. *)
Record codec := Codec {
  loads : string → option json;
  dumps : json → string;
  dumps_indent : json → string;
  int_of_str : string → result Z;
  datetime_fromisoformat : string → result string;
}.

Module Py.

Fixpoint assoc (k : string) (kv : list (string * json)) : option json :=
  match kv with
  | [] => None
  | (k', v) :: rest => if String.eqb k k' then Some v else assoc k rest
  end.

(** [d.get(k, default)] *)
Definition get (k : string) (default : json) (d : json) : result json :=
  match d with
  | JObj kv => Ok (match assoc k kv with Some v => v | None => default end)
  | _ => Raise AttributeError
  end.

(** [d[k]] *)
Definition item (k : string) (d : json) : result json :=
  match d with
  | JObj kv => match assoc k kv with Some v => Ok v | None => Raise KeyError end
  | _ => Raise TypeError
  end.

(** truth value of a document: [not v] is its negation *)
Definition truthy (v : json) : bool :=
  match v with
  | JNull => false
  | JBool b => b
  | JInt z => negb (z =? 0)
  | JStr s => negb (String.eqb s EmptyString)
  | JArr l => match l with [] => false | _ => true end
  | JObj kv => match kv with [] => false | _ => true end
  end.

(** [int(v)] *)
Definition int (J : codec) (v : json) : result Z :=
  match v with
  | JInt z => Ok z
  | JBool b => Ok (if b then 1 else 0)
  | JStr s => int_of_str J s
  | _ => Raise TypeError
  end.

Definition as_str (v : json) : result string :=
  match v with JStr s => Ok s | _ => Raise TypeError end.

Fixpoint as_str_list (l : list json) : result (list string) :=
  match l with
  | [] => Ok []
  | v :: rest =>
      s ← as_str v; ss ← as_str_list rest; Ok (s :: ss)
  end.

(** [c.isspace()], which is what [strip] removes *)
Definition is_space (a : ascii) : bool :=
  let n := nat_of_ascii a in
  ((9 <=? n) && (n <=? 13) || (28 <=? n) && (n <=? 32)
   || (n =? 133) || (n =? 160))%nat.

(** [bool(line.strip())] *)
Fixpoint has_text (s : string) : bool :=
  match s with
  | EmptyString => false
  | String a t => negb (is_space a) || has_text t
  end.

Definition LF : ascii := ascii_of_nat 10.
Definition CR : ascii := ascii_of_nat 13.

(** the line boundaries of [str.splitlines]: line feed, vertical tab, form
    feed, carriage return, the file, group and record separators and the
    next-line character *)
Definition is_linebreak (a : ascii) : bool :=
  let n := nat_of_ascii a in
  ((10 <=? n) && (n <=? 13) || (28 <=? n) && (n <=? 30) || (n =? 133))%nat.

Fixpoint lines_aux (cur : string) (s : string) : list string :=
  match s with
  | EmptyString =>
      match cur with EmptyString => [] | _ => [Str.rev cur] end
  | String a t =>
      if is_linebreak a then
        Str.rev cur ::
          match t with
          | String b u =>
              if Ascii.eqb a CR && Ascii.eqb b LF then lines_aux EmptyString u
              else lines_aux EmptyString t
          | EmptyString => []
          end
      else lines_aux (String a cur) t
  end.

(** [s.splitlines()]: a carriage return followed by a line feed is one
    boundary, and a boundary at the end opens no line *)
Definition splitlines (s : string) : list string := lines_aux EmptyString s.

(** [sep.join(parts)] *)
Fixpoint join (sep : string) (parts : list string) : string :=
  match parts with
  | [] => EmptyString
  | [x] => x
  | x :: rest => x +:+ sep +:+ join sep rest
  end.

End Py.

(** ** models.py *)

Record Paper := mkPaper {
  paper_id : string;
  title : string;
  summary : string;
  authors : list string;
  link : string;
  category : string;
  published : string;   (* the ISO text of the timestamp *)
  updated : string;
}.

Record SummaryChunk := mkSummaryChunk {
  date_ : string;
  chunk_index : Z;
  content : json;
}.

Definition to_dict (p : Paper) : json :=
  JObj [("paper_id", JStr (paper_id p));
        ("title", JStr (title p));
        ("summary", JStr (summary p));
        ("authors", JArr (JStr <$> authors p));
        ("link", JStr (link p));
        ("category", JStr (category p));
        ("published", JStr (published p));
        ("updated", JStr (updated p))].

(** ** The data directory *)

Module Fs.

Abbreviation path := (list string * string)%type (only parsing).
Abbreviation fs := (gmap (list string * string) string) (only parsing).

Definition exists_ (p : path) (d : fs) : bool := bool_decide (is_Some (d !! p)).

(** [p.write_text(data)]: creates or overwrites [p] *)
Definition write_text (p : path) (data : string) (d : fs) : fs := <[p := data]> d.

(** [src.replace(dst)]: one rename, which installs [src] at [dst] *)
Definition replace (src dst : path) (d : fs) : result fs :=
  match d !! src with
  | Some data => Ok (<[dst := data]> (delete src d))
  | None => Raise FileNotFoundError
  end.

Definition names_in (dir : list string) (d : fs) : list string :=
  omap (λ e : (list string * string) * string,
          if decide (e.1.1 = dir) then Some e.1.2 else None)
       (map_to_list d).

(** [dir.iterdir()]: the names of the files of [dir]. The order in which
    a directory enumerates its entries is fixed by its content; it is
    taken to be the order of the names. *)
Definition iterdir (dir : list string) (d : fs) : list string :=
  merge_sort String.le (names_in dir d).

Fixpoint last_dot_split (s : string) : option (string * string) :=
  match s with
  | EmptyString => None
  | String a t =>
      match last_dot_split t with
      | Some (b, e) => Some (String a b, e)
      | None => if Ascii.eqb a "." then Some (EmptyString, s) else None
      end
  end.

(** [PurePath.suffix]: [name[i:]] for [i = name.rfind(".")] when
    [0 < i < len(name) - 1], else the empty string *)
Definition suffix (name : string) : string :=
  match last_dot_split name with
  | Some (b, e) =>
      if negb (String.eqb b EmptyString) && (1 <? String.length e)%nat
      then e else EmptyString
  | None => EmptyString
  end.

(** [PurePath.with_suffix] on the file name *)
Definition with_suffix (name new_suffix : string) : string :=
  match last_dot_split name with
  | Some (b, e) =>
      if negb (String.eqb b EmptyString) && (1 <? String.length e)%nat
      then b +:+ new_suffix else name +:+ new_suffix
  | None => name +:+ new_suffix
  end.

(** The calls a function makes on the disk, one after the other. A
    process can stop between two calls or in the middle of a
    [write_text], which has then created the file and written some
    prefix of the data; a rename takes effect whole or not at all. *)
Inductive op :=
| WriteText (p : path) (data : string)
| Replace (src dst : path).

Definition exec_op (o : op) (d : fs) : result fs :=
  match o with
  | WriteText p data => Ok (write_text p data d)
  | Replace src dst => replace src dst d
  end.

Fixpoint exec (ops : list op) (d : fs) : result fs :=
  match ops with
  | [] => Ok d
  | o :: rest => exec_op o d ≫= exec rest
  end.

Inductive stops_at : list op → fs → fs → Prop :=
| stop_before ops d :
    stops_at ops d d
| stop_in_write p data rest d k :
    stops_at (WriteText p data :: rest) d (<[p := substring 0 k data]> d)
| stop_later o rest d d' d'' :
    exec_op o d = Ok d' → stops_at rest d' d'' → stops_at (o :: rest) d d''.

End Fs.
Import Fs.

(** ** storage.py: atomic write *)

Definition temp_path (p : path) : path :=
  (p.1, with_suffix p.2 (suffix p.2 +:+ ".tmp")).

Definition _atomic_write_ops (p : path) (data : string) : list op :=
  [WriteText (temp_path p) data; Replace (temp_path p) p].

Definition _atomic_write (p : path) (data : string) (d : fs) : result fs :=
  exec (_atomic_write_ops p data) d.

(** ** The world of a run: the disk and the trace of observable actions *)

Inductive event :=
| EvFetch (categories : list string) (day : date)
| EvWrite (p : path) (data : string)
| EvChunkCall (idx : Z) (chunk : list Paper)
| EvOverallCall (summaries : list json)
| EvEmail (summaries : list json) (overall : option json)
          (category_counts : list (string * nat)).

Record world := World { disk : fs; trace : list event }.

Definition M (A : Type) : Type := world → result A * world.

#[global] Instance M_ret : MRet M := λ A a w, (Ok a, w).
#[global] Instance M_bind : MBind M := λ A B k m w,
  match m w with
  | (Ok a, w') => k a w'
  | (Raise e, w') => (Raise e, w')
  end.

Definition lift {A} (r : result A) : M A := λ w, (r, w).
Definition reading {A} (f : fs → A) : M A := λ w, (Ok (f (disk w)), w).
Definition emit (e : event) : M unit :=
  λ w, (Ok (), World (disk w) (trace w ++ [e])).
Definition atomic_write (p : path) (data : string) : M unit :=
  λ w, match _atomic_write p data (disk w) with
       | Ok d => (Ok (), World d (trace w ++ [EvWrite p data]))
       | Raise e => (Raise e, w)
       end.

(** ** storage.py *)

Definition STATE_FILE : string := "state.json".

(** The run state, [{"seen_by_date": {day: [ids]}, "last_run_date": text}];
    the day keys are kept as dates. *)
Record state := State {
  seen_by_date : gmap Z (list string);
  last_run_date : option string;
}.

Definition _date_dir (target_date : date) : list string := [isoformat target_date].

Definition state_path : path := (["state"], STATE_FILE).
Definition raw_path (target_date : date) : path :=
  (_date_dir target_date ++ ["raw"], "papers.jsonl").
Definition summaries_dir (target_date : date) : list string :=
  _date_dir target_date ++ ["summaries"].
Definition responses_dir (target_date : date) : list string :=
  _date_dir target_date ++ ["responses"].
Definition chunk_name (idx : Z) : string := "summary_part" +:+ Str.fmt02d idx +:+ ".json".
Definition chunk_path (target_date : date) (idx : Z) : path :=
  (summaries_dir target_date, chunk_name idx).
Definition overall_path (target_date : date) : path :=
  (summaries_dir target_date, "summary_overall.json").
Definition response_path (target_date : date) (idx : Z) : path :=
  (responses_dir target_date, "response_part" +:+ Str.fmt02d idx +:+ ".json").
Definition overall_response_path (target_date : date) : path :=
  (responses_dir target_date, "response_overall.json").

Fixpoint decode_seen (kv : list (string * json)) (acc : gmap Z (list string))
  : result (gmap Z (list string)) :=
  match kv with
  | [] => Ok acc
  | (k, v) :: rest =>
      d ← fromisoformat k;
      ids ← match v with JArr l => Py.as_str_list l | _ => Raise TypeError end;
      decode_seen rest (<[d := ids]> acc)
  end.

(** The state document as the [state] record. The shape errors Python raises
    while [build_seen_set] walks the dictionary are raised here, as the
    document is loaded. *)
Definition state_of_json (v : json) : result state :=
  sbd ← Py.get "seen_by_date" (JObj []) v;
  m ← match sbd with JObj kv => decode_seen kv ∅ | _ => Raise AttributeError end;
  lrd ← Py.get "last_run_date" JNull v;
  Ok (State m (match lrd with JStr s => Some s | _ => None end)).

Definition state_to_json (st : state) : json :=
  JObj [("seen_by_date",
         JObj ((λ e : Z * list string, (isoformat e.1, JArr (JStr <$> e.2)))
                 <$> map_to_list (seen_by_date st)));
        ("last_run_date",
         match last_run_date st with Some s => JStr s | None => JNull end)].

Definition build_seen_set (st : state) (retention_days : Z) (today : date)
  : result (gset string) :=
  cutoff ← sub_days today retention_days;
  Ok (⋃ ((λ e : Z * list string,
            if bool_decide (cutoff ≤ e.1) then list_to_set e.2 else ∅)
           <$> map_to_list (seen_by_date st))).

Definition update_state_with_papers
    (st : state) (target_date : date) (papers : list Paper) (now : string) : state :=
  State (<[target_date :=
             default [] (seen_by_date st !! target_date) ++ (paper_id <$> papers)]>
           (seen_by_date st))
        (Some now).

Section storage.
Context (J : codec).

Definition load_state (d : fs) : result state :=
  match d !! state_path with
  | None => Ok (State ∅ None)
  | Some text =>
      match loads J text with
      | Some v => state_of_json v
      | None => Raise JSONDecodeError
      end
  end.

Definition save_state (st : state) : M unit :=
  atomic_write state_path (dumps_indent J (state_to_json st)).

Definition save_raw_papers (target_date : date) (papers : list Paper) : M unit :=
  let lines := (λ p, dumps J (to_dict p)) <$> papers in
  atomic_write (raw_path target_date)
    (Py.join (String Py.LF EmptyString) lines
     +:+ match lines with [] => EmptyString | _ => String Py.LF EmptyString end).

Definition chunk_payload (chunk : SummaryChunk) : json :=
  JObj [("date", JStr (date_ chunk));
        ("chunk_index", JInt (chunk_index chunk));
        ("content", content chunk)].

Definition save_summary_chunk (chunk : SummaryChunk) : M unit :=
  day ← lift (fromisoformat (date_ chunk));
  atomic_write (chunk_path day (chunk_index chunk))
    (dumps_indent J (chunk_payload chunk)).

Fixpoint parse_lines (ls : list string) : result (list json) :=
  match ls with
  | [] => Ok []
  | line :: rest =>
      if Py.has_text line then
        match loads J line with
        | Some v => items ← parse_lines rest; Ok (v :: items)
        | None => Raise JSONDecodeError
        end
      else parse_lines rest
  end.

Definition read_raw_papers (d : fs) (target_date : date) : result (list json) :=
  match d !! raw_path target_date with
  | None => Ok []
  | Some text => parse_lines (Py.splitlines text)
  end.

Definition has_summary_for_date (d : fs) (target_date : date) : bool :=
  existsb (λ name, Str.startswith name "summary_part")
          (iterdir (summaries_dir target_date) d).

Definition load_chunk_file (text : string) (chunks : gmap Z json)
  : result (gmap Z json) :=
  match loads J text with
  | None => Raise JSONDecodeError
  | Some payload =>
      ci ← Py.get "chunk_index" (JInt 0) payload;
      idx ← Py.int J ci;
      if 0 <? idx then
        c ← Py.get "content" (JObj []) payload;
        Ok (<[idx := c]> chunks)
      else Ok chunks
  end.

Fixpoint load_chunk_files (dir : list string) (d : fs) (names : list string)
    (chunks : gmap Z json) : result (gmap Z json) :=
  match names with
  | [] => Ok chunks
  | name :: rest =>
      if Str.startswith name "summary_part" then
        chunks' ← load_chunk_file (default EmptyString (d !! (dir, name))) chunks;
        load_chunk_files dir d rest chunks'
      else load_chunk_files dir d rest chunks
  end.

Definition load_summary_chunks (d : fs) (target_date : date)
  : result (gmap Z json) :=
  load_chunk_files (summaries_dir target_date) d
    (iterdir (summaries_dir target_date) d) ∅.

Definition save_response_chunk
    (target_date : date) (idx : Z) (response_payload : string) : M unit :=
  atomic_write (response_path target_date idx)
    (dumps_indent J (JStr response_payload)).

Definition save_overall_summary (target_date : date) (summary : json) : M unit :=
  atomic_write (overall_path target_date)
    (dumps_indent J
       (JObj [("date", JStr (isoformat target_date));
              ("type", JStr "overall");
              ("content", summary)])).

Definition load_overall_summary (d : fs) (target_date : date)
  : result (option json) :=
  match d !! overall_path target_date with
  | None => Ok None
  | Some text =>
      match loads J text with
      | Some payload => c ← Py.get "content" (JObj []) payload; Ok (Some c)
      | None => Raise JSONDecodeError
      end
  end.

Definition save_overall_response
    (target_date : date) (response_payload : string) : M unit :=
  atomic_write (overall_response_path target_date)
    (dumps_indent J (JStr response_payload)).

End storage.

(** *** Migration of the legacy flat layout *)

Definition move (src dst : path) : M unit :=
  λ w, match replace src dst (disk w) with
       | Ok d => (Ok (), World d (trace w))
       | Raise e => (Raise e, w)
       end.

(** [fnmatch(name, "papers_*.jsonl")] *)
Definition glob_papers (name : string) : bool :=
  Str.startswith name "papers_" && Str.endswith name ".jsonl"
  && (13 <=? String.length name)%nat.

(** Where each loop of [migrate_legacy_data] sends a legacy file:
    [Ok None] is a [continue], [Raise] the [ValueError] of
    [date.fromisoformat] on a token that is not a calendar date. *)
Definition raw_target (name : string) : result (option path) :=
  if glob_papers name then
    match Str.search_date name with
    | None => Ok None
    | Some tok =>
        day ← fromisoformat tok;
        Ok (Some (_date_dir day ++ ["raw"], "papers.jsonl"))
    end
  else Ok None.

Definition summary_target (name : string) : result (option path) :=
  if Str.startswith name "summary_" && String.eqb (suffix name) ".json" then
    match Str.search_date name with
    | None => Ok None
    | Some tok =>
        day ← fromisoformat tok;
        let target_dir := _date_dir day ++ ["summaries"] in
        if Str.contains name "overall" then
          Ok (Some (target_dir, "summary_overall.json"))
        else
          match Str.search_part name with
          | None => Ok None
          | Some digits =>
              Ok (Some (target_dir,
                        "summary_part" +:+ Str.fmt02d (Z.of_N (Str.to_N digits))
                        +:+ ".json"))
          end
    end
  else Ok None.

Definition response_target (name : string) : result (option path) :=
  if Str.startswith name "response_" then
    match Str.search_date name with
    | None => Ok None
    | Some tok =>
        day ← fromisoformat tok;
        let target_dir := _date_dir day ++ ["responses"] in
        if Str.contains name "overall" then
          Ok (Some (target_dir, "response_overall.txt"))
        else
          match Str.search_part name with
          | None => Ok None
          | Some digits =>
              Ok (Some (target_dir,
                        "response_part" +:+ Str.fmt02d (Z.of_N (Str.to_N digits))
                        +:+ ".txt"))
          end
    end
  else Ok None.

Definition prompt_target (name : string) : result (option path) :=
  if Str.startswith name "prompt_" then
    match Str.search_date name with
    | None => Ok None
    | Some tok =>
        day ← fromisoformat tok;
        match Str.search_part name with
        | None => Ok None
        | Some digits =>
            Ok (Some (_date_dir day ++ ["prompts"],
                      "prompt_part" +:+ Str.fmt02d (Z.of_N (Str.to_N digits))
                      +:+ ".txt"))
        end
    end
  else Ok None.

(** the body of one [for path in dir.iterdir()] loop *)
Fixpoint migrate_files (dir : list string) (target_of : string → result (option path))
    (names : list string) (moved : list (path * path)) : M (list (path * path)) :=
  match names with
  | [] => mret moved
  | name :: rest =>
      t ← lift (target_of name);
      match t with
      | None => migrate_files dir target_of rest moved
      | Some target =>
          present ← reading (exists_ target);
          if present : bool then migrate_files dir target_of rest moved
          else
            _ ← move (dir, name) target;
            migrate_files dir target_of rest (moved ++ [((dir, name), target)])
      end
  end.

Definition migrate_dir (dir : list string) (target_of : string → result (option path))
    (moved : list (path * path)) : M (list (path * path)) :=
  names ← reading (iterdir dir);
  migrate_files dir target_of names moved.

Definition migrate_legacy_data : M (list (path * path)) :=
  moved ← migrate_dir ["raw"] raw_target [];
  moved ← migrate_dir ["summaries"] summary_target moved;
  moved ← migrate_dir ["responses"] response_target moved;
  migrate_dir ["prompts"] prompt_target moved.

(** ** config.py and the external collaborators *)

Record AppConfig := mkAppConfig {
  categories : list string;
  retention_days : Z;
  openai_api_key : option string;
  smtp_host : option string;
  smtp_user : option string;
  smtp_password : option string;
  smtp_to : list string;
}.

(** truth value of an optional text: [None] and the empty text are false *)
Definition configured (o : option string) : bool :=
  match o with
  | Some s => negb (String.eqb s EmptyString)
  | None => false
  end.

(** What a run gets from outside: the clock, the feed
    ([fetch_papers(categories, target_date)]), the language-model service
    ([_call_model_with_fallback] on the prompt built for a batch, and on the
    prompt built for the overall digest) and the mail transport. *)
Record env := Env {
  today : date;
  utcnow : string;
  fetch_papers : list string → date → result (list Paper);
  chunk_model : date → list Paper → result string;
  overall_model : date → list json → result string;
  send_email : date → list json → option json → list (string * nat) → result unit;
}.

(** ** summarizer.py *)

Fixpoint chunk_aux {A} (fuel size : nat) (items : list A) : list (list A) :=
  match fuel with
  | O => []
  | S f =>
      match items with
      | [] => []
      | _ => take size items :: chunk_aux f size (drop size items)
      end
  end.

(** [[items[i : i + size] for i in range(0, len(items), size)]]; a zero step
    is a [ValueError] of [range] *)
Definition _chunk {A} (items : list A) (size : nat) : result (list (list A)) :=
  if (size =? 0)%nat then Raise ValueError
  else Ok (chunk_aux (length items) size items).

Section summarizer.
Context (J : codec) (E : env).

Definition _extract_json (text : string) : result json :=
  match Str.search_braces text with
  | None => Raise ValueError
  | Some s =>
      match loads J s with
      | Some v => Ok v
      | None => Raise JSONDecodeError
      end
  end.

(** the [try: json.loads ... except json.JSONDecodeError: _extract_json]
    block of [summarize_papers_stream] and [summarize_overall] *)
Definition parse_output (text_output : string) : result json :=
  match loads J text_output with
  | Some payload => Ok payload
  | None => _extract_json text_output
  end.

Fixpoint stream_loop (target_date : date) (existing_chunks : gmap Z json)
    (on_response : option (Z → string → M unit))
    (idx : Z) (chunks : list (list Paper)) (outputs : list (Z * json))
  : M (list (Z * json)) :=
  match chunks with
  | [] => mret outputs
  | chunk :: rest =>
      match existing_chunks !! idx with
      | Some cached =>
          stream_loop target_date existing_chunks on_response
            (idx + 1) rest (outputs ++ [(idx, cached)])
      | None =>
          _ ← emit (EvChunkCall idx chunk);
          text_output ← lift (chunk_model E target_date chunk);
          _ ← match on_response with
              | Some f => f idx text_output
              | None => mret ()
              end;
          payload ← lift (parse_output text_output);
          stream_loop target_date existing_chunks on_response
            (idx + 1) rest (outputs ++ [(idx, payload)])
      end
  end.

Definition summarize_papers_stream
    (target_date : date) (papers : list Paper) (chunk_size : nat)
    (existing_chunks : gmap Z json)
    (on_response : option (Z → string → M unit)) : M (list (Z * json)) :=
  match papers with
  | [] => mret []
  | _ =>
      chunks ← lift (_chunk papers chunk_size);
      stream_loop target_date existing_chunks on_response 1 chunks []
  end.

Definition summarize_overall
    (target_date : date) (summaries : list json)
    (on_response : option (string → M unit)) : M json :=
  match summaries with
  | [] => mret (JObj [])
  | _ =>
      _ ← emit (EvOverallCall summaries);
      text_output ← lift (overall_model E target_date summaries);
      _ ← match on_response with
          | Some f => f text_output
          | None => mret ()
          end;
      lift (parse_output text_output)
  end.

End summarizer.

(** ** main.py *)

(** [Paper(paper_id=item["paper_id"], ...)]. The fields of a [Paper] are
    texts here, as in every snapshot [save_raw_papers] writes; an item with
    a field of another type, which Python would keep unchecked, is a
    [TypeError]. *)
Definition paper_of_item (J : codec) (item : json) : result Paper :=
  pid ← Py.item "paper_id" item ≫= Py.as_str;
  ti ← Py.item "title" item ≫= Py.as_str;
  su ← Py.item "summary" item ≫= Py.as_str;
  au ← Py.item "authors" item ≫=
         (λ v, match v with JArr l => Py.as_str_list l | _ => Raise TypeError end);
  li ← Py.item "link" item ≫= Py.as_str;
  ca ← Py.item "category" item ≫= Py.as_str;
  pu ← Py.item "published" item ≫= Py.as_str;
  pu ← datetime_fromisoformat J pu;
  up ← Py.item "updated" item ≫= Py.as_str;
  up ← datetime_fromisoformat J up;
  Ok (mkPaper pid ti su au li ca pu up).

Fixpoint papers_of_items (J : codec) (items : list json) : result (list Paper) :=
  match items with
  | [] => Ok []
  | item :: rest =>
      p ← paper_of_item J item; ps ← papers_of_items J rest; Ok (p :: ps)
  end.

(** [math.ceil(n / 20) if n else 0] *)
Definition expected_chunks_of (n : nat) : Z := (Z.of_nat n + 19) / 20.

(** the condition of the [if] that decides between reprocessing the whole
    snapshot and the dedup filter *)
Definition reprocess (stored_papers : list Paper) (has_summary : bool)
    (existing_chunks : gmap Z json) (expected_chunks : Z) : bool :=
  match stored_papers with
  | [] => false
  | _ => negb has_summary || (Z.of_nat (size existing_chunks) <? expected_chunks)
  end.

Definition select_new_papers (stored_papers papers : list Paper) (has_summary : bool)
    (existing_chunks : gmap Z json) (seen_ids : gset string) : list Paper :=
  if reprocess stored_papers has_summary existing_chunks
       (expected_chunks_of (length papers))
  then papers
  else filter (λ p, paper_id p ∉ seen_ids) papers.

(** [sorted(existing_chunks)]: the indices in increasing order *)
Definition sorted_keys (chunks : gmap Z json) : list Z :=
  merge_sort Z.le (elements (dom chunks)).

(** [dict(sorted(Counter(paper.category for paper in papers).items()))] *)
Definition category_counts (papers : list Paper) : list (string * nat) :=
  let cats := category <$> papers in
  (λ c, (c, length (filter (λ c', c' = c) cats)))
    <$> merge_sort String.le (remove_dups cats).

Section main.
Context (J : codec) (E : env).

Definition _load_papers_from_storage (d : fs) (target_date : date)
  : result (list Paper) :=
  read_raw_papers J d target_date ≫= papers_of_items J.

Definition chunk_size : nat := 20.

(** [_run_once] up to the point where the day's chunk summaries are
    known: [None] is one of the two early returns, [Some (papers,
    summaries)] is the state in which the overall digest starts. *)
Definition _run_chunks (config : AppConfig) (target_date : date)
  : M (option (list Paper * list json)) :=
  state ← reading (load_state J) ≫= lift;
  seen_ids ← lift (build_seen_set state (retention_days config) (today E));
  stored_papers ← reading (λ d, _load_papers_from_storage d target_date) ≫= lift;
  has_summary ← reading (λ d, has_summary_for_date d target_date);
  papers ← match stored_papers with
           | _ :: _ => mret stored_papers
           | [] =>
               _ ← emit (EvFetch (categories config) target_date);
               papers ← lift (fetch_papers E (categories config) target_date);
               _ ← save_raw_papers J target_date papers;
               mret papers
           end;
  existing_chunks ← reading (λ d, load_summary_chunks J d target_date) ≫= lift;
  let new_papers :=
    select_new_papers stored_papers papers has_summary existing_chunks seen_ids in
  _ ← save_state J (update_state_with_papers state target_date new_papers (utcnow E));
  match new_papers with
  | [] =>
      if bool_decide (existing_chunks = ∅) then mret None
      else
        mret (Some (papers,
                    omap (λ idx, existing_chunks !! idx) (sorted_keys existing_chunks)))
  | _ =>
      if negb (configured (openai_api_key config)) then mret None
      else
        summary_pairs ←
          summarize_papers_stream J E target_date new_papers chunk_size
            existing_chunks (Some (save_response_chunk J target_date));
        _ ← mapM (λ pr : Z * json,
                    match existing_chunks !! pr.1 with
                    | Some _ => mret ()
                    | None =>
                        save_summary_chunk J
                          (mkSummaryChunk (isoformat target_date) pr.1 pr.2)
                    end) summary_pairs;
        mret (Some (papers, snd <$> summary_pairs))
  end.

(** the rest of [_run_once]: the overall digest and the mail *)
Definition _run_deliver (config : AppConfig) (target_date : date)
    (papers : list Paper) (summaries : list json) : M unit :=
  loaded ← reading (λ d, load_overall_summary J d target_date) ≫= lift;
  overall_summary ←
    (if match loaded with Some v => Py.truthy v | None => false end
     then mret loaded
     else if negb (configured (openai_api_key config)) then mret loaded
     else
       o ← summarize_overall J E target_date summaries
             (Some (save_overall_response J target_date));
       _ ← save_overall_summary J target_date o;
       mret (Some o));
  if configured (smtp_host config) && configured (smtp_user config)
     && configured (smtp_password config)
     && match smtp_to config with [] => false | _ => true end
  then
    let counts := category_counts papers in
    _ ← emit (EvEmail summaries overall_summary counts);
    lift (send_email E target_date summaries overall_summary counts)
  else mret ().

Definition _run_once (config : AppConfig) (target_date : date) : M unit :=
  r ← _run_chunks config target_date;
  match r with
  | None => mret ()
  | Some (papers, summaries) => _run_deliver config target_date papers summaries
  end.

End main.

(** ** A reference JSON codec

    The theorems below hold for every [codec]. To run the model on concrete
    disks the examples use this one: the printer of [json.dumps] (compact and
    with [indent=2]) and a recursive-descent reader, for documents whose
    strings need no escape beyond the quote, the backslash and the line
    feed, and timestamps written [YYYY-MM-DDTHH:MM:SS]. *)

Module RefJson.

Definition DQ : ascii := ascii_of_nat 34.
Definition BS : ascii := ascii_of_nat 92.

Fixpoint escape (s : string) : string :=
  match s with
  | EmptyString => EmptyString
  | String a t =>
      if Ascii.eqb a DQ then String BS (String DQ (escape t))
      else if Ascii.eqb a BS then String BS (String BS (escape t))
      else if Ascii.eqb a Py.LF then String BS (String "n" (escape t))
      else String a (escape t)
  end.

Definition quote (s : string) : string :=
  String DQ (escape s) +:+ String DQ EmptyString.

Definition spaces (n : nat) : string := string_of_list_ascii (repeat " "%char n).

Definition print_int (z : Z) : string :=
  if z <? 0 then "-" +:+ Str.of_N (Z.to_N (- z)) else Str.of_N (Z.to_N z).

(** [indent = None]: one line; [indent = Some k]: [k] spaces per level *)
Fixpoint print (indent : option nat) (depth : nat) (v : json) : string :=
  let nl d :=
    match indent with
    | Some k => String Py.LF (spaces (k * d))
    | None => EmptyString
    end in
  let sep d :=
    match indent with
    | Some k => "," +:+ String Py.LF (spaces (k * d))
    | None => ", "
    end in
  match v with
  | JNull => "null"
  | JBool b => if b then "true" else "false"
  | JInt z => print_int z
  | JStr s => quote s
  | JArr [] => "[]"
  | JArr (x :: xs) =>
      "[" +:+ nl (S depth) +:+ print indent (S depth) x
      +:+ (fix items (l : list json) : string :=
             match l with
             | [] => EmptyString
             | y :: ys => sep (S depth) +:+ print indent (S depth) y +:+ items ys
             end) xs
      +:+ nl depth +:+ "]"
  | JObj [] => "{}"
  | JObj ((k, x) :: kvs) =>
      "{" +:+ nl (S depth) +:+ quote k +:+ ": " +:+ print indent (S depth) x
      +:+ (fix members (l : list (string * json)) : string :=
             match l with
             | [] => EmptyString
             | (k', y) :: ys =>
                 sep (S depth) +:+ quote k' +:+ ": "
                 +:+ print indent (S depth) y +:+ members ys
             end) kvs
      +:+ nl depth +:+ "}"
  end.

(** the white space of a JSON document: space, tab, line feed, carriage
    return *)
Definition is_ws (a : ascii) : bool :=
  let n := nat_of_ascii a in
  ((n =? 32) || (n =? 9) || (n =? 10) || (n =? 13))%nat.

Fixpoint skip_ws (s : string) : string :=
  match s with
  | String a t => if is_ws a then skip_ws t else s
  | EmptyString => EmptyString
  end.

(** the text after an opening quote, up to the closing one *)
Fixpoint read_string (s : string) : option (string * string) :=
  match s with
  | EmptyString => None
  | String a t =>
      if Ascii.eqb a DQ then Some (EmptyString, t)
      else if Ascii.eqb a BS then
        match t with
        | String b u =>
            let c := if Ascii.eqb b "n" then Some Py.LF
                     else if Ascii.eqb b DQ || Ascii.eqb b BS then Some b
                     else None in
            match c, read_string u with
            | Some c, Some (r, rest) => Some (String c r, rest)
            | _, _ => None
            end
        | EmptyString => None
        end
      else
        match read_string t with
        | Some (r, rest) => Some (String a r, rest)
        | None => None
        end
  end.

Definition read_int (s : string) : option (json * string) :=
  let '(neg, body) :=
    match s with
    | String a t => if Ascii.eqb a "-" then (true, t) else (false, s)
    | EmptyString => (false, s)
    end in
  let ds := Str.take_digits body in
  if String.eqb ds EmptyString then None
  else
    let n := Z.of_N (Str.to_N ds) in
    Some (JInt (if neg then - n else n), Str.drop (String.length ds) body).

Fixpoint read_value (fuel : nat) (s : string) : option (json * string) :=
  match fuel with
  | O => None
  | S f =>
      let s := skip_ws s in
      if Str.startswith s "null" then Some (JNull, Str.drop 4 s)
      else if Str.startswith s "true" then Some (JBool true, Str.drop 4 s)
      else if Str.startswith s "false" then Some (JBool false, Str.drop 5 s)
      else
        match s with
        | String a t =>
            if Ascii.eqb a DQ then
              match read_string t with
              | Some (r, rest) => Some (JStr r, rest)
              | None => None
              end
            else if Ascii.eqb a "[" then
              if Str.startswith (skip_ws t) "]"
              then Some (JArr [], Str.drop 1 (skip_ws t))
              else
                match read_items f t with
                | Some (l, rest) => Some (JArr l, rest)
                | None => None
                end
            else if Ascii.eqb a "{" then
              if Str.startswith (skip_ws t) "}"
              then Some (JObj [], Str.drop 1 (skip_ws t))
              else
                match read_members f t with
                | Some (kv, rest) => Some (JObj kv, rest)
                | None => None
                end
            else read_int s
        | EmptyString => None
        end
  end
with read_items (fuel : nat) (s : string) : option (list json * string) :=
  match fuel with
  | O => None
  | S f =>
      match read_value f s with
      | Some (v, rest) =>
          let rest := skip_ws rest in
          if Str.startswith rest "]" then Some ([v], Str.drop 1 rest)
          else if Str.startswith rest "," then
            match read_items f (Str.drop 1 rest) with
            | Some (l, rest') => Some (v :: l, rest')
            | None => None
            end
          else None
      | None => None
      end
  end
with read_members (fuel : nat) (s : string)
  : option (list (string * json) * string) :=
  match fuel with
  | O => None
  | S f =>
      match skip_ws s with
      | String a t =>
          if Ascii.eqb a DQ then
            match read_string t with
            | Some (k, rest) =>
                let rest := skip_ws rest in
                if Str.startswith rest ":" then
                  match read_value f (Str.drop 1 rest) with
                  | Some (v, rest') =>
                      let rest' := skip_ws rest' in
                      if Str.startswith rest' "}" then Some ([(k, v)], Str.drop 1 rest')
                      else if Str.startswith rest' "," then
                        match read_members f (Str.drop 1 rest') with
                        | Some (kv, rest'') => Some ((k, v) :: kv, rest'')
                        | None => None
                        end
                      else None
                  | None => None
                  end
                else None
            | None => None
            end
          else None
      | EmptyString => None
      end
  end.

Definition read (s : string) : option json :=
  match read_value (2 * String.length s + 2) s with
  | Some (v, rest) => if String.eqb (skip_ws rest) EmptyString then Some v else None
  | None => None
  end.

(** [int(s)] on an optionally signed run of digits *)
Definition int_of_str (s : string) : result Z :=
  match read_int s with
  | Some (JInt z, EmptyString) => Ok z
  | _ => Raise ValueError
  end.

Definition two_digits (s : string) (lo hi : N) : bool :=
  match s with
  | String a (String b EmptyString) =>
      Str.is_digit a && Str.is_digit b
      && (lo <=? Str.to_N s)%N && (Str.to_N s <=? hi)%N
  | _ => false
  end.

(** a timestamp [YYYY-MM-DDTHH:MM:SS] reads back as itself *)
Definition datetime_fromisoformat (s : string) : result string :=
  _ ← fromisoformat (substring 0 10 s);
  if (String.length s =? 19)%nat
     && String.eqb (substring 10 1 s) "T"
     && two_digits (substring 11 2 s) 0 23
     && String.eqb (substring 13 1 s) ":"
     && two_digits (substring 14 2 s) 0 59
     && String.eqb (substring 16 1 s) ":"
     && two_digits (substring 17 2 s) 0 59
  then Ok s else Raise ValueError.

Definition J : codec :=
  Codec read (print None 0) (print (Some 2%nat) 0) int_of_str datetime_fromisoformat.

End RefJson.

(** * Notions used by the statements *)

(** the ids recorded under day [d] *)
Definition seen_on (st : state) (d : date) : gset string :=
  list_to_set (default [] (seen_by_date st !! d)).

(** a name that [load_summary_chunks] and [has_summary_for_date] pick up *)
Definition is_chunk_name (n : string) : Prop := Str.startswith n "summary_part" = true.
#[global] Instance is_chunk_name_dec n : Decision (is_chunk_name n).
Proof. unfold is_chunk_name. apply _. Defined.

(** a chunk summary of [day] whose file reads back as it was written *)
Definition reads_back (J : codec) (day : date) (c : SummaryChunk) : Prop :=
  0 < chunk_index c
  ∧ fromisoformat (date_ c) = Ok day
  ∧ loads J (dumps_indent J (chunk_payload c)) = Some (chunk_payload c).

(** the chunk files of [day] on disk [d] are those of the chunks [cs] *)
Definition holds_chunks (J : codec) (day : date) (d : fs) (cs : list SummaryChunk) : Prop :=
  (∀ c, c ∈ cs →
        d !! chunk_path day (chunk_index c) = Some (dumps_indent J (chunk_payload c)))
  ∧ (∀ n, is_chunk_name n → is_Some (d !! (summaries_dir day, n)) →
          ∃ c, c ∈ cs ∧ n = chunk_name (chunk_index c)).

(** a stored payload without a [chunk_index], or with one that is not positive *)
Definition no_positive_index (kv : list (string * json)) : Prop :=
  Py.assoc "chunk_index" kv = None
  ∨ ∃ z, Py.assoc "chunk_index" kv = Some (JInt z) ∧ z ≤ 0.

(** What a migration does to the disk: [d'] is [d] after the moves
    [moved]. A file of a day directory that existed stays as it was; any
    other file stays or goes; and each moved file was there, had no file at
    its destination, and is at its destination and nowhere else. *)
Definition relocates (d d' : fs) (moved : list (path * path)) : Prop :=
  (∀ p : path, length p.1 = 2%nat → is_Some (d !! p) → d' !! p = d !! p)
  ∧ (∀ p : path, length p.1 ≠ 2%nat → d' !! p = d !! p ∨ d' !! p = None)
  ∧ (∀ src dst : path, (src, dst) ∈ moved →
       d !! dst = None ∧ is_Some (d !! src)
       ∧ d' !! dst = d !! src ∧ d' !! src = None
       ∧ length src.1 = 1%nat ∧ length dst.1 = 2%nat).

(** every legacy file of [dir] that has a destination has a file there *)
Definition settled (dir : list string) (target_of : string → result (option path))
    (d : fs) : Prop :=
  ∀ n, is_Some (d !! (dir, n)) →
       target_of n = Ok None
       ∨ ∃ t, target_of n = Ok (Some t) ∧ is_Some (d !! t).

(** destinations are files of a day directory *)
Definition day_scoped (target_of : string → result (option path)) : Prop :=
  ∀ n t, target_of n = Ok (Some t) → length t.1 = 2%nat.

(** the day-partitioned destination of a legacy file, by its directory *)
Definition legacy_target (src : path) : result (option path) :=
  if decide (src.1 = ["raw"]) then raw_target src.2
  else if decide (src.1 = ["summaries"]) then summary_target src.2
  else if decide (src.1 = ["responses"]) then response_target src.2
  else if decide (src.1 = ["prompts"]) then prompt_target src.2
  else Ok None.

Definition is_fetch (e : event) : bool :=
  match e with EvFetch _ _ => true | _ => false end.

Definition is_chunk_call (e : event) : bool :=
  match e with EvChunkCall _ _ => true | _ => false end.

(** a call to the language model, for a batch or for the overall digest *)
Definition is_summarizer_call (e : event) : bool :=
  match e with EvChunkCall _ _ | EvOverallCall _ => true | _ => false end.

(** [m], run from [w], appends to the trace only events that satisfy [P],
    and leaves every file outside [Q] as it was *)
Definition confined {A} (P : event → Prop) (Q : path → Prop) (m : M A) (w : world)
  : Prop :=
  (∃ evs, trace (m w).2 = trace w ++ evs ∧ Forall P evs)
  ∧ (∀ p, ¬ Q p → disk (m w).2 !! p = disk w !! p).

(** a path inside the responses directory of [day] *)
Definition in_responses (day : date) (p : path) : Prop := p.1 = responses_dir day.

(** a path outside the raw directory of [day] *)
Definition not_raw (day : date) (p : path) : Prop := p.1 ≠ _date_dir day ++ ["raw"].

(** the text of a snapshot: one JSON document per line *)
Definition snapshot_text (J : codec) (papers : list Paper) : string :=
  Py.join (String Py.LF EmptyString) ((λ p, dumps J (to_dict p)) <$> papers)
  +:+ match papers with [] => EmptyString | _ => String Py.LF EmptyString end.

(** the cached summaries in the order of their indices *)
Definition cached_in_order (chunks : gmap Z json) : list json :=
  omap (λ idx, chunks !! idx) (sorted_keys chunks).

(** the items of [papers] are all in the seen set computed from disk [d] *)
Definition all_seen (J : codec) (E : env) (config : AppConfig) (d : fs)
    (papers : list Paper) : Prop :=
  ∃ st seen,
    load_state J d = Ok st
    ∧ build_seen_set st (retention_days config) (today E) = Ok seen
    ∧ Forall (λ p, paper_id p ∈ seen) papers.

(** the day can be replayed from disk [d]: its snapshot has items, all of
    them seen, and the cache holds every expected chunk *)
Definition replay_ready (J : codec) (E : env) (config : AppConfig) (day : date)
    (d : fs) (papers : list Paper) (chunks : gmap Z json) : Prop :=
  all_seen J E config d papers
  ∧ _load_papers_from_storage J d day = Ok papers
  ∧ papers ≠ []
  ∧ load_summary_chunks J d day = Ok chunks
  ∧ (∀ i, 1 ≤ i ≤ expected_chunks_of (length papers) → is_Some (chunks !! i)).

(** the overall summary of [day] is on disk [d] and is not empty *)
Definition overall_ready (J : codec) (d : fs) (day : date) : Prop :=
  ∃ v, load_overall_summary J d day = Ok (Some v) ∧ Py.truthy v = true.

(** the pairs a stream returns when every batch is cached *)
Definition cached_pairs (chunks : gmap Z json) (n : nat) : list (Z * json) :=
  omap (λ i, pair i <$> chunks !! i) (seqZ 1 (Z.of_nat n)).

(** * Concrete worlds for the examples *)

Module Ex.

(** 2024-01-05, and a state in which one id is recorded under two days *)
Definition day : date := 738890.

Definition twice_seen : state :=
  State (<[738800 := ["x"]]> (<[738890 := ["x"]]> ∅)) None.

Definition paper_n (i : nat) : Paper :=
  mkPaper ("http://arxiv.org/abs/2401." +:+ Str.of_N (N.of_nat i) +:+ "v1")
    "A title" "An abstract" ["A. Author"] "http://arxiv.org/abs/x" "cs.AI"
    "2024-01-05T10:00:00" "2024-01-05T10:00:00".

Definition papers (n : nat) : list Paper := paper_n <$> seq 0 n.

Definition config : AppConfig :=
  mkAppConfig ["cs.AI"] 30 (Some "sk-key") None None None [].

(** what the model answers for a batch: a JSON document, wrapped in prose
    when the batch has a single item *)
Definition answer (chunk : list Paper) : string :=
  let doc := dumps RefJson.J (JObj [("summary", JStr "ok");
                                    ("count", JInt (Z.of_nat (length chunk)))]) in
  match chunk with
  | [_] => "Here is the JSON: " +:+ doc
  | _ => doc
  end.

(** the day after [day]; the feed has one item; the model always answers *)
Definition E : env :=
  Env 738891 "2024-01-06T09:00:00"
    (λ _ _, Ok [paper_n 0])
    (λ _ chunk, Ok (answer chunk))
    (λ _ _, Ok (dumps RefJson.J (JObj [("summary", JStr "overall")])))
    (λ _ _ _ _, Ok ()).

(** the same, with a model that fails on a batch of a single item *)
Definition E_failing : env :=
  Env 738891 "2024-01-06T09:00:00"
    (λ _ _, Ok [paper_n 0])
    (λ _ chunk, match chunk with [_] => Raise ServiceError | _ => Ok (answer chunk) end)
    (λ _ _, Raise ServiceError)
    (λ _ _ _ _, Ok ()).

Definition after {A} (m : M A) (d : fs) : fs := disk (m (World d [])).2.


(** a snapshot of [n] items, nothing else *)
Definition snapshot (n : nat) : fs := after (save_raw_papers RefJson.J day (papers n)) ∅.

Definition chunk1 : SummaryChunk :=
  mkSummaryChunk (isoformat day) 1 (JObj [("summary", JStr "first")]).
Definition chunk2 : SummaryChunk :=
  mkSummaryChunk (isoformat day) 2 (JObj [("summary", JStr "second")]).
Definition chunk3 : SummaryChunk :=
  mkSummaryChunk (isoformat day) 3 (JObj [("summary", JStr "third")]).

(** 45 items, the first two of three chunks cached *)
Definition interrupted : fs :=
  after (_ ← save_summary_chunk RefJson.J chunk1;
         save_summary_chunk RefJson.J chunk2) (snapshot 45).

Definition seen_state : state :=
  update_state_with_papers (State ∅ None) day (papers 45) "2024-01-06T08:00:00".

(** 45 items, all three chunks cached, every item recorded as seen *)
Definition complete : fs :=
  after (_ ← save_summary_chunk RefJson.J chunk3;
         save_state RefJson.J seen_state)
        interrupted.

(** the same, with the overall summary of the day *)
Definition delivered : fs :=
  after (save_overall_summary RefJson.J day (JObj [("summary", JStr "overall")]))
        complete.

Definition cache3 : gmap Z json :=
  <[1 := content chunk1]> (<[2 := content chunk2]> (<[3 := content chunk3]> ∅)).

(** the legacy raw file of the scenario, alone on the disk *)
Definition legacy_raw (text : string) : fs :=
  {[ (["raw"], "papers_2024-01-05.jsonl") := text ]}.

Definition migrated_raw (text : string) : fs :=
  {[ (["2024-01-05"; "raw"], "papers.jsonl") := text ]}.

End Ex.

(** * Further definitions: the rest of the pipeline *)

(** ** summarizer.py: the batches a stream asks the model for *)

(** the batches of a stream whose index is not in the cache, with their
    indices, the first batch having index [idx] *)
Fixpoint missing_batches (existing : gmap Z json) (idx : Z)
    (batches : list (list Paper)) : list (Z * list Paper) :=
  match batches with
  | [] => []
  | b :: rest =>
      match existing !! idx with
      | Some _ => missing_batches existing (idx + 1) rest
      | None => (idx, b) :: missing_batches existing (idx + 1) rest
      end
  end.

(** [summarize_papers]: the payloads of a stream without cache and without
    callback *)
Definition summarize_papers (J : codec) (E : env) (target_date : date)
    (papers : list Paper) (chunk_size : nat) : M (list json) :=
  pairs ← summarize_papers_stream J E target_date papers chunk_size ∅ None;
  mret (snd <$> pairs).

(** a callback that answers and calls no model *)
Definition quiet_callback (cb : option (Z → string → M unit)) : Prop :=
  ∀ idx text w,
    ∃ w', match cb with Some f => f idx text | None => mret () end w = (Ok (), w')
          ∧ ∃ evs, trace w' = trace w ++ evs
                   ∧ Forall (λ e, is_chunk_call e = false) evs.

(** ** config.py, main.py: the target day *)

(** [parse_target_date]: no text, or the empty text, is no date *)
Definition parse_target_date (value : option string) : result (option date) :=
  match value with
  | None => Ok None
  | Some s =>
      if String.eqb s EmptyString then Ok None
      else d ← fromisoformat s; Ok (Some d)
  end.

(** [_resolve_target_date]: the given day, or the day before today *)
Definition _resolve_target_date (value : option date) (today : date) : result date :=
  match value with
  | Some d => Ok d
  | None => sub_days today 1
  end.

(** the last step of [_ord2ymd]: the month and the day of the month of the
    day [n], counted from 0, of a year *)
Definition month_day (n : Z) (leapyear : bool) : Z * Z :=
  let month := Z.shiftr (n + 50) 5 in
  let preceding :=
    _DAYS_BEFORE_MONTH month + (if (2 <? month) && leapyear then 1 else 0) in
  if n <? preceding then
    let month := month - 1 in
    let preceding :=
      preceding
      - (_DAYS_IN_MONTH month + (if (month =? 2) && leapyear then 1 else 0)) in
    (month, n - preceding + 1)
  else (month, n - preceding + 1).

(** what is checked of each day of a year: its month and day are of the
    calendar and count back to it *)
Definition month_day_ok (leapyear : bool) (n : Z) : bool :=
  let '(m, d) := month_day n leapyear in
  (1 <=? m) && (m <=? 12) && (1 <=? d)
  && (d <=? _DAYS_IN_MONTH m + (if (m =? 2) && leapyear then 1 else 0))
  && (_DAYS_BEFORE_MONTH m + (if (2 <? m) && leapyear then 1 else 0) + d =? n + 1).

(** [n], written on [w] digits and read back *)
Definition digits_ok (w : nat) (n : Z) : bool :=
  let s := Str.zfill w (Str.of_N (Z.to_N n)) in
  (String.length s =? w)%nat
  && forallb Str.is_digit (list_ascii_of_string s)
  && (Z.of_N (Str.to_N s) =? n).

(** ** storage.py: the lines of a snapshot *)

(** the line of [p] in a snapshot reads back as [p]: the JSON document is on
    one line, is not blank and parses to what was written, and the two
    timestamps are texts [datetime.fromisoformat] gives back *)
Definition line_reads_back (J : codec) (p : Paper) : Prop :=
  forallb (λ a, negb (Py.is_linebreak a)) (list_ascii_of_string (dumps J (to_dict p)))
  = true
  ∧ Py.has_text (dumps J (to_dict p)) = true
  ∧ loads J (dumps J (to_dict p)) = Some (to_dict p)
  ∧ datetime_fromisoformat J (published p) = Ok (published p)
  ∧ datetime_fromisoformat J (updated p) = Ok (updated p).

(** an item whose author's name holds the next-line character *)
Definition next_line_paper : Paper :=
  mkPaper "http://arxiv.org/abs/2401.00001v1" "A title" "An abstract"
    ["A. Author" +:+ String (ascii_of_nat 133) "B. Author"]
    "http://arxiv.org/abs/x" "cs.AI" "2024-01-05T10:00:00" "2024-01-05T10:00:00".

(** ** Runs that stop early or do less *)

(** a configuration without the key of the language-model service and
    without mail settings *)
Definition config_without_key : AppConfig :=
  mkAppConfig ["cs.AI"] 30 None None None None [].

(** the files a run without key may write: the state and the snapshot of
    the day, and their temporary files *)
Definition state_or_snapshot (day : date) (p : path) : Prop :=
  p = state_path ∨ p = temp_path state_path
  ∨ p = raw_path day ∨ p = temp_path (raw_path day).

(** a disk whose state file is cut short *)
Definition broken_state_disk : fs := {[ state_path := "{" ]}.

(** ** The overall summary *)

(** the document [save_overall_summary] writes *)
Definition overall_payload (target_date : date) (summary : json) : json :=
  JObj [("date", JStr (isoformat target_date));
        ("type", JStr "overall");
        ("content", summary)].

(** the disk after the raw response and the summary of the overall digest
    have been written *)
Definition with_overall (J : codec) (day : date) (text : string) (o : json) (d : fs)
  : fs :=
  <[overall_path day := dumps_indent J (overall_payload day o)]>
    (delete (temp_path (overall_path day))
       (<[overall_response_path day := dumps_indent J (JStr text)]>
          (delete (temp_path (overall_response_path day)) d))).

(** ** config.py and arxiv_client.py: texts and lists of texts *)

Module Text.

(** [s.lstrip()] *)
Fixpoint lstrip (s : string) : string :=
  match s with
  | EmptyString => EmptyString
  | String a t => if Py.is_space a then lstrip t else s
  end.

(** [s.rstrip()] *)
Fixpoint rstrip (s : string) : string :=
  match s with
  | EmptyString => EmptyString
  | String a t =>
      match rstrip t with
      | EmptyString => if Py.is_space a then EmptyString else String a EmptyString
      | r => String a r
      end
  end.

(** [s.strip()] *)
Definition strip (s : string) : string := rstrip (lstrip s).

(** [s.split(sep)] for a separator of one character: the parts between the
    separators, empty ones included, at least one part *)
Fixpoint split_on (sep : ascii) (s : string) : list string :=
  match s with
  | EmptyString => [EmptyString]
  | String a t =>
      if Ascii.eqb a sep then EmptyString :: split_on sep t
      else match split_on sep t with
           | x :: xs => String a x :: xs
           | [] => [String a EmptyString]
           end
  end.

(** [s.split()]: the runs of characters that are not white space *)
Fixpoint split (s : string) : list string :=
  match s with
  | EmptyString => []
  | String a t =>
      if Py.is_space a then split t
      else match t with
           | EmptyString => [String a EmptyString]
           | String b _ =>
               if Py.is_space b then String a EmptyString :: split t
               else match split t with
                    | x :: xs => String a x :: xs
                    | [] => [String a EmptyString]
                    end
           end
  end.

End Text.

(** [_split_csv]: the default for no value and for the empty one, else the
    parts between commas, stripped, the empty ones dropped *)
Definition _split_csv (value : option string) (default : list string) : list string :=
  match value with
  | None => default
  | Some s =>
      if String.eqb s EmptyString then default
      else
        let parts := Text.strip <$> Text.split_on "," s in
        filter (λ p, p ≠ EmptyString) parts
  end.

(** [normalize_categories] *)
Definition normalize_categories (items : list string) : list string :=
  Text.strip <$> filter (λ item, Text.strip item ≠ EmptyString) items.

(** [_normalize_title]: [" ".join(value.split())] *)
Definition _normalize_title (value : string) : string :=
  Py.join " " (Text.split value).

(** a text without white space at either end, and not empty *)
Definition trimmed (s : string) : Prop := s ≠ EmptyString ∧ Text.strip s = s.

(** a text without a comma *)
Definition comma_free (s : string) : Prop :=
  forallb (λ a, negb (Ascii.eqb a ",")) (list_ascii_of_string s) = true.

(** a text without white space, and not empty *)
Definition word (s : string) : Prop :=
  s ≠ EmptyString
  ∧ forallb (λ a, negb (Py.is_space a)) (list_ascii_of_string s) = true.

(** ** main.py: the first run of a day *)

(** the payload of a batch: what the model answers for it, parsed *)
Definition model_answer (J : codec) (E : env) (day : date) (batch : list Paper)
  : result json :=
  text ← chunk_model E day batch; parse_output J text.

(** the pairs of a stream without cache: the payloads with the indices from 1 *)
Definition numbered (payloads : list json) : list (Z * json) :=
  zip (seqZ 1 (Z.of_nat (length payloads))) payloads.

(** the chunk summary [_run_once] saves for a pair of the stream *)
Definition chunk_of (day : date) (pr : Z * json) : SummaryChunk :=
  mkSummaryChunk (isoformat day) pr.1 pr.2.

(** a document that reads back as it is written *)
Definition reads_as_written (J : codec) (v : json) : Prop :=
  loads J (dumps_indent J v) = Some v.

(** a day of which the disk has no item and no chunk summary *)
Definition fresh_day (J : codec) (d : fs) (day : date) : Prop :=
  _load_papers_from_storage J d day = Ok []
  ∧ ∀ n, is_chunk_name n → d !! (summaries_dir day, n) = None.

(** ** main.py: the files of a run *)

(** the files a run for [day] may write: those of the state directory and
    of the three directories of the day *)
Definition run_files (day : date) (p : path) : Prop :=
  p.1 = ["state"] ∨ p.1 = _date_dir day ++ ["raw"]
  ∨ p.1 = summaries_dir day ∨ p.1 = responses_dir day.

(** ** summarizer.py: the span [_extract_json] reads *)

(** [c in s] for a character *)
Fixpoint has_char (c : ascii) (s : string) : bool :=
  match s with
  | EmptyString => false
  | String a t => Ascii.eqb a c || has_char c t
  end.

(** ** main.py: the mail *)

(** a call of [send_email] *)
Definition is_email (e : event) : bool :=
  match e with EvEmail _ _ _ => true | _ => false end.

(** the condition under which [_run_once] calls [send_email]: host, user,
    password and recipients are all set *)
Definition smtp_ready (config : AppConfig) : bool :=
  configured (smtp_host config) && configured (smtp_user config)
  && configured (smtp_password config)
  && match smtp_to config with [] => false | _ => true end.

(** ** main.py: the stages of [_run_chunks] *)

(** the world in which the chunk stage has the papers of the day: the world
    it started in when the stored snapshot has items, else that world after
    the call of the feed and the write of the fetched snapshot *)
Definition after_papers_chosen (J : codec) (config : AppConfig) (day : date)
    (stored papers : list Paper) (w : world) : world :=
  match stored with
  | [] =>
      World (<[raw_path day := snapshot_text J papers]>
               (delete (temp_path (raw_path day)) (disk w)))
            (trace w ++ [EvFetch (categories config) day;
                         EvWrite (raw_path day) (snapshot_text J papers)])
  | _ => w
  end.

(** the world after the write of the state in which [new_papers] are
    recorded under [day] *)
Definition after_state (J : codec) (E : env) (day : date) (st : state)
    (new_papers : list Paper) (w : world) : world :=
  World (<[state_path :=
             dumps_indent J
               (state_to_json (update_state_with_papers st day new_papers (utcnow E)))]>
           (delete (temp_path state_path) (disk w)))
        (trace w
         ++ [EvWrite state_path
               (dumps_indent J
                  (state_to_json
                     (update_state_with_papers st day new_papers (utcnow E))))]).

(** what [_run_chunks] does once the state is written: the two early
    returns, the reuse of the cache, or the stream over the new papers
    followed by the writes of the chunk summaries *)
Definition chunk_stage_tail (J : codec) (E : env) (config : AppConfig) (day : date)
    (papers : list Paper) (existing_chunks : gmap Z json) (new_papers : list Paper)
  : M (option (list Paper * list json)) :=
  match new_papers with
  | [] =>
      if bool_decide (existing_chunks = ∅) then mret None
      else
        mret (Some (papers,
                    omap (λ idx, existing_chunks !! idx) (sorted_keys existing_chunks)))
  | _ =>
      if negb (configured (openai_api_key config)) then mret None
      else
        summary_pairs ←
          summarize_papers_stream J E day new_papers chunk_size
            existing_chunks (Some (save_response_chunk J day));
        _ ← mapM (λ pr : Z * json,
                    match existing_chunks !! pr.1 with
                    | Some _ => mret ()
                    | None =>
                        save_summary_chunk J
                          (mkSummaryChunk (isoformat day) pr.1 pr.2)
                    end) summary_pairs;
        mret (Some (papers, snd <$> summary_pairs))
  end.

(** ** storage.py: where the migration is to put a legacy file *)

(** The day-partitioned location that corresponds to a legacy file, as the
    layout describes it, to be compared with what [migrate_legacy_data]
    computes: under the day of the first date token of the name, in the
    directory of its kind, the snapshot for a [papers_*.jsonl] file, the
    overall summary or the chunk summary of the same part for a
    [summary_*.json] file, the overall response or the response of the same
    part for a [response_*] file, the prompt of the same part for a
    [prompt_*] file. *)
Inductive destination : path → path → Prop :=
| destination_raw name tok day :
    glob_papers name = true →
    Str.search_date name = Some tok → fromisoformat tok = Ok day →
    destination (["raw"], name) (raw_path day)
| destination_summary_overall name tok day :
    Str.startswith name "summary_" = true → suffix name = ".json" →
    Str.search_date name = Some tok → fromisoformat tok = Ok day →
    Str.contains name "overall" = true →
    destination (["summaries"], name) (overall_path day)
| destination_summary_part name tok day digits :
    Str.startswith name "summary_" = true → suffix name = ".json" →
    Str.search_date name = Some tok → fromisoformat tok = Ok day →
    Str.contains name "overall" = false →
    Str.search_part name = Some digits →
    destination (["summaries"], name) (chunk_path day (Z.of_N (Str.to_N digits)))
| destination_response_overall name tok day :
    Str.startswith name "response_" = true →
    Str.search_date name = Some tok → fromisoformat tok = Ok day →
    Str.contains name "overall" = true →
    destination (["responses"], name) (responses_dir day, "response_overall.txt")
| destination_response_part name tok day digits :
    Str.startswith name "response_" = true →
    Str.search_date name = Some tok → fromisoformat tok = Ok day →
    Str.contains name "overall" = false →
    Str.search_part name = Some digits →
    destination (["responses"], name)
      (responses_dir day,
       "response_part" +:+ Str.fmt02d (Z.of_N (Str.to_N digits)) +:+ ".txt")
| destination_prompt_part name tok day digits :
    Str.startswith name "prompt_" = true →
    Str.search_date name = Some tok → fromisoformat tok = Ok day →
    Str.search_part name = Some digits →
    destination (["prompts"], name)
      (_date_dir day ++ ["prompts"],
       "prompt_part" +:+ Str.fmt02d (Z.of_N (Str.to_N digits)) +:+ ".txt").

(** a legacy snapshot whose date token is no calendar date, alone on the
    disk *)
Definition legacy_non_date : fs :=
  {[ (["raw"], "papers_2024-13-45.jsonl") := "{}" ]}.

(** one legacy file of each kind *)
Definition legacy_kinds : fs :=
  {[ (["raw"], "papers_2024-01-05.jsonl") := "r";
     (["summaries"], "summary_2024-01-05_part03.json") := "s3";
     (["summaries"], "summary_2024-01-05_overall.json") := "so";
     (["responses"], "response_2024-01-05_part03.txt") := "r3";
     (["prompts"], "prompt_2024-01-05_part03.txt") := "p3" ]}.

(** the same files where the migration puts them *)
Definition migrated_kinds : fs :=
  {[ (["2024-01-05"; "raw"], "papers.jsonl") := "r";
     (["2024-01-05"; "summaries"], "summary_part03.json") := "s3";
     (["2024-01-05"; "summaries"], "summary_overall.json") := "so";
     (["2024-01-05"; "responses"], "response_part03.txt") := "r3";
     (["2024-01-05"; "prompts"], "prompt_part03.txt") := "p3" ]}.

(** ** An overall model that answers the empty object *)

Definition E_blank : env :=
  Env 738891 "2024-01-06T09:00:00"
    (λ _ _, Ok [Ex.paper_n 0])
    (λ _ chunk, Ok (Ex.answer chunk))
    (λ _ _, Ok "{}")
    (λ _ _ _ _, Ok ()).

(** * Properties *)

(** ** Strings and paths *)

Lemma append_cons (x : ascii) (a b : string) :
  String x a +:+ b = String x (a +:+ b).
Proof. reflexivity. Qed.

Lemma append_assoc (a b c : string) : (a +:+ b) +:+ c = a +:+ (b +:+ c).
Proof. induction a as [|x a IH]; [done | by rewrite !append_cons, IH]. Qed.

Lemma length_append (a b : string) :
  String.length (a +:+ b) = (String.length a + String.length b)%nat.
Proof. induction a as [|x a IH]; [done | by rewrite append_cons; simpl; rewrite IH]. Qed.

Lemma append_empty_r (a : string) : a +:+ EmptyString = a.
Proof. induction a as [|x a IH]; [done | by rewrite append_cons, IH]. Qed.

Lemma last_dot_split_app (s b e : string) :
  last_dot_split s = Some (b, e) → b +:+ e = s.
Proof.
  revert b e. induction s as [|a s IH]; intros b e; simpl; [done|].
  destruct (last_dot_split s) as [[b' e']|].
  - intros [= <- <-]. by rewrite append_cons, (IH b' e').
  - destruct (Ascii.eqb a "."); [|done]. by intros [= <- <-].
Qed.

(** the temporary file of [_atomic_write] is the final name followed by
    [.tmp] *)
Lemma with_suffix_tmp (name : string) :
  with_suffix name (suffix name +:+ ".tmp") = name +:+ ".tmp".
Proof.
  unfold with_suffix, suffix.
  destruct (last_dot_split name) as [[b e]|] eqn:Hs; [|done].
  destruct (negb (String.eqb b EmptyString) && (1 <? String.length e)%nat); [|done].
  by rewrite <- append_assoc, (last_dot_split_app _ _ _ Hs).
Qed.

Lemma temp_path_dir (p : path) : (temp_path p).1 = p.1.
Proof. done. Qed.

Lemma temp_path_ne (p : path) : temp_path p ≠ p.
Proof.
  destruct p as [dir name]. unfold temp_path. simpl. rewrite with_suffix_tmp.
  intros [= H]. apply (f_equal String.length) in H.
  rewrite length_append in H. simpl in H. lia.
Qed.

Lemma _atomic_write_ok (p : path) (data : string) (d : fs) :
  _atomic_write p data d = Ok (<[p := data]> (delete (temp_path p) d)).
Proof.
  unfold _atomic_write, _atomic_write_ops. simpl. unfold mbind, result_bind. simpl.
  unfold replace, write_text. rewrite lookup_insert_eq.
  by rewrite delete_insert_eq.
Qed.

Lemma atomic_write_run (p : path) (data : string) (w : world) :
  atomic_write p data w
  = (Ok (), World (<[p := data]> (delete (temp_path p) (disk w)))
                  (trace w ++ [EvWrite p data])).
Proof. unfold atomic_write. by rewrite _atomic_write_ok. Qed.

(** ** Atomic write *)

(** Wherever the process stops in [_atomic_write], the final path holds its
    previous value or the complete new one. *)
Lemma final_path_old_or_new (p : path) (data : string) (d d' : fs) :
  stops_at (_atomic_write_ops p data) d d' →
  d' !! p = d !! p ∨ d' !! p = Some data.
Proof.
  intros Hstop. pose proof (temp_path_ne p) as Hne.
  unfold _atomic_write_ops in Hstop.
  inversion Hstop as [| |o rest d0 d1 d2 Hop Hrest]; subst.
  - by left.
  - left. by rewrite lookup_insert_ne.
  - simpl in Hop. injection Hop as <-. unfold write_text in Hrest.
    inversion Hrest as [| |o rest d0 d1 d2 Hop Hrest']; subst.
    + left. by rewrite lookup_insert_ne.
    + simpl in Hop. unfold replace in Hop. rewrite lookup_insert_eq in Hop.
      injection Hop as <-.
      inversion Hrest'; subst. right. by rewrite lookup_insert_eq.
Qed.

(** A write that completes installs the new value. *)
Lemma _atomic_write_installs (p : path) (data : string) (d : fs) :
  ∃ d_end, _atomic_write p data d = Ok d_end ∧ d_end !! p = Some data.
Proof. eexists. split; [apply _atomic_write_ok|]. by rewrite lookup_insert_eq. Qed.

(** ** C6, C5: the dedup state *)

Lemma update_state_keeps
    (st : state) (target_date : date) (papers : list Paper) (now : string) (d : date) :
  seen_on st d ⊆ seen_on (update_state_with_papers st target_date papers now) d.
Proof.
  unfold seen_on, update_state_with_papers. simpl.
  destruct (decide (target_date = d)) as [->|Hne].
  - rewrite lookup_insert_eq. simpl. rewrite list_to_set_app_L.
    apply union_subseteq_l.
  - by rewrite lookup_insert_ne.
Qed.

Lemma update_state_records
    (st : state) (target_date : date) (papers : list Paper) (now : string) :
  list_to_set (paper_id <$> papers)
  ⊆@{gset string} seen_on (update_state_with_papers st target_date papers now) target_date.
Proof.
  unfold seen_on, update_state_with_papers. simpl.
  rewrite lookup_insert_eq. simpl. rewrite list_to_set_app_L.
  apply union_subseteq_r.
Qed.

(** C6. Recording items never removes an id from any day, and every
    recorded id is under the target day afterwards. *)
Theorem record_grows_every_day
    (st : state) (target_date : date) (papers : list Paper) (now : string) :
  (∀ d, seen_on st d
        ⊆ seen_on (update_state_with_papers st target_date papers now) d)
  ∧ list_to_set (paper_id <$> papers)
    ⊆@{gset string} seen_on (update_state_with_papers st target_date papers now) target_date.
Proof.
  split.
  - intros d. apply update_state_keeps.
  - apply update_state_records.
Qed.

Lemma build_seen_set_elem (st : state) (r : Z) (today : date) (seen : gset string) :
  build_seen_set st r today = Ok seen →
  ∀ id, id ∈ seen ↔ ∃ d, id ∈ seen_on st d ∧ today - d ≤ r.
Proof.
  unfold build_seen_set, sub_days.
  destruct ((1 <=? today - r) && (today - r <=? MAXORDINAL)); [|done].
  unfold mbind, result_bind. simpl. intros [= <-] id.
  rewrite elem_of_union_list. split.
  - intros (X & HX & Hid). apply list_elem_of_fmap in HX as ([d ids] & -> & Hin).
    apply elem_of_map_to_list in Hin. simpl in Hid.
    case_bool_decide as Hc; [|by apply not_elem_of_empty in Hid].
    exists d. unfold seen_on. rewrite Hin. simpl. split; [done | lia].
  - intros (d & Hid & Hd). unfold seen_on in Hid.
    destruct (seen_by_date st !! d) as [ids|] eqn:Hl; simpl in Hid; [|set_solver].
    exists (list_to_set ids). split; [|done].
    apply list_elem_of_fmap. exists (d, ids). simpl. split.
    + rewrite bool_decide_eq_true_2; [done | lia].
    + by apply elem_of_map_to_list.
Qed.

Lemma build_seen_set_ok (st : state) (r : Z) (today : date) :
  1 ≤ today - r ≤ MAXORDINAL → ∃ seen, build_seen_set st r today = Ok seen.
Proof.
  intros Hr. unfold build_seen_set, sub_days.
  assert ((1 <=? today - r) && (today - r <=? MAXORDINAL) = true) as Hc.
  { apply andb_true_iff. split; apply Z.leb_le; lia. }
  rewrite Hc. by eexists.
Qed.

(** C5, as the code has it. Provided the cutoff [today - r] is a date, the
    seen set is computed and holds an id exactly when some day [d] with
    [today - d <= r] records it. The function is pure: it returns the set
    and leaves the state, days outside the window included, as it is. *)
Theorem seen_set_is_window_union (st : state) (r : Z) (today : date) :
  1 ≤ today - r ≤ MAXORDINAL →
  ∃ seen, build_seen_set st r today = Ok seen
          ∧ ∀ id, id ∈ seen ↔ ∃ d, id ∈ seen_on st d ∧ today - d ≤ r.
Proof.
  intros Hr. destruct (build_seen_set_ok st r today Hr) as (seen & Hb).
  exists seen. split; [done|]. by apply build_seen_set_elem.
Qed.

Lemma seen_set_is_window_union_witness :
  ∃ seen, build_seen_set Ex.twice_seen 30 738891 = Ok seen
          ∧ ∀ id, id ∈ seen ↔ ∃ d, id ∈ seen_on Ex.twice_seen d ∧ 738891 - d ≤ 30.
Proof. apply seen_set_is_window_union. unfold MAXORDINAL. lia. Defined.

(** C5 as stated fails: an id recorded under a day outside the window, and
    again under a day inside it, is in the seen set; and a retention that
    reaches back before the first day of the calendar gives no set at all,
    the subtraction of the days raises. *)
Lemma seen_set_counterexample :
  "x" ∈ seen_on Ex.twice_seen 738800
  ∧ build_seen_set Ex.twice_seen 30 738891 = Ok {["x"]}
  ∧ ¬ ("x" ∈ ({["x"]} : gset string) ↔ 738891 - 738800 ≤ 30)
  ∧ build_seen_set Ex.twice_seen 800000 738891 = Raise OverflowError.
Proof.
  split; [by vm_compute|]. split; [by vm_compute|]. split; [|by vm_compute].
  intros [H _]. specialize (H ltac:(set_solver)). lia.
Qed.

(** ** Directory listings *)

Lemma elem_of_names_in (dir : list string) (d : fs) (n : string) :
  n ∈ names_in dir d ↔ is_Some (d !! (dir, n)).
Proof.
  unfold names_in. rewrite list_elem_of_omap. split.
  - intros ([[dir' n'] v] & Hin & Heq). simpl in Heq.
    case_decide; [|done]. injection Heq as <-. subst dir'.
    apply elem_of_map_to_list in Hin. by exists v.
  - intros [v Hv]. exists ((dir, n), v). split.
    + by apply elem_of_map_to_list.
    + simpl. by rewrite decide_True.
Qed.

Lemma NoDup_names_in (dir : list string) (d : fs) : NoDup (names_in dir d).
Proof.
  unfold names_in. pose proof (NoDup_fst_map_to_list d) as Hnd.
  induction (map_to_list d) as [|[[dir' n] v] l IH]; simpl; [constructor|].
  simpl in Hnd. apply NoDup_cons in Hnd as [Hk Hnd].
  case_decide as Hd; [|by apply IH]. subst dir'.
  apply NoDup_cons. split; [|by apply IH].
  intros Hin. apply list_elem_of_omap in Hin as ([[dir' n'] v'] & Hin & Hf).
  simpl in Hf. case_decide; [|done]. injection Hf as ->. subst dir'.
  apply Hk. apply list_elem_of_fmap. by exists ((dir, n), v').
Qed.

Lemma elem_of_iterdir (dir : list string) (d : fs) (n : string) :
  n ∈ iterdir dir d ↔ is_Some (d !! (dir, n)).
Proof. unfold iterdir. by rewrite merge_sort_Permutation, elem_of_names_in. Qed.

Lemma NoDup_iterdir (dir : list string) (d : fs) : NoDup (iterdir dir d).
Proof. unfold iterdir. rewrite merge_sort_Permutation. apply NoDup_names_in. Qed.

Lemma StronglySorted_iterdir (dir : list string) (d : fs) :
  StronglySorted String.le (iterdir dir d).
Proof. apply StronglySorted_merge_sort; apply _. Qed.

Lemma StronglySorted_filter {A} (R : relation A) (P : A → Prop)
    `{∀ x, Decision (P x)} (l : list A) :
  StronglySorted R l → StronglySorted R (filter P l).
Proof.
  induction 1 as [|x l Hl IH Hx]; [constructor|].
  rewrite filter_cons. case_decide; [|done].
  constructor; [done|]. rewrite Forall_forall in Hx |- *.
  intros y Hy. apply Hx. by apply list_elem_of_filter in Hy as [_ ?].
Qed.

(** two disks with the same files of interest in a directory list them
    alike *)
Lemma filter_iterdir_ext (P : string → Prop) `{∀ x, Decision (P x)}
    (dir : list string) (d d' : fs) :
  (∀ n, P n → (is_Some (d !! (dir, n)) ↔ is_Some (d' !! (dir, n)))) →
  filter P (iterdir dir d) = filter P (iterdir dir d').
Proof.
  intros Hsame.
  apply (StronglySorted_unique String.le).
  - apply StronglySorted_filter, StronglySorted_iterdir.
  - apply StronglySorted_filter, StronglySorted_iterdir.
  - apply NoDup_Permutation.
    + apply NoDup_filter, NoDup_iterdir.
    + apply NoDup_filter, NoDup_iterdir.
    + intros n. rewrite !list_elem_of_filter, !elem_of_iterdir.
      split; intros [HP Hn]; (split; [done|]); by apply (Hsame n HP).
Qed.

Lemma iterdir_ext (dir : list string) (d d' : fs) :
  (∀ n, is_Some (d !! (dir, n)) ↔ is_Some (d' !! (dir, n))) →
  iterdir dir d = iterdir dir d'.
Proof.
  intros Hsame.
  pose proof (filter_iterdir_ext (λ _, True) dir d d' (λ n _, Hsame n)) as Hf.
  assert (∀ l : list string, filter (λ _, True) l = l) as Hid.
  { induction l as [|x l IH]; [done|]. rewrite filter_cons_True; [by f_equal|done]. }
  by rewrite !Hid in Hf.
Qed.

(** ** The chunk cache on disk *)

Lemma load_chunk_files_filter (J : codec) (dir : list string) (d : fs)
    (names : list string) (acc : gmap Z json) :
  load_chunk_files J dir d names acc
  = load_chunk_files J dir d (filter is_chunk_name names) acc.
Proof.
  revert acc. induction names as [|n names IH]; intros acc; [done|].
  rewrite filter_cons. destruct (decide (is_chunk_name n)) as [Hp|Hp].
  - simpl. rewrite Hp.
    destruct (load_chunk_file J _ acc); simpl; [apply IH | done].
  - simpl. apply not_true_is_false in Hp. rewrite Hp. apply IH.
Qed.

Lemma load_chunk_files_ext (J : codec) (dir : list string) (d d' : fs)
    (names : list string) (acc : gmap Z json) :
  (∀ n, n ∈ names → is_chunk_name n → d !! (dir, n) = d' !! (dir, n)) →
  load_chunk_files J dir d names acc = load_chunk_files J dir d' names acc.
Proof.
  revert acc. induction names as [|n names IH]; intros acc Hsame; [done|].
  simpl. destruct (Str.startswith n "summary_part") eqn:Hp.
  - rewrite (Hsame n) by (done || by left).
    destruct (load_chunk_file J _ acc); simpl; [|done].
    apply IH. intros m Hm. apply Hsame. by right.
  - apply IH. intros m Hm. apply Hsame. by right.
Qed.

(** the chunk cache read from disk depends on the chunk files only *)
Lemma load_summary_chunks_ext (J : codec) (d d' : fs) (day : date) :
  (∀ n, is_chunk_name n → d !! (summaries_dir day, n) = d' !! (summaries_dir day, n)) →
  load_summary_chunks J d day = load_summary_chunks J d' day.
Proof.
  intros Hsame. unfold load_summary_chunks.
  rewrite (load_chunk_files_filter J _ d), (load_chunk_files_filter J _ d').
  rewrite (filter_iterdir_ext is_chunk_name _ d d').
  - apply load_chunk_files_ext. intros n _ Hn. by apply Hsame.
  - intros n Hn. by rewrite (Hsame n Hn).
Qed.

Lemma has_summary_for_date_ext (d d' : fs) (day : date) :
  (∀ n, is_chunk_name n → d !! (summaries_dir day, n) = d' !! (summaries_dir day, n)) →
  has_summary_for_date d day = has_summary_for_date d' day.
Proof.
  intros Hsame. unfold has_summary_for_date.
  apply eq_true_iff_eq. rewrite !existsb_exists. split.
  - intros (n & Hin & Hp). exists n. split; [|done].
    apply list_elem_of_In, elem_of_iterdir. rewrite <- (Hsame n Hp).
    by apply elem_of_iterdir, list_elem_of_In.
  - intros (n & Hin & Hp). exists n. split; [|done].
    apply list_elem_of_In, elem_of_iterdir. rewrite (Hsame n Hp).
    by apply elem_of_iterdir, list_elem_of_In.
Qed.

(** ** Chunk file names *)

Lemma append_inj_r (a b s : string) : a +:+ s = b +:+ s → a = b.
Proof.
  revert b. induction a as [|x a IH]; intros [|y b] H.
  - done.
  - apply (f_equal String.length) in H. rewrite !length_append in H.
    simpl in H. lia.
  - apply (f_equal String.length) in H. rewrite !length_append in H.
    simpl in H. lia.
  - rewrite !append_cons in H. injection H as -> H. f_equal. by apply IH.
Qed.

Lemma to_uint_nonnil (n : N) : N.to_uint n ≠ Nil.
Proof. destruct n as [|p]; [done|]. apply DecimalPos.Unsigned.to_uint_nonnil. Qed.

Lemma to_N_of_N (n : N) : Str.to_N (Str.of_N n) = n.
Proof.
  unfold Str.to_N, Str.of_N.
  rewrite NilZero.usu by apply to_uint_nonnil.
  apply DecimalN.Unsigned.of_to.
Qed.

Lemma of_N_nonempty (n : N) : Str.of_N n ≠ EmptyString.
Proof.
  intros H. pose proof (to_N_of_N n) as Hn. rewrite H in Hn.
  subst n. by vm_compute in H.
Qed.

Lemma to_N_zero_cons (t : string) :
  t ≠ EmptyString → Str.to_N (String "0" t) = Str.to_N t.
Proof.
  intros Ht. unfold Str.to_N. destruct t as [|a t]; [done|].
  simpl. destruct (uint_of_char a (NilEmpty.uint_of_string t)); done.
Qed.

Lemma to_N_zfill (w : nat) (s : string) :
  s ≠ EmptyString → Str.to_N (Str.zfill w s) = Str.to_N s.
Proof.
  intros Hs. unfold Str.zfill.
  induction (w - String.length s)%nat as [|k IH]; simpl; [done|].
  rewrite append_cons, to_N_zero_cons; [done|].
  destruct (string_of_list_ascii (repeat "0"%char k)); [done|].
  by rewrite append_cons.
Qed.

Lemma fmt02d_inj (a b : Z) : 0 ≤ a → 0 ≤ b → Str.fmt02d a = Str.fmt02d b → a = b.
Proof.
  intros Ha Hb H. unfold Str.fmt02d in H.
  rewrite !(proj2 (Z.ltb_ge _ 0)) in H by done.
  apply (f_equal Str.to_N) in H.
  rewrite !to_N_zfill, !to_N_of_N in H by apply of_N_nonempty. lia.
Qed.

Lemma chunk_name_inj (a b : Z) : 0 ≤ a → 0 ≤ b → chunk_name a = chunk_name b → a = b.
Proof.
  intros Ha Hb H. unfold chunk_name in H.
  apply (inj (String.append "summary_part")) in H.
  apply append_inj_r in H. by apply fmt02d_inj.
Qed.

Lemma chunk_name_is_chunk_name (i : Z) : is_chunk_name (chunk_name i).
Proof. unfold is_chunk_name, chunk_name. by rewrite !append_cons. Qed.

Lemma json_ne_json_tmp (a b : string) : a +:+ ".json" ≠ b +:+ ".json.tmp".
Proof.
  revert b. induction a as [|x a IH]; intros [|y b] H.
  - done.
  - apply (f_equal String.length) in H. rewrite !length_append in H.
    simpl in H. lia.
  - destruct a as [|c1 [|c2 [|c3 [|c4 a]]]]; try done.
    apply (f_equal String.length) in H. rewrite !append_cons in H.
    simpl in H. rewrite length_append in H. simpl in H. lia.
  - rewrite !append_cons in H. injection H as _ H. by apply (IH b).
Qed.

Lemma temp_chunk_path_ne (day : date) (i j : Z) :
  temp_path (chunk_path day j) ≠ chunk_path day i.
Proof.
  unfold temp_path, chunk_path. simpl. rewrite with_suffix_tmp.
  intros [= H].
  change ((Str.fmt02d j +:+ ".json") +:+ ".tmp" = Str.fmt02d i +:+ ".json") in H.
  rewrite append_assoc in H. symmetry in H. by apply json_ne_json_tmp in H.
Qed.

Lemma temp_chunk_path_is_not_chunk (J : codec) (day : date) (d : fs)
    (cs : list SummaryChunk) (j : Z) :
  holds_chunks J day d cs → Forall (λ c, 0 < chunk_index c) cs →
  d !! temp_path (chunk_path day j) = None.
Proof.
  intros [_ H2] Hpos.
  destruct (d !! temp_path (chunk_path day j)) as [v|] eqn:Hl; [|done].
  exfalso. unfold temp_path, chunk_path in Hl. simpl in Hl.
  rewrite with_suffix_tmp in Hl.
  destruct (H2 (chunk_name j +:+ ".tmp")) as (c & Hc & Hn).
  - unfold is_chunk_name, chunk_name. by rewrite !append_cons.
  - by exists v.
  - apply (temp_chunk_path_ne day (chunk_index c) j).
    unfold temp_path, chunk_path. simpl. by rewrite with_suffix_tmp, Hn.
Qed.

Lemma save_summary_chunk_run (J : codec) (c : SummaryChunk) (day : date) (w : world) :
  fromisoformat (date_ c) = Ok day →
  save_summary_chunk J c w
  = (Ok (),
     World (<[chunk_path day (chunk_index c) := dumps_indent J (chunk_payload c)]>
              (delete (temp_path (chunk_path day (chunk_index c))) (disk w)))
           (trace w ++ [EvWrite (chunk_path day (chunk_index c))
                                (dumps_indent J (chunk_payload c))])).
Proof.
  intros Hd. unfold save_summary_chunk, mbind, M_bind, lift. rewrite Hd.
  apply atomic_write_run.
Qed.

Lemma NoDup_fmap_eq {A B} (f : A → B) (l : list A) (x y : A) :
  NoDup (f <$> l) → x ∈ l → y ∈ l → f x = f y → x = y.
Proof.
  induction l as [|a l IH]; intros Hnd Hx Hy Hf; [by inv Hx|].
  rewrite fmap_cons in Hnd. apply NoDup_cons in Hnd as [Ha Hnd].
  apply elem_of_cons in Hx as [->|Hx]; apply elem_of_cons in Hy as [->|Hy].
  - done.
  - exfalso. apply Ha. rewrite Hf. by apply list_elem_of_fmap_2.
  - exfalso. apply Ha. rewrite <- Hf. by apply list_elem_of_fmap_2.
  - by apply IH.
Qed.

(** saving one more chunk, of a fresh index, keeps the files and the
    chunks in step *)
Lemma holds_chunks_save (J : codec) (day : date) (d : fs)
    (cs : list SummaryChunk) (c : SummaryChunk) :
  holds_chunks J day d cs →
  Forall (λ c, 0 < chunk_index c) (cs ++ [c]) →
  NoDup (chunk_index <$> (cs ++ [c])) →
  holds_chunks J day
    (<[chunk_path day (chunk_index c) := dumps_indent J (chunk_payload c)]>
       (delete (temp_path (chunk_path day (chunk_index c))) d))
    (cs ++ [c]).
Proof.
  intros Hinv Hpos Hnd. pose proof Hinv as [H1 H2]. split.
  - intros c' Hc'. apply elem_of_app in Hc' as [Hc'|Hc'].
    + assert (chunk_index c' ≠ chunk_index c) as Hne.
      { intros Heq. assert (c' = c) as ->.
        { apply (NoDup_fmap_eq chunk_index (cs ++ [c])); try done.
          - apply elem_of_app. by left.
          - apply elem_of_app. right. by apply list_elem_of_singleton. }
        rewrite fmap_app in Hnd. apply NoDup_app in Hnd as (_ & Hd & _).
        apply (Hd (chunk_index c)); [by apply list_elem_of_fmap_2|].
        simpl. by left. }
      rewrite lookup_insert_ne.
      * rewrite lookup_delete_ne; [by apply H1|]. apply temp_chunk_path_ne.
      * intros Hn. apply (f_equal snd) in Hn. simpl in Hn. apply Hne. symmetry.
        rewrite Forall_forall in Hpos.
        assert (0 < chunk_index c') by (apply Hpos, elem_of_app; by left).
        assert (0 < chunk_index c)
          by (apply Hpos, elem_of_app; right; by apply list_elem_of_singleton).
        apply chunk_name_inj; [lia | lia | done].
    + apply list_elem_of_singleton in Hc' as ->. by rewrite lookup_insert_eq.
  - intros n Hn [v Hv].
    destruct (decide (chunk_path day (chunk_index c) = (summaries_dir day, n)))
      as [Heq|Hne].
    + exists c. split.
      * apply elem_of_app. right. by apply list_elem_of_singleton.
      * unfold chunk_path in Heq. by injection Heq as <-.
    + rewrite lookup_insert_ne in Hv by done.
      apply lookup_delete_Some in Hv as [_ Hv].
      destruct (H2 n Hn) as (c' & Hc' & ->); [by exists v|].
      exists c'. split; [|done]. apply elem_of_app. by left.
Qed.

Lemma mapM_cons_run {A B} (f : A → M B) (x : A) (l : list A) (w : world) :
  mapM f (x :: l) w
  = match f x w with
    | (Ok y, w1) =>
        match mapM f l w1 with
        | (Ok k, w2) => (Ok (y :: k), w2)
        | (Raise e, w2) => (Raise e, w2)
        end
    | (Raise e, w1) => (Raise e, w1)
    end.
Proof.
  change (mapM f (x :: l)) with (y ← f x; k ← mapM f l; mret (y :: k)).
  unfold mbind, M_bind, mret, M_ret.
  destruct (f x w) as [[y|e] w1]; [|done].
  by destruct (mapM f l w1) as [[k|e] w2].
Qed.

Lemma save_chunks_run (J : codec) (day : date) (cs : list SummaryChunk) :
  ∀ (w : world) (done_ : list SummaryChunk),
    holds_chunks J day (disk w) done_ →
    Forall (reads_back J day) (done_ ++ cs) →
    NoDup (chunk_index <$> (done_ ++ cs)) →
    ∃ us w', mapM (save_summary_chunk J) cs w = (Ok us, w')
             ∧ holds_chunks J day (disk w') (done_ ++ cs).
Proof.
  induction cs as [|c cs IH]; intros w done_ Hinv Hgood Hnd.
  - exists [], w. by rewrite app_nil_r.
  - assert (reads_back J day c) as (Hpos & Hday & Hrt).
    { rewrite Forall_forall in Hgood. apply Hgood, elem_of_app. right. by left. }
    replace (done_ ++ c :: cs) with ((done_ ++ [c]) ++ cs) in *
      by (by rewrite <- app_assoc).
    rewrite mapM_cons_run, (save_summary_chunk_run J c day w Hday).
    set (w1 := World _ _).
    destruct (IH w1 (done_ ++ [c]))
      as (us & w' & Hrun & Hinv'); [| exact Hgood | exact Hnd |].
    + simpl. apply holds_chunks_save; [done| |].
      * apply Forall_app in Hgood as [Hg _].
        eapply Forall_impl; [exact Hg|]. by intros ? (? & _).
      * rewrite fmap_app in Hnd. by apply NoDup_app in Hnd as (? & _).
    + exists (() :: us), w'. split; [|done]. by rewrite Hrun.
Qed.

(** ** C10: what the chunk loader returns *)

Lemma load_chunk_file_saved (J : codec) (c : SummaryChunk) (acc : gmap Z json) :
  loads J (dumps_indent J (chunk_payload c)) = Some (chunk_payload c) →
  0 < chunk_index c →
  load_chunk_file J (dumps_indent J (chunk_payload c)) acc
  = Ok (<[chunk_index c := content c]> acc).
Proof.
  intros Hrt Hpos. unfold load_chunk_file. rewrite Hrt.
  unfold chunk_payload. simpl. unfold mbind, result_bind. simpl.
  by rewrite (proj2 (Z.ltb_lt 0 (chunk_index c)) Hpos).
Qed.

Lemma load_chunk_file_ignored (J : codec) (text : string)
    (kv : list (string * json)) (acc : gmap Z json) :
  loads J text = Some (JObj kv) → no_positive_index kv →
  load_chunk_file J text acc = Ok acc.
Proof.
  intros Hl Hno. unfold load_chunk_file. rewrite Hl. simpl.
  destruct Hno as [Hn | (z & Hz & Hle)].
  - rewrite Hn. unfold mbind, result_bind. simpl. done.
  - rewrite Hz. unfold mbind, result_bind. simpl.
    by rewrite (proj2 (Z.ltb_ge 0 z) Hle).
Qed.

Lemma load_chunk_files_saved (J : codec) (day : date) (d : fs)
    (cs : list SummaryChunk) (names : list string) :
  holds_chunks J day d cs →
  Forall (reads_back J day) cs →
  NoDup (chunk_index <$> cs) →
  NoDup names →
  (∀ n, n ∈ names → is_chunk_name n ∧ is_Some (d !! (summaries_dir day, n))) →
  ∀ acc, ∃ m,
    load_chunk_files J (summaries_dir day) d names acc = Ok m
    ∧ (∀ c, c ∈ cs → chunk_name (chunk_index c) ∈ names →
            m !! chunk_index c = Some (content c))
    ∧ (∀ i, (∀ c, c ∈ cs → chunk_name (chunk_index c) ∈ names → chunk_index c ≠ i) →
            m !! i = acc !! i).
Proof.
  intros [H1 H2] Hgood Hnd. rewrite Forall_forall in Hgood.
  induction names as [|n names IH]; intros Hnn Hnames acc.
  - exists acc. split; [done|]. split; [|done]. intros c _ Hin. by inv Hin.
  - apply NoDup_cons in Hnn as [Hn Hnn].
    destruct (Hnames n) as [Hchunk Hsome]; [by left|].
    destruct (H2 n Hchunk Hsome) as (c0 & Hc0 & ->).
    destruct (Hgood c0 Hc0) as (Hpos & _ & Hrt).
    destruct (IH Hnn (λ m Hm, Hnames m (list_elem_of_further _ _ _ Hm))
                 (<[chunk_index c0 := content c0]> acc))
      as (m & Hrun & Ha & Hb).
    exists m. split; [|split].
    + cbn [load_chunk_files]. rewrite Hchunk.
      change (d !! (summaries_dir day, chunk_name (chunk_index c0)))
        with (d !! chunk_path day (chunk_index c0)).
      rewrite (H1 c0 Hc0). simpl.
      rewrite load_chunk_file_saved by done. exact Hrun.
    + intros c Hc Hin. apply elem_of_cons in Hin as [Heq|Hin]; [|by apply Ha].
      assert (c = c0) as ->.
      { apply (NoDup_fmap_eq chunk_index cs); try done.
        destruct (Hgood c Hc) as (Hposc & _).
        apply chunk_name_inj; [lia | lia | done]. }
      rewrite Hb; [by rewrite lookup_insert_eq|].
      intros c' Hc' Hin' Heq'. apply Hn. by rewrite <- Heq'.
    + intros i Hi. rewrite Hb.
      * rewrite lookup_insert_ne; [done|]. apply (Hi c0 Hc0). by left.
      * intros c Hc Hin. apply (Hi c Hc). by right.
Qed.

Lemma load_of_holds_chunks (J : codec) (day : date) (d : fs) (cs : list SummaryChunk) :
  holds_chunks J day d cs →
  Forall (reads_back J day) cs →
  NoDup (chunk_index <$> cs) →
  load_summary_chunks J d day
  = Ok (list_to_map ((λ c, (chunk_index c, content c)) <$> cs)).
Proof.
  intros Hinv Hgood Hnd. unfold load_summary_chunks.
  rewrite load_chunk_files_filter.
  destruct (load_chunk_files_saved J day d cs
              (filter is_chunk_name (iterdir (summaries_dir day) d))
              Hinv Hgood Hnd) with (acc := (∅ : gmap Z json))
    as (m & Hrun & Ha & Hb).
  { apply NoDup_filter, NoDup_iterdir. }
  { intros n Hn. apply list_elem_of_filter in Hn as [Hc Hn].
    split; [done|]. by apply elem_of_iterdir. }
  rewrite Hrun. f_equal. apply map_eq. intros i.
  assert (((λ c, (chunk_index c, content c)) <$> cs).*1 = chunk_index <$> cs) as Hfst.
  { rewrite <- list_fmap_compose. done. }
  assert (∀ c, c ∈ cs →
            chunk_name (chunk_index c)
            ∈ filter is_chunk_name (iterdir (summaries_dir day) d)) as Hlisted.
  { intros c Hc. apply list_elem_of_filter. split.
    - apply chunk_name_is_chunk_name.
    - apply elem_of_iterdir. destruct Hinv as [H1 _].
      exists (dumps_indent J (chunk_payload c)). by apply H1. }
  destruct (decide (i ∈ chunk_index <$> cs)) as [Hi|Hi].
  - apply list_elem_of_fmap in Hi as (c & -> & Hc).
    rewrite (Ha c Hc (Hlisted c Hc)). symmetry.
    apply elem_of_list_to_map_1; [by rewrite Hfst|].
    apply list_elem_of_fmap. by exists c.
  - rewrite Hb.
    + rewrite lookup_empty. symmetry. apply not_elem_of_list_to_map_1.
      by rewrite Hfst.
    + intros c Hc _ Heq. apply Hi. rewrite <- Heq. by apply list_elem_of_fmap_2.
Qed.

Lemma load_chunk_files_skip (J : codec) (dir : list string) (d : fs)
    (names : list string) (n : string) :
  (∀ acc, load_chunk_file J (default EmptyString (d !! (dir, n))) acc = Ok acc) →
  ∀ acc, load_chunk_files J dir d names acc
         = load_chunk_files J dir d (filter (λ m, m ≠ n) names) acc.
Proof.
  intros Hskip. induction names as [|m names IH]; intros acc; [done|].
  rewrite filter_cons. destruct (decide (m ≠ n)) as [Hne|Heq].
  - cbn [load_chunk_files]. destruct (Str.startswith m "summary_part"); [|apply IH].
    destruct (load_chunk_file J _ acc); simpl; [apply IH | done].
  - apply dec_stable in Heq. subst m. cbn [load_chunk_files].
    destruct (Str.startswith n "summary_part"); [|apply IH].
    rewrite Hskip. simpl. apply IH.
Qed.

Lemma filter_all {A} (P : A → Prop) `{∀ x, Decision (P x)} (l : list A) :
  Forall P l → filter P l = l.
Proof.
  induction 1 as [|x l Hx Hl IH]; [done|].
  rewrite filter_cons_True by done. by f_equal.
Qed.

(** a chunk-named file whose payload has no positive index changes nothing
    in what the loader returns *)
Lemma load_summary_chunks_ignores (J : codec) (day : date) (d : fs)
    (n text : string) (kv : list (string * json)) :
  d !! (summaries_dir day, n) = None →
  loads J text = Some (JObj kv) → no_positive_index kv →
  load_summary_chunks J (<[(summaries_dir day, n) := text]> d) day
  = load_summary_chunks J d day.
Proof.
  intros Hfresh Hl Hno. unfold load_summary_chunks.
  set (dir := summaries_dir day). set (d' := <[(dir, n) := text]> d).
  rewrite (load_chunk_files_skip J dir d' _ n).
  2:{ intros acc. unfold d'. rewrite lookup_insert_eq. simpl.
      by apply (load_chunk_file_ignored J text kv). }
  assert (filter (λ m, m ≠ n) (iterdir dir d') = iterdir dir d) as ->.
  { rewrite (filter_iterdir_ext (λ m, m ≠ n) dir d' d).
    - apply filter_all, Forall_forall. intros m Hm ->.
      apply elem_of_iterdir in Hm. unfold dir in Hm.
      rewrite Hfresh in Hm. by destruct Hm.
    - intros m Hm. unfold d'. rewrite lookup_insert_ne; [done|]. congruence. }
  apply load_chunk_files_ext. intros m Hm _.
  unfold d'. rewrite lookup_insert_ne; [done|].
  intros [= ->]. apply elem_of_iterdir in Hm. unfold dir in Hm.
      rewrite Hfresh in Hm. by destruct Hm.
Qed.

Lemma save_overall_summary_keeps_chunks (J : codec) (day : date) (summary : json)
    (w : world) :
  load_summary_chunks J (disk (save_overall_summary J day summary w).2) day
  = load_summary_chunks J (disk w) day.
Proof.
  unfold save_overall_summary. rewrite atomic_write_run. simpl.
  apply load_summary_chunks_ext. intros n Hn.
  rewrite lookup_insert_ne.
  - rewrite lookup_delete_ne; [done|].
    intros [= <-]. by vm_compute in Hn.
  - intros [= <-]. by vm_compute in Hn.
Qed.

(** C10. Chunk summaries of a day saved under distinct positive indices,
    in a directory that held no chunk file, load back as exactly the map
    from each index to its content; on any disk, saving the overall summary
    leaves the loaded map as it was; and a new file whose payload has no
    [chunk_index], or one that is not positive, adds nothing to it. *)
Theorem saved_chunks_load_back (J : codec) (day : date) (d : fs)
    (cs : list SummaryChunk) :
  (∀ n, is_chunk_name n → d !! (summaries_dir day, n) = None) →
  NoDup (chunk_index <$> cs) →
  Forall (reads_back J day) cs →
  (∃ us w', mapM (save_summary_chunk J) cs (World d []) = (Ok us, w')
            ∧ load_summary_chunks J (disk w') day
              = Ok (list_to_map ((λ c, (chunk_index c, content c)) <$> cs)))
  ∧ (∀ w summary,
       load_summary_chunks J (disk (save_overall_summary J day summary w).2) day
       = load_summary_chunks J (disk w) day)
  ∧ (∀ d0 n text kv,
       d0 !! (summaries_dir day, n) = None →
       loads J text = Some (JObj kv) → no_positive_index kv →
       load_summary_chunks J (<[(summaries_dir day, n) := text]> d0) day
       = load_summary_chunks J d0 day).
Proof.
  intros Hempty Hnd Hgood. split.
  - destruct (save_chunks_run J day cs (World d []) []) as (us & w' & Hrun & Hinv).
    + split; [by intros c Hc; inv Hc|].
      intros n Hn [v Hv]. simpl in Hv. by rewrite (Hempty n Hn) in Hv.
    + done.
    + done.
    + exists us, w'. split; [done|]. by apply load_of_holds_chunks.
  - split.
    + intros w summary. apply save_overall_summary_keeps_chunks.
    + intros d0 n text kv. apply load_summary_chunks_ignores.
Qed.

Lemma saved_chunks_load_back_witness :
  load_summary_chunks RefJson.J
    (disk (mapM (save_summary_chunk RefJson.J) [Ex.chunk1; Ex.chunk2] (World ∅ [])).2)
    Ex.day
  = Ok (<[1 := content Ex.chunk1]> (<[2 := content Ex.chunk2]> ∅)).
Proof.
  assert (NoDup (chunk_index <$> [Ex.chunk1; Ex.chunk2])) as Hnodup.
  { apply NoDup_cons. split; [|apply NoDup_singleton].
    intros Hin%list_elem_of_singleton. discriminate Hin. }
  assert (Forall (reads_back RefJson.J Ex.day) [Ex.chunk1; Ex.chunk2]) as Hback.
  { repeat constructor; vm_compute; reflexivity. }
  destruct (saved_chunks_load_back RefJson.J Ex.day ∅ [Ex.chunk1; Ex.chunk2]
              (λ n _, lookup_empty _) Hnodup Hback)
    as ((us & w' & Hsave & Hload) & _).
  rewrite Hsave. exact Hload.
Defined.

(** ** C9: migration of the legacy layout *)

Lemma relocates_refl (d : fs) : relocates d d [].
Proof.
  split; [done|]. split; [by left|]. intros src dst H. by inv H.
Qed.

Lemma relocates_trans (d d1 d2 : fs) (m1 m2 : list (path * path)) :
  relocates d d1 m1 → relocates d1 d2 m2 → relocates d d2 (m1 ++ m2).
Proof.
  intros (Ha1 & Hb1 & Hc1) (Ha2 & Hb2 & Hc2). split; [|split].
  - intros p Hp Hs. rewrite Ha2; [by apply Ha1|done|].
    rewrite Ha1; done.
  - intros p Hp. destruct (Hb2 p Hp) as [Hx|Hx]; rewrite Hx; [by apply Hb1 | by right].
  - intros src dst Hin. apply elem_of_app in Hin as [Hin|Hin].
    + destruct (Hc1 src dst Hin) as (H1 & H2 & H3 & H4 & H5 & H6).
      repeat split; try done.
      * rewrite Ha2; [done|done|]. rewrite H3. done.
      * destruct (Hb2 src) as [Hx|Hx]; [lia| |done]. by rewrite Hx.
    + destruct (Hc2 src dst Hin) as (H1 & H2 & H3 & H4 & H5 & H6).
      assert (d1 !! src = d !! src) as Hsrc.
      { destruct (Hb1 src) as [?|Hn]; [lia|done|].
        rewrite Hn in H2. by destruct H2. }
      repeat split; try done.
      * destruct (d !! dst) as [v|] eqn:Hd; [|done].
        rewrite Ha1 in H1; [|done|by rewrite Hd]. by rewrite Hd in H1.
      * by rewrite <- Hsrc.
      * by rewrite <- Hsrc.
Qed.

Lemma relocates_move (d : fs) (dir : list string) (n : string) (t : path)
    (text : string) :
  length dir = 1%nat → length t.1 = 2%nat →
  d !! (dir, n) = Some text → d !! t = None →
  relocates d (<[t := text]> (delete (dir, n) d)) [((dir, n), t)].
Proof.
  intros Hdir Ht Hsrc Hdst.
  assert (t ≠ (dir, n)) as Hne by (intros ->; simpl in Ht; lia).
  split; [|split].
  - intros p Hp Hs. rewrite lookup_insert_ne.
    + rewrite lookup_delete_ne; [done|]. intros <-. simpl in Hp. lia.
    + intros <-. rewrite Hdst in Hs. by destruct Hs.
  - intros p Hp. rewrite lookup_insert_ne by (intros <-; lia).
    destruct (decide ((dir, n) = p)) as [<-|Hp'].
    + right. apply lookup_delete_eq.
    + left. by apply lookup_delete_ne.
  - intros src dst Hin. apply list_elem_of_singleton in Hin as [= -> ->].
    rewrite Hsrc, Hdst, lookup_insert_eq, lookup_insert_ne, lookup_delete_eq by done.
    repeat split; done.
Qed.

Lemma migrate_files_run (dir : list string)
    (target_of : string → result (option path)) :
  length dir = 1%nat → day_scoped target_of →
  ∀ names moved w r w',
    migrate_files dir target_of names moved w = (Ok r, w') →
    trace w' = trace w
    ∧ (∃ new, r = moved ++ new ∧ relocates (disk w) (disk w') new
              ∧ ∀ src dst : path, (src, dst) ∈ new →
                  src.1 = dir ∧ target_of src.2 = Ok (Some dst))
    ∧ (∀ n, n ∈ names →
            target_of n = Ok None
            ∨ ∃ t, target_of n = Ok (Some t) ∧ is_Some (disk w' !! t)).
Proof.
  intros Hdir Hscoped. induction names as [|n names IH]; intros moved w r w' Hrun.
  - injection Hrun as <- <-. split; [done|]. split.
    + exists []. split; [by rewrite app_nil_r|]. split; [apply relocates_refl|].
      intros src dst H. by inv H.
    + intros n Hn. by inv Hn.
  - cbn [migrate_files] in Hrun. unfold mbind at 1, M_bind at 1, lift in Hrun.
    destruct (target_of n) as [[t|]|e] eqn:Ht; [| |done].
    + unfold mbind at 1, M_bind at 1, reading, exists_ in Hrun.
      case_bool_decide as Hex.
      * destruct (IH _ _ _ _ Hrun) as (Htr & Hnew & Hall).
        split; [done|]. split; [done|].
        intros m Hm. apply elem_of_cons in Hm as [->|Hm]; [|by apply Hall].
        right. exists t. split; [done|].
        destruct Hnew as (new & _ & (Ha & _) & _).
        rewrite Ha; [done| by apply (Hscoped n) |done].
      * unfold mbind at 1, M_bind at 1, move, replace in Hrun.
        destruct (disk w !! (dir, n)) as [text|] eqn:Hsrc; [|done].
        simpl in Hrun.
        assert (disk w !! t = None) as Hdst.
        { destruct (disk w !! t) eqn:E; [|done]. exfalso. apply Hex. by eexists. }
        destruct (IH _ _ _ _ Hrun) as (Htr & (new & -> & Hrel & Hsrcs) & Hall).
        pose proof (relocates_move (disk w) dir n t text Hdir
                      (Hscoped n t Ht) Hsrc Hdst) as Hmv.
        split; [done|]. split.
        -- exists ([((dir, n), t)] ++ new). split; [by rewrite app_assoc|]. split.
           ++ by apply (relocates_trans _ _ _ _ _ Hmv).
           ++ intros src dst Hin. apply elem_of_app in Hin as [Hin|Hin].
              ** by apply list_elem_of_singleton in Hin as [= -> ->].
              ** by apply Hsrcs.
        -- intros m Hm. apply elem_of_cons in Hm as [->|Hm]; [|by apply Hall].
           right. exists t. split; [done|].
           destruct Hrel as (Ha & _). simpl in Ha.
           rewrite Ha; [| by apply (Hscoped n) |]; rewrite lookup_insert_eq; done.
    + destruct (IH _ _ _ _ Hrun) as (Htr & Hnew & Hall).
      split; [done|]. split; [done|].
      intros m Hm. apply elem_of_cons in Hm as [->|Hm]; [by left | by apply Hall].
Qed.

Lemma migrate_dir_run (dir : list string)
    (target_of : string → result (option path)) (moved : list (path * path))
    (w : world) (r : list (path * path)) (w' : world) :
  length dir = 1%nat → day_scoped target_of →
  migrate_dir dir target_of moved w = (Ok r, w') →
  trace w' = trace w
  ∧ (∃ new, r = moved ++ new ∧ relocates (disk w) (disk w') new
            ∧ ∀ src dst : path, (src, dst) ∈ new →
                src.1 = dir ∧ target_of src.2 = Ok (Some dst))
  ∧ settled dir target_of (disk w').
Proof.
  intros Hdir Hscoped Hrun. unfold migrate_dir, mbind, M_bind, reading in Hrun.
  destruct (migrate_files_run dir target_of Hdir Hscoped _ _ _ _ _ Hrun)
    as (Htr & Hnew & Hall).
  split; [done|]. split; [done|].
  intros n Hn. apply Hall, elem_of_iterdir.
  destruct Hnew as (new & _ & (_ & Hb & _) & _).
  destruct (Hb (dir, n)) as [Heq|Heq]; [simpl; lia| |].
  - by rewrite <- Heq.
  - rewrite Heq in Hn. by destruct Hn.
Qed.

Lemma settled_relocates (dir : list string)
    (target_of : string → result (option path)) (d d' : fs)
    (moved : list (path * path)) :
  length dir = 1%nat → day_scoped target_of →
  settled dir target_of d → relocates d d' moved → settled dir target_of d'.
Proof.
  intros Hdir Hscoped Hset (Ha & Hb & _) n Hn.
  destruct (Hb (dir, n)) as [Heq|Heq]; [simpl; lia| |].
  - rewrite Heq in Hn. destruct (Hset n Hn) as [?|(t & Ht & Hs)]; [by left|].
    right. exists t. split; [done|]. rewrite Ha; [done| by apply (Hscoped n) |done].
  - rewrite Heq in Hn. by destruct Hn.
Qed.

Lemma migrate_files_settled (dir : list string)
    (target_of : string → result (option path)) (w : world) :
  ∀ names moved,
    (∀ n, n ∈ names →
          target_of n = Ok None
          ∨ ∃ t, target_of n = Ok (Some t) ∧ is_Some (disk w !! t)) →
    migrate_files dir target_of names moved w = (Ok moved, w).
Proof.
  induction names as [|n names IH]; intros moved Hall; [done|].
  cbn [migrate_files]. unfold mbind at 1, M_bind at 1, lift.
  destruct (Hall n) as [Ht|(t & Ht & Hs)]; [by left| |]; rewrite Ht.
  - apply IH. intros m Hm. apply Hall. by right.
  - unfold mbind at 1, M_bind at 1, reading, exists_.
    rewrite bool_decide_eq_true_2 by done.
    apply IH. intros m Hm. apply Hall. by right.
Qed.

Lemma migrate_dir_settled (dir : list string)
    (target_of : string → result (option path)) (moved : list (path * path))
    (w : world) :
  settled dir target_of (disk w) →
  migrate_dir dir target_of moved w = (Ok moved, w).
Proof.
  intros Hset. unfold migrate_dir, mbind, M_bind, reading.
  apply migrate_files_settled. intros n Hn. by apply Hset, elem_of_iterdir.
Qed.

Lemma raw_target_scoped : day_scoped raw_target.
Proof.
  intros n t. unfold raw_target.
  destruct (glob_papers n); [|done].
  destruct (Str.search_date n) as [tok|]; [|done].
  destruct (fromisoformat tok); simpl; [|done]. by intros [= <-].
Qed.

Lemma summary_target_scoped : day_scoped summary_target.
Proof.
  intros n t. unfold summary_target.
  destruct (_ && _); [|done].
  destruct (Str.search_date n) as [tok|]; [|done].
  destruct (fromisoformat tok); simpl; [|done].
  destruct (Str.contains n "overall"); [by intros [= <-]|].
  destruct (Str.search_part n); [|done]. by intros [= <-].
Qed.

Lemma response_target_scoped : day_scoped response_target.
Proof.
  intros n t. unfold response_target.
  destruct (Str.startswith n "response_"); [|done].
  destruct (Str.search_date n) as [tok|]; [|done].
  destruct (fromisoformat tok); simpl; [|done].
  destruct (Str.contains n "overall"); [by intros [= <-]|].
  destruct (Str.search_part n); [|done]. by intros [= <-].
Qed.

Lemma prompt_target_scoped : day_scoped prompt_target.
Proof.
  intros n t. unfold prompt_target.
  destruct (Str.startswith n "prompt_"); [|done].
  destruct (Str.search_date n) as [tok|]; [|done].
  destruct (fromisoformat tok); simpl; [|done].
  destruct (Str.search_part n); [|done]. by intros [= <-].
Qed.

(** a loop over files that are there, whose date tokens are calendar dates,
    returns *)
Lemma migrate_files_total (dir : list string)
    (target_of : string → result (option path)) :
  length dir = 1%nat → day_scoped target_of →
  ∀ names moved w,
    NoDup names →
    (∀ n, n ∈ names → is_Some (disk w !! (dir, n))) →
    (∀ n, n ∈ names → is_ok (target_of n) = true) →
    ∃ r w', migrate_files dir target_of names moved w = (Ok r, w').
Proof.
  intros Hdir Hscoped. induction names as [|n names IH]; intros moved w Hnd Hex Hok.
  - by eexists _, _.
  - apply NoDup_cons in Hnd as [Hn Hnd]. cbn [migrate_files].
    unfold mbind at 1, M_bind at 1, lift.
    assert (∀ m, m ∈ names → is_Some (disk w !! (dir, m))) as Hex'
      by (intros m Hm; apply Hex; by right).
    assert (∀ m, m ∈ names → is_ok (target_of m) = true) as Hok'
      by (intros m Hm; apply Hok; by right).
    pose proof (Hok n ltac:(by left)) as Hn_ok.
    destruct (target_of n) as [[t|]|e] eqn:Ht; [| |done].
    + unfold mbind at 1, M_bind at 1, reading, exists_.
      case_bool_decide as Hpresent; [by apply IH|].
      unfold mbind at 1, M_bind at 1, move, replace.
      destruct (Hex n ltac:(by left)) as [text Hsrc]. rewrite Hsrc.
      apply IH; [done| |done].
      intros m Hm. cbn [disk].
      rewrite lookup_insert_ne.
      * rewrite lookup_delete_ne; [by apply Hex'|]. intros [= ->]. done.
      * intros Heq. pose proof (Hscoped n t Ht) as Hlen.
        rewrite Heq in Hlen. simpl in Hlen. lia.
    + by apply IH.
Qed.

Lemma migrate_dir_total (dir : list string)
    (target_of : string → result (option path)) (moved : list (path * path))
    (w : world) :
  length dir = 1%nat → day_scoped target_of →
  (∀ n, is_Some (disk w !! (dir, n)) → is_ok (target_of n) = true) →
  ∃ r w', migrate_dir dir target_of moved w = (Ok r, w').
Proof.
  intros Hdir Hscoped Hok. unfold migrate_dir, mbind, M_bind, reading.
  apply migrate_files_total; [done|done|apply NoDup_iterdir| |].
  - intros n Hn. by apply elem_of_iterdir.
  - intros n Hn. by apply Hok, elem_of_iterdir.
Qed.

(** a legacy file that is there after some moves was there before *)
Lemma relocates_legacy (d d' : fs) (moved : list (path * path)) (p : path) :
  relocates d d' moved → length p.1 = 1%nat → is_Some (d' !! p) → is_Some (d !! p).
Proof.
  intros (_ & Hb & _) Hp Hs. destruct (Hb p) as [Heq|Heq]; [lia| |].
  - by rewrite <- Heq.
  - rewrite Heq in Hs. by destruct Hs.
Qed.

(** On a disk whose legacy files have a destination or none, the
    migration returns: what it has moved, what it has left, and that a second
    migration moves nothing, in terms of the destinations the loops compute *)
Lemma migration_by_target (w : world) :
  (∀ src : path, is_Some (disk w !! src) → is_ok (legacy_target src) = true) →
  ∃ moved w',
    migrate_legacy_data w = (Ok moved, w')
    ∧ trace w' = trace w
    ∧ relocates (disk w) (disk w') moved
    ∧ (∀ src dst : path, (src, dst) ∈ moved → legacy_target src = Ok (Some dst))
    ∧ (∀ src dst : path,
         is_Some (disk w' !! src) → legacy_target src = Ok (Some dst) →
         is_Some (disk w' !! dst))
    ∧ migrate_legacy_data w' = (Ok [], w').
Proof.
  intros Hdates.
  assert (∀ dir n, is_Some (disk w !! (dir, n)) → is_ok (legacy_target (dir, n)) = true)
    as Hd by (intros dir n; apply Hdates).
  destruct (migrate_dir_total ["raw"] raw_target [] w) as (m1 & w1 & H1);
    [done|apply raw_target_scoped|by intros n Hn; apply (Hd _ _ Hn)|].
  pose proof H1 as H1'.
  apply migrate_dir_run in H1' as (E1 & (n1 & -> & R1 & T1) & S1);
    [|done|apply raw_target_scoped].
  destruct (migrate_dir_total ["summaries"] summary_target ([] ++ n1) w1)
    as (m2 & w2 & H2); [done|apply summary_target_scoped| |].
  { intros n Hn. apply (relocates_legacy _ _ _ _ R1) in Hn; [|done].
    apply (Hd _ _ Hn). }
  pose proof H2 as H2'.
  apply migrate_dir_run in H2' as (E2 & (n2 & -> & R2 & T2) & S2);
    [|done|apply summary_target_scoped].
  destruct (migrate_dir_total ["responses"] response_target (([] ++ n1) ++ n2) w2)
    as (m3 & w3 & H3); [done|apply response_target_scoped| |].
  { intros n Hn. apply (relocates_legacy _ _ _ _ R2) in Hn; [|done].
    apply (relocates_legacy _ _ _ _ R1) in Hn; [|done].
    apply (Hd _ _ Hn). }
  pose proof H3 as H3'.
  apply migrate_dir_run in H3' as (E3 & (n3 & -> & R3 & T3) & S3);
    [|done|apply response_target_scoped].
  destruct (migrate_dir_total ["prompts"] prompt_target
              ((([] ++ n1) ++ n2) ++ n3) w3)
    as (m4 & w4 & H4); [done|apply prompt_target_scoped| |].
  { intros n Hn. apply (relocates_legacy _ _ _ _ R3) in Hn; [|done].
    apply (relocates_legacy _ _ _ _ R2) in Hn; [|done].
    apply (relocates_legacy _ _ _ _ R1) in Hn; [|done].
    apply (Hd _ _ Hn). }
  pose proof H4 as H4'.
  apply migrate_dir_run in H4' as (E4 & (n4 & -> & R4 & T4) & S4);
    [|done|apply prompt_target_scoped].
  assert (settled ["raw"] raw_target (disk w4)) as S1'.
  { eapply settled_relocates; [done|apply raw_target_scoped| |exact R4].
    eapply settled_relocates; [done|apply raw_target_scoped| |exact R3].
    eapply settled_relocates; [done|apply raw_target_scoped|exact S1|exact R2]. }
  assert (settled ["summaries"] summary_target (disk w4)) as S2'.
  { eapply settled_relocates; [done|apply summary_target_scoped| |exact R4].
    eapply settled_relocates; [done|apply summary_target_scoped|exact S2|exact R3]. }
  assert (settled ["responses"] response_target (disk w4)) as S3'.
  { eapply settled_relocates; [done|apply response_target_scoped|exact S3|exact R4]. }
  exists ((([] ++ n1) ++ n2) ++ n3 ++ n4), w4.
  split; [|split; [|split; [|split; [|split]]]].
  - unfold migrate_legacy_data.
    unfold mbind at 1, M_bind at 1. rewrite H1.
    unfold mbind at 1, M_bind at 1. rewrite H2.
    unfold mbind at 1, M_bind at 1. rewrite H3.
    rewrite H4. by rewrite <- !app_assoc.
  - congruence.
  - simpl. rewrite <- !app_assoc.
    apply (relocates_trans _ _ _ _ _ R1).
    apply (relocates_trans _ _ _ _ _ R2).
    by apply (relocates_trans _ _ _ _ _ R3).
  - intros src dst Hin. simpl in Hin. unfold legacy_target.
    repeat (apply elem_of_app in Hin as [Hin|Hin]).
    + by destruct (T1 src dst Hin) as [-> ->].
    + by destruct (T2 src dst Hin) as [-> ->].
    + by destruct (T3 src dst Hin) as [-> ->].
    + by destruct (T4 src dst Hin) as [-> ->].
  - intros [dir n] dst Hsrc. unfold legacy_target. cbn [fst snd].
    repeat case_decide; subst; intros Ht; [| | | |done].
    + destruct (S1' n Hsrc) as [Hx|(t & Hx & Hs)]; congruence.
    + destruct (S2' n Hsrc) as [Hx|(t & Hx & Hs)]; congruence.
    + destruct (S3' n Hsrc) as [Hx|(t & Hx & Hs)]; congruence.
    + destruct (S4 n Hsrc) as [Hx|(t & Hx & Hs)]; congruence.
  - unfold migrate_legacy_data, mbind, M_bind.
    by rewrite !migrate_dir_settled.
Qed.

(** ** What an action may do to the world *)

Section confined.
Context (P : event → Prop) (Q : path → Prop).

Lemma confined_unchanged {A} (m : M A) (w : world) :
  (m w).2 = w → confined P Q m w.
Proof.
  intros H. unfold confined. rewrite H. split; [|done].
  exists []. by rewrite app_nil_r.
Qed.

Lemma confined_ret {A} (a : A) (w : world) : confined P Q (mret a) w.
Proof. by apply confined_unchanged. Qed.

Lemma confined_lift {A} (r : result A) (w : world) : confined P Q (lift r) w.
Proof. by apply confined_unchanged. Qed.

Lemma confined_reading {A} (f : fs → A) (w : world) : confined P Q (reading f) w.
Proof. by apply confined_unchanged. Qed.

Lemma confined_emit (e : event) (w : world) : P e → confined P Q (emit e) w.
Proof.
  intros He. split; [|done]. exists [e]. split; [done|]. by constructor.
Qed.

Lemma confined_atomic_write (p : path) (data : string) (w : world) :
  P (EvWrite p data) → Q p → Q (temp_path p) →
  confined P Q (atomic_write p data) w.
Proof.
  intros He Hp Ht. unfold confined. rewrite atomic_write_run. simpl. split.
  - exists [EvWrite p data]. split; [done|]. by constructor.
  - intros q Hq. rewrite lookup_insert_ne; [|by intros <-].
    rewrite lookup_delete_ne; [done|by intros <-].
Qed.

Lemma confined_bind {A B} (m : M A) (k : A → M B) (w : world) :
  confined P Q m w →
  (∀ a w1, m w = (Ok a, w1) → confined P Q (k a) w1) →
  confined P Q (m ≫= k) w.
Proof.
  intros [(evs & Htr & Hev) Hd] Hk. unfold confined, mbind, M_bind.
  destruct (m w) as [[a|e] w1] eqn:Hm; simpl in *.
  - destruct (Hk a w1 eq_refl) as [(evs' & Htr' & Hev') Hd']. split.
    + exists (evs ++ evs'). rewrite Htr', Htr, app_assoc. split; [done|].
      by apply Forall_app.
    + intros p Hp. rewrite Hd' by done. by apply Hd.
  - split; [|done]. by exists evs.
Qed.

Lemma confined_mapM {A B} (f : A → M B) (l : list A) :
  (∀ x w, x ∈ l → confined P Q (f x) w) →
  ∀ w, confined P Q (mapM f l) w.
Proof.
  induction l as [|x l IH]; intros Hf w; [by apply confined_ret|].
  change (mapM f (x :: l)) with (y ← f x; k ← mapM f l; mret (y :: k)).
  apply confined_bind; [apply Hf; by left|]. intros y w1 _.
  apply confined_bind.
  - apply IH. intros z w2 Hz. apply Hf. by right.
  - intros k w2 _. apply confined_ret.
Qed.

End confined.

Lemma confined_mono {A} (P P' : event → Prop) (Q Q' : path → Prop)
    (m : M A) (w : world) :
  (∀ e, P e → P' e) → (∀ p, Q p → Q' p) →
  confined P Q m w → confined P' Q' m w.
Proof.
  intros HP HQ [(evs & Htr & Hev) Hd]. split.
  - exists evs. split; [done|]. by eapply Forall_impl.
  - intros p Hp. apply Hd. intros Hq. by apply Hp, HQ.
Qed.

(** ** The run only adds to the trace; what each stage may emit *)

Lemma read_unchanged {A} (f : fs → result A) (w : world) :
  ((reading f ≫= lift) w).2 = w.
Proof. unfold mbind, M_bind, reading, lift. simpl. by destruct (f (disk w)). Qed.

Lemma read_inv {A} (f : fs → result A) (w : world) (a : A) (w1 : world) :
  (reading f ≫= lift) w = (Ok a, w1) → f (disk w) = Ok a ∧ w1 = w.
Proof.
  unfold mbind, M_bind, reading, lift. simpl.
  destruct (f (disk w)); by intros [= -> ->].
Qed.

Lemma lift_inv {A} (r : result A) (w : world) (a : A) (w1 : world) :
  lift r w = (Ok a, w1) → r = Ok a ∧ w1 = w.
Proof. unfold lift. by intros [= -> ->]. Qed.

Lemma reading_inv {A} (f : fs → A) (w : world) (a : A) (w1 : world) :
  reading f w = (Ok a, w1) → a = f (disk w) ∧ w1 = w.
Proof. unfold reading. by intros [= <- <-]. Qed.

Lemma bind_ok {A B} (m : M A) (k : A → M B) (w : world) (a : A) (w1 : world) :
  m w = (Ok a, w1) → (m ≫= k) w = k a w1.
Proof. intros H. unfold mbind, M_bind. by rewrite H. Qed.

Lemma bind_raise {A B} (m : M A) (k : A → M B) (w : world) (e : exn) (w1 : world) :
  m w = (Raise e, w1) → (m ≫= k) w = (Raise e, w1).
Proof. intros H. unfold mbind, M_bind. by rewrite H. Qed.

Lemma not_raw_temp (day : date) (p : path) : not_raw day p → not_raw day (temp_path p).
Proof. done. Qed.

Lemma not_raw_summaries (day day' : date) (n : string) :
  not_raw day (summaries_dir day', n).
Proof.
  unfold not_raw, summaries_dir, _date_dir. cbn [fst app].
  intros H. injection H as _ H. discriminate.
Qed.

Lemma not_raw_responses (day day' : date) (n : string) :
  not_raw day (responses_dir day', n).
Proof.
  unfold not_raw, responses_dir, _date_dir. cbn [fst app].
  intros H. injection H as _ H. discriminate.
Qed.

Lemma not_raw_state (day : date) (n : string) : not_raw day (["state"], n).
Proof.
  unfold not_raw, _date_dir. cbn [fst app]. intros H. discriminate.
Qed.

Lemma stream_loop_confined (J : codec) (E : env) (day : date)
    (existing : gmap Z json) (P : event → Prop) :
  (∀ e, is_fetch e = false → P e) →
  ∀ chunks idx outputs w,
    confined P (not_raw day)
      (stream_loop J E day existing (Some (save_response_chunk J day))
         idx chunks outputs) w.
Proof.
  intros HP. induction chunks as [|chunk chunks IH]; intros idx outputs w.
  - apply confined_ret.
  - cbn [stream_loop]. destruct (existing !! idx); [apply IH|].
    apply confined_bind; [by apply confined_emit, HP|]. intros _ w1 _.
    apply confined_bind; [apply confined_lift|]. intros text w2 _.
    apply confined_bind;
      [apply confined_atomic_write;
         [by apply HP | apply not_raw_responses | apply not_raw_responses]|].
    intros _ w3 _.
    apply confined_bind; [apply confined_lift|]. intros payload w4 _.
    apply IH.
Qed.

Lemma summarize_papers_stream_confined (J : codec) (E : env) (day : date)
    (papers : list Paper) (size : nat) (existing : gmap Z json) (P : event → Prop)
    (w : world) :
  (∀ e, is_fetch e = false → P e) →
  confined P (not_raw day)
    (summarize_papers_stream J E day papers size existing
       (Some (save_response_chunk J day))) w.
Proof.
  intros HP. unfold summarize_papers_stream.
  destruct papers; [apply confined_ret|].
  apply confined_bind; [apply confined_lift|]. intros chunks w1 _.
  by apply stream_loop_confined.
Qed.

(** the delivery stage calls neither the feed nor the chunk summarizer, and
    writes the overall summary and its raw response only *)
Lemma _run_deliver_confined (J : codec) (E : env) (config : AppConfig) (day : date)
    (papers : list Paper) (summaries : list json) (w : world) :
  confined (λ e, is_fetch e = false ∧ is_chunk_call e = false)
    (λ p, p = overall_path day ∨ p = temp_path (overall_path day)
          ∨ p = overall_response_path day
          ∨ p = temp_path (overall_response_path day))
    (_run_deliver J E config day papers summaries) w.
Proof.
  unfold _run_deliver.
  apply confined_bind; [by apply confined_unchanged, read_unchanged|].
  intros loaded w1 _.
  apply confined_bind.
  - destruct (match loaded with Some v => Py.truthy v | None => false end);
      [apply confined_ret|].
    destruct (negb (configured (openai_api_key config))); [apply confined_ret|].
    apply confined_bind.
    + unfold summarize_overall. destruct summaries; [apply confined_ret|].
      apply confined_bind; [by apply confined_emit|]. intros _ w2 _.
      apply confined_bind; [apply confined_lift|]. intros text w3 _.
      apply confined_bind; [|intros; apply confined_lift].
      apply confined_atomic_write; [done|tauto..].
    + intros o w2 _. apply confined_bind; [|intros; apply confined_ret].
      apply confined_atomic_write; [done|tauto..].
  - intros overall w2 _.
    destruct (_ && _); [|apply confined_ret].
    apply confined_bind; [by apply confined_emit|]. intros _ w3 _.
    apply confined_lift.
Qed.

Lemma _run_deliver_not_raw (J : codec) (E : env) (config : AppConfig) (day : date)
    (papers : list Paper) (summaries : list json) (w : world) :
  confined (λ e, is_fetch e = false) (not_raw day)
    (_run_deliver J E config day papers summaries) w.
Proof.
  eapply confined_mono; [| |apply _run_deliver_confined].
  - by intros e [? _].
  - intros p [-> | [-> | [-> | ->]]];
      apply not_raw_summaries || apply not_raw_responses.
Qed.

(** the part of [_run_chunks] that follows the choice of the day's papers:
    it calls no feed and leaves the snapshot alone *)
Ltac after_papers J day :=
  apply confined_bind; [by apply confined_unchanged, read_unchanged|];
  intros ? ? _;
  apply confined_bind;
    [apply confined_atomic_write; [done | apply not_raw_state | apply not_raw_state]|];
  intros _ ? _;
  destruct (select_new_papers _ _ _ _ _);
  [ destruct (bool_decide _); apply confined_ret
  | destruct (negb _); [apply confined_ret|];
    apply confined_bind; [by apply summarize_papers_stream_confined|];
    intros ? ? _;
    apply confined_bind; [|intros; apply confined_ret];
    apply confined_mapM; intros ? ? _;
    match goal with |- context [?m !! ?k] => destruct (m !! k) end;
    [apply confined_ret|];
    unfold save_summary_chunk;
    apply confined_bind; [apply confined_lift|]; intros ? ? _;
    apply confined_atomic_write;
      [done | apply not_raw_summaries | apply not_raw_summaries] ].

Lemma after_chunks_confined (J : codec) (E : env) (config : AppConfig) (day : date)
    (r : option (list Paper * list json)) (w : world) :
  confined (λ e, is_fetch e = false) (not_raw day)
    (match r with
     | None => mret ()
     | Some (papers, summaries) => _run_deliver J E config day papers summaries
     end) w.
Proof.
  destruct r as [[papers summaries]|]; [|apply confined_ret].
  apply _run_deliver_not_raw.
Qed.

(** C4, first half: once the stored snapshot has items, nothing in the run
    calls the feed or writes the snapshot. *)
Lemma run_with_snapshot_never_fetches (J : codec) (E : env) (config : AppConfig)
    (day : date) (w : world) (p : Paper) (ps : list Paper) :
  _load_papers_from_storage J (disk w) day = Ok (p :: ps) →
  confined (λ e, is_fetch e = false) (not_raw day) (_run_once J E config day) w.
Proof.
  intros Hstored. unfold _run_once. apply confined_bind.
  - unfold _run_chunks.
    apply confined_bind; [by apply confined_unchanged, read_unchanged|].
    intros st w1 [_ ->]%read_inv.
    apply confined_bind; [apply confined_lift|]. intros seen w1 [_ ->]%lift_inv.
    apply confined_bind; [by apply confined_unchanged, read_unchanged|].
    intros stored w1 [Hst ->]%read_inv.
    rewrite Hstored in Hst. injection Hst as <-.
    apply confined_bind; [apply confined_reading|].
    intros has w1 [_ ->]%reading_inv.
    apply confined_bind; [apply confined_ret|]. intros papers w1 _.
    after_papers J day.
  - intros r w1 _. apply after_chunks_confined.
Qed.

(** ** C4: when the feed is called *)

Lemma read_ok {A} (f : fs → result A) (w : world) (a : A) :
  f (disk w) = Ok a → (reading f ≫= lift) w = (Ok a, w).
Proof. intros H. unfold mbind, M_bind, reading, lift. simpl. by rewrite H. Qed.

Lemma read_raise {A} (f : fs → result A) (w : world) (e : exn) :
  f (disk w) = Raise e → (reading f ≫= lift) w = (Raise e, w).
Proof. intros H. unfold mbind, M_bind, reading, lift. simpl. by rewrite H. Qed.

Lemma bind_assoc_run {A B C} (m : M A) (k : A → M B) (k' : B → M C) (w : world) :
  ((m ≫= k) ≫= k') w = (m ≫= (λ a, k a ≫= k')) w.
Proof. unfold mbind, M_bind. by destruct (m w) as [[a|e] w1]. Qed.

Lemma save_raw_papers_run (J : codec) (day : date) (papers : list Paper) (w : world) :
  save_raw_papers J day papers w
  = (Ok (), World (<[raw_path day := snapshot_text J papers]>
                     (delete (temp_path (raw_path day)) (disk w)))
                  (trace w ++ [EvWrite (raw_path day) (snapshot_text J papers)])).
Proof.
  unfold save_raw_papers. rewrite atomic_write_run. unfold snapshot_text.
  by destruct papers.
Qed.




(** ** C3: the items a run treats as new *)

Lemma load_chunk_files_no_chunk (J : codec) (dir : list string) (d : fs)
    (names : list string) (acc : gmap Z json) :
  existsb (λ name, Str.startswith name "summary_part") names = false →
  load_chunk_files J dir d names acc = Ok acc.
Proof.
  induction names as [|n names IH]; [done|]. simpl.
  intros [Hn Hrest]%orb_false_iff. rewrite Hn. by apply IH.
Qed.

(** without a chunk file the cache is empty *)
Lemma no_summary_no_chunks (J : codec) (d : fs) (day : date) :
  has_summary_for_date d day = false → load_summary_chunks J d day = Ok ∅.
Proof. intros H. by apply load_chunk_files_no_chunk. Qed.







Lemma save_state_run (J : codec) (st : state) (w : world) :
  save_state J st w
  = (Ok (), World (<[state_path := dumps_indent J (state_to_json st)]>
                     (delete (temp_path state_path) (disk w)))
                  (trace w ++ [EvWrite state_path (dumps_indent J (state_to_json st))])).
Proof. apply atomic_write_run. Qed.

Lemma save_response_chunk_run (J : codec) (day : date) (idx : Z) (text : string)
    (w : world) :
  save_response_chunk J day idx text w
  = (Ok (), World (<[response_path day idx := dumps_indent J (JStr text)]>
                     (delete (temp_path (response_path day idx)) (disk w)))
                  (trace w ++ [EvWrite (response_path day idx)
                                       (dumps_indent J (JStr text))])).
Proof. apply atomic_write_run. Qed.


(** ** C2: replaying a complete day *)

Lemma filter_all_seen (seen : gset string) (papers : list Paper) :
  Forall (λ p, paper_id p ∈ seen) papers →
  filter (λ p, paper_id p ∉ seen) papers = [].
Proof.
  induction 1 as [|p ps Hp Hps IH]; [done|].
  rewrite filter_cons_False; [done|]. by intros Hn.
Qed.

Lemma full_cache_size (chunks : gmap Z json) (n : Z) :
  (∀ i, 1 ≤ i ≤ n → is_Some (chunks !! i)) → n ≤ Z.of_nat (size chunks).
Proof.
  intros Hfull. destruct (Z.le_gt_cases n 0) as [?|Hpos]; [lia|].
  assert (list_to_set (seqZ 1 n) ⊆ dom chunks) as Hsub.
  { intros i Hi. apply elem_of_list_to_set, elem_of_seqZ in Hi.
    apply elem_of_dom, Hfull. lia. }
  apply subseteq_size in Hsub.
  rewrite size_dom, size_list_to_set, length_seqZ in Hsub by apply NoDup_seqZ.
  lia.
Qed.

Lemma expected_chunks_pos (papers : list Paper) :
  papers ≠ [] → 1 ≤ expected_chunks_of (length papers).
Proof.
  intros Hne. destruct papers as [|p ps]; [done|].
  unfold expected_chunks_of. cbn [length].
  assert (20 ≤ Z.of_nat (S (length ps)) + 19) as H20 by lia.
  pose proof (Z.div_le_mono _ _ 20 ltac:(lia) H20) as Hd.
  change (20 / 20) with 1 in Hd. lia.
Qed.

(** the chunk stage of a replay: the state is written back, nothing else
    happens, and the cached summaries are handed on in index order *)
Lemma run_chunks_replay (J : codec) (E : env) (config : AppConfig) (day : date)
    (w : world) (papers : list Paper) (chunks : gmap Z json) :
  replay_ready J E config day (disk w) papers chunks →
  ∃ text,
    _run_chunks J E config day w
    = (Ok (Some (papers, cached_in_order chunks)),
       World (<[state_path := text]> (delete (temp_path state_path) (disk w)))
             (trace w ++ [EvWrite state_path text])).
Proof.
  intros ((st & seen & Hst & Hseen & Hall) & Hstored & Hne & Hchunks & Hfull).
  pose proof (expected_chunks_pos papers Hne) as Hexp.
  assert (chunks ≠ ∅) as Hnonempty.
  { intros ->. destruct (Hfull 1) as [c Hc]; [lia|]. by rewrite lookup_empty in Hc. }
  assert (select_new_papers papers papers (has_summary_for_date (disk w) day)
            chunks seen = []) as Hnew.
  { unfold select_new_papers, reprocess.
    destruct (has_summary_for_date (disk w) day) eqn:Hhas.
    - pose proof (full_cache_size chunks _ Hfull) as Hsize.
      destruct papers; [done|]. cbn [negb orb].
      rewrite (proj2 (Z.ltb_ge _ _) Hsize). by apply filter_all_seen.
    - exfalso. rewrite (no_summary_no_chunks J _ day Hhas) in Hchunks.
      by injection Hchunks as <-. }
  eexists. unfold _run_chunks.
  rewrite (bind_ok _ _ w st w) by (by apply read_ok).
  rewrite (bind_ok _ _ w seen w) by (by rewrite Hseen).
  rewrite (bind_ok _ _ w papers w) by (by apply read_ok).
  rewrite (bind_ok _ _ w _ w) by done.
  rewrite (bind_ok _ _ w papers w) by (by destruct papers).
  rewrite (bind_ok _ _ w _ w) by (by apply read_ok).
  rewrite Hnew.
  erewrite bind_ok by apply save_state_run.
  rewrite bool_decide_eq_false_2 by done. reflexivity.
Qed.

Lemma read_raw_papers_ext (J : codec) (d d' : fs) (day : date) :
  d' !! raw_path day = d !! raw_path day →
  _load_papers_from_storage J d' day = _load_papers_from_storage J d day.
Proof. intros H. unfold _load_papers_from_storage, read_raw_papers. by rewrite H. Qed.

(** a replay leaves the snapshot and the chunk files as they were, and
    calls the chunk summarizer not once *)
Lemma run_once_replay (J : codec) (E : env) (config : AppConfig) (day : date)
    (w : world) (papers : list Paper) (chunks : gmap Z json) :
  replay_ready J E config day (disk w) papers chunks →
  (∃ evs, trace (_run_once J E config day w).2 = trace w ++ evs
          ∧ Forall (λ e, is_chunk_call e = false) evs)
  ∧ _load_papers_from_storage J (disk (_run_once J E config day w).2) day = Ok papers
  ∧ load_summary_chunks J (disk (_run_once J E config day w).2) day = Ok chunks.
Proof.
  intros Hready. destruct (run_chunks_replay J E config day w papers chunks Hready)
    as (text & Hrun).
  pose proof Hready as (_ & Hstored & _ & Hchunks & _).
  unfold _run_once. erewrite bind_ok by exact Hrun.
  set (w1 := World _ _).
  destruct (_run_deliver_confined J E config day papers (cached_in_order chunks) w1)
    as [(evs & Htr & Hev) Hd].
  split; [|split].
  - exists (EvWrite state_path text :: evs). split.
    + rewrite Htr. unfold w1. cbn [trace]. by rewrite <- app_assoc.
    + constructor; [done|]. eapply Forall_impl; [exact Hev|]. by intros e [_ ?].
  - rewrite <- Hstored. apply read_raw_papers_ext. rewrite Hd.
    + unfold w1. cbn [disk]. rewrite lookup_insert_ne by done.
      by rewrite lookup_delete_ne.
    + intros [H | [H | [H | H]]];
        apply (f_equal fst) in H;
        by apply (not_raw_summaries day day EmptyString)
        || by apply (not_raw_responses day day EmptyString).
  - rewrite <- Hchunks. apply load_summary_chunks_ext. intros n Hn.
    rewrite Hd.
    + unfold w1. cbn [disk]. rewrite lookup_insert_ne by done.
      by rewrite lookup_delete_ne.
    + intros [H | [H | [H | H]]].
      * unfold overall_path in H. injection H as H. subst n.
        by vm_compute in Hn.
      * unfold temp_path, overall_path in H. cbn [fst snd] in H.
        injection H as H. subst n. by vm_compute in Hn.
      * apply (f_equal fst) in H. cbn [fst] in H.
        unfold summaries_dir, overall_response_path, responses_dir, _date_dir in H.
        cbn [app fst] in H. injection H as H. discriminate.
      * apply (f_equal fst) in H. cbn [fst] in H.
        unfold summaries_dir, overall_response_path, responses_dir, _date_dir in H.
        cbn [app fst temp_path] in H. injection H as H. discriminate.
Qed.

Lemma seqZ_succ (m : Z) (n : nat) :
  seqZ m (Z.of_nat (S n)) = m :: seqZ (m + 1) (Z.of_nat n).
Proof.
  rewrite seqZ_cons by lia. f_equal. f_equal; lia.
Qed.

(** with every batch cached the stream calls nothing and returns the
    cached payloads in the order of the batches *)
Lemma stream_loop_cached (J : codec) (E : env) (day : date) (chunks : gmap Z json)
    (on_response : option (Z → string → M unit)) :
  ∀ batches idx outputs w,
    (∀ i, idx ≤ i < idx + Z.of_nat (length batches) → is_Some (chunks !! i)) →
    stream_loop J E day chunks on_response idx batches outputs w
    = (Ok (outputs
           ++ omap (λ i, pair i <$> chunks !! i)
                (seqZ idx (Z.of_nat (length batches)))), w).
Proof.
  induction batches as [|b batches IH]; intros idx outputs w Hfull.
  - cbn [stream_loop length]. by rewrite app_nil_r.
  - cbn [stream_loop]. destruct (Hfull idx) as [c Hc]; [cbn [length]; lia|].
    rewrite Hc, IH.
    + cbn [length]. rewrite seqZ_succ. cbn [omap list_omap]. rewrite Hc.
      cbn [fmap option_fmap option_map]. by rewrite <- app_assoc.
    + intros i Hi. apply Hfull. cbn [length]. lia.
Qed.

Lemma sorted_keys_elem (chunks : gmap Z json) (i : Z) :
  i ∈ sorted_keys chunks ↔ is_Some (chunks !! i).
Proof.
  unfold sorted_keys. by rewrite merge_sort_Permutation, elem_of_elements, elem_of_dom.
Qed.

Lemma overall_path_not_state (day : date) :
  overall_path day ≠ state_path ∧ overall_path day ≠ temp_path state_path.
Proof.
  unfold overall_path, state_path, temp_path, summaries_dir, _date_dir.
  cbn [fst app]. split; intros [=].
Qed.

Lemma overall_ready_after_state (J : codec) (d : fs) (day : date) (text : string) :
  overall_ready J d day →
  overall_ready J (<[state_path := text]> (delete (temp_path state_path) d)) day.
Proof.
  destruct (overall_path_not_state day) as [H1 H2].
  intros (v & Hload & Hv). exists v. split; [|done].
  unfold load_overall_summary in *.
  by rewrite lookup_insert_ne, lookup_delete_ne.
Qed.

(** with an overall summary on disk the delivery calls no model and writes
    nothing *)
Lemma _run_deliver_cached (J : codec) (E : env) (config : AppConfig) (day : date)
    (papers : list Paper) (summaries : list json) (w : world) :
  overall_ready J (disk w) day →
  confined (λ e, is_summarizer_call e = false) (λ _, False)
    (_run_deliver J E config day papers summaries) w.
Proof.
  intros (v & Hload & Hv). unfold _run_deliver.
  apply confined_bind; [by apply confined_unchanged, read_unchanged|].
  intros loaded w1 [Hl ->]%read_inv. rewrite Hload in Hl. injection Hl as <-.
  rewrite Hv. apply confined_bind; [apply confined_ret|]. intros overall w2 _.
  destruct (_ && _); [|apply confined_ret].
  apply confined_bind; [by apply confined_emit|]. intros _ w3 _.
  apply confined_lift.
Qed.

(** a replay of a day whose overall summary is on disk calls no model at
    all, and writes the state only *)
Lemma run_once_replay_cached (J : codec) (E : env) (config : AppConfig) (day : date)
    (w : world) (papers : list Paper) (chunks : gmap Z json) :
  replay_ready J E config day (disk w) papers chunks →
  overall_ready J (disk w) day →
  ∃ text evs,
    trace (_run_once J E config day w).2 = trace w ++ EvWrite state_path text :: evs
    ∧ Forall (λ e, is_summarizer_call e = false) evs
    ∧ disk (_run_once J E config day w).2
      = <[state_path := text]> (delete (temp_path state_path) (disk w)).
Proof.
  intros Hready Hoverall.
  destruct (run_chunks_replay J E config day w papers chunks Hready) as (text & Hrun).
  unfold _run_once. erewrite bind_ok by exact Hrun.
  set (w1 := World _ _).
  destruct (_run_deliver_cached J E config day papers (cached_in_order chunks) w1)
    as [(evs & Htr & Hev) Hd].
  { unfold w1. cbn [disk]. by apply overall_ready_after_state. }
  exists text, evs. split; [|split].
  - rewrite Htr. unfold w1. cbn [trace]. by rewrite <- app_assoc.
  - done.
  - apply map_eq. intros p. rewrite Hd by tauto. done.
Qed.

(** a day without stored items: the feed is asked, and when all it returns
    is in the seen set the run calls no chunk summarizer and hands on what
    the cache holds, in index order *)
Lemma run_chunks_fetch_seen (J : codec) (E : env) (config : AppConfig) (day : date)
    (w : world) (st : state) (seen : gset string) (papers : list Paper)
    (chunks : gmap Z json) :
  load_state J (disk w) = Ok st →
  build_seen_set st (retention_days config) (today E) = Ok seen →
  _load_papers_from_storage J (disk w) day = Ok [] →
  fetch_papers E (categories config) day = Ok papers →
  Forall (λ p, paper_id p ∈ seen) papers →
  load_summary_chunks J (disk w) day = Ok chunks →
  ∃ w', _run_chunks J E config day w
        = (Ok (if bool_decide (chunks = ∅) then None
               else Some (papers, cached_in_order chunks)), w')
        ∧ ∃ s1 s2, trace w' = trace w ++ [EvFetch (categories config) day;
                                          EvWrite (raw_path day) s1;
                                          EvWrite state_path s2].
Proof.
  intros Hst Hseen Hstored Hfetch Hall Hchunks. unfold _run_chunks.
  rewrite (bind_ok _ _ w st w) by (by apply read_ok).
  rewrite (bind_ok _ _ w seen w) by (by rewrite Hseen).
  rewrite (bind_ok _ _ w [] w) by (by apply read_ok).
  rewrite (bind_ok _ _ w _ w) by done.
  set (w2 := World (<[raw_path day := snapshot_text J papers]>
                      (delete (temp_path (raw_path day)) (disk w)))
                   ((trace w ++ [EvFetch (categories config) day])
                    ++ [EvWrite (raw_path day) (snapshot_text J papers)])).
  erewrite (bind_ok _ _ w papers w2).
  2:{ erewrite bind_ok by done.
      erewrite bind_ok by (unfold lift; by rewrite Hfetch).
      erewrite bind_ok by apply save_raw_papers_run. done. }
  assert (load_summary_chunks J (disk w2) day = Ok chunks) as Hchunks2.
  { rewrite <- Hchunks. apply load_summary_chunks_ext. intros n _.
    unfold w2. cbn [disk].
    assert (not_raw day (summaries_dir day, n)) as Hnr by apply not_raw_summaries.
    rewrite lookup_insert_ne.
    - rewrite lookup_delete_ne; [done|]. intros H. apply Hnr. by rewrite <- H.
    - intros H. apply Hnr. by rewrite <- H. }
  rewrite (bind_ok _ _ w2 chunks w2) by (by apply read_ok).
  assert (select_new_papers [] papers (has_summary_for_date (disk w) day) chunks seen
          = []) as ->.
  { unfold select_new_papers, reprocess. by apply filter_all_seen. }
  erewrite bind_ok by apply save_state_run.
  eexists. split.
  - destruct (bool_decide (chunks = ∅)); reflexivity.
  - eexists _, _. cbn [trace]. unfold w2. cbn [trace].
    rewrite <- !app_assoc. reflexivity.
Qed.

Lemma recorded_then_seen (st : state) (r : Z) (today day : date)
    (papers : list Paper) (now : string) :
  1 ≤ today - r ≤ MAXORDINAL → today - day ≤ r →
  (∀ p, p ∈ papers → paper_id p ∈ seen_on st day) →
  ∃ seen, build_seen_set st r today = Ok seen
          ∧ Forall (λ p, paper_id p ∈ seen) papers.
Proof.
  intros Hr Hday Hrec. destruct (build_seen_set_ok st r today Hr) as (seen & Hb).
  exists seen. split; [done|]. apply Forall_forall. intros p Hp.
  apply (build_seen_set_elem st r today seen Hb). exists day. split; [|done].
  by apply Hrec.
Qed.

Lemma seen_state_records (p : Paper) :
  p ∈ Ex.papers 45 → paper_id p ∈ seen_on Ex.seen_state Ex.day.
Proof.
  intros Hp. apply update_state_records, elem_of_list_to_set.
  by apply list_elem_of_fmap_2.
Qed.


(** ** When the chunk summaries reach the disk *)

Lemma summaries_not_responses (day : date) (n : string) :
  ¬ in_responses day (summaries_dir day, n).
Proof.
  unfold in_responses, summaries_dir, responses_dir, _date_dir. cbn [fst app].
  intros [=].
Qed.

Lemma stream_loop_in_responses (J : codec) (E : env) (day : date)
    (existing : gmap Z json) :
  ∀ chunks idx outputs w,
    confined (λ _, True) (in_responses day)
      (stream_loop J E day existing (Some (save_response_chunk J day))
         idx chunks outputs) w.
Proof.
  induction chunks as [|chunk chunks IH]; intros idx outputs w.
  - apply confined_ret.
  - cbn [stream_loop]. destruct (existing !! idx); [apply IH|].
    apply confined_bind; [by apply confined_emit|]. intros _ w1 _.
    apply confined_bind; [apply confined_lift|]. intros text w2 _.
    apply confined_bind; [by apply confined_atomic_write|].
    intros _ w3 _.
    apply confined_bind; [apply confined_lift|]. intros payload w4 _.
    apply IH.
Qed.

Lemma stream_in_responses (J : codec) (E : env) (day : date)
    (papers : list Paper) (size : nat) (existing : gmap Z json) (w : world) :
  confined (λ _, True) (in_responses day)
    (summarize_papers_stream J E day papers size existing
       (Some (save_response_chunk J day))) w.
Proof.
  unfold summarize_papers_stream.
  destruct papers; [apply confined_ret|].
  apply confined_bind; [apply confined_lift|]. intros chunks w1 _.
  apply stream_loop_in_responses.
Qed.

(** C1, as the code has it.  The raw response of a batch is written right
    after its call, the Chunk Summary is not: while [summarize_papers_stream]
    goes through the batches, whatever the model answers and even when a call
    raises, no file of the summaries directory changes.  The summaries are
    written by the caller once every batch has been answered.  On a snapshot
    of 21 items (two batches) whose second call fails, the run stops with the
    response of batch 1 on disk and no Chunk Summary at all; with a model that
    answers both, the call for batch 2 comes before the write of summary 1. *)
Theorem chunk_summaries_wait_for_the_stream (J : codec) (E : env) (day : date)
    (papers : list Paper) (existing : gmap Z json) (w : world) :
  (∀ n, disk (summarize_papers_stream J E day papers chunk_size existing
                (Some (save_response_chunk J day)) w).2 !! (summaries_dir day, n)
        = disk w !! (summaries_dir day, n))
  ∧ (let r := _run_once RefJson.J Ex.E_failing Ex.config Ex.day
                (World (Ex.snapshot 21) []) in
     r.1 = Raise ServiceError
     ∧ (∃ st r1, trace r.2
                 = [EvWrite state_path st;
                    EvChunkCall 1 (take 20 (Ex.papers 21));
                    EvWrite (response_path Ex.day 1) r1;
                    EvChunkCall 2 (drop 20 (Ex.papers 21))])
     ∧ is_Some (disk r.2 !! response_path Ex.day 1)
     ∧ disk r.2 !! chunk_path Ex.day 1 = None
     ∧ load_summary_chunks RefJson.J (disk r.2) Ex.day = Ok ∅)
  ∧ (let r := _run_chunks RefJson.J Ex.E Ex.config Ex.day
                (World (Ex.snapshot 21) []) in
     is_ok r.1 = true
     ∧ ∃ st r1 r2 s1 s2,
         trace r.2
         = [EvWrite state_path st;
            EvChunkCall 1 (take 20 (Ex.papers 21));
            EvWrite (response_path Ex.day 1) r1;
            EvChunkCall 2 (drop 20 (Ex.papers 21));
            EvWrite (response_path Ex.day 2) r2;
            EvWrite (chunk_path Ex.day 1) s1;
            EvWrite (chunk_path Ex.day 2) s2]).
Proof.
  split; [|split].
  - intros n. apply (stream_in_responses J E day papers chunk_size existing w).
    apply summaries_not_responses.
  - cbv zeta. split; [vm_compute; reflexivity|].
    split; [eexists _, _; vm_compute; reflexivity|].
    split; [eexists; vm_compute; reflexivity|].
    split; vm_compute; reflexivity.
  - cbv zeta. split; [vm_compute; reflexivity|].
    eexists _, _, _, _, _. vm_compute. reflexivity.
Qed.

(** ** C8: an interrupted write and the readers *)

Lemma temp_chunk_name_is_chunk_name (day : date) (idx : Z) :
  is_chunk_name (temp_path (chunk_path day idx)).2.
Proof.
  unfold temp_path, chunk_path. cbn [fst snd]. rewrite with_suffix_tmp.
  unfold is_chunk_name, chunk_name. by rewrite !append_cons.
Qed.

(** whether a chunk file loads depends on its text, not on the chunks
    loaded before it *)
Lemma load_chunk_file_any_acc (J : codec) (text : string) (acc acc' acc2 : gmap Z json) :
  load_chunk_file J text acc = Ok acc' →
  ∃ acc2', load_chunk_file J text acc2 = Ok acc2'.
Proof.
  unfold load_chunk_file. destruct (loads J text) as [payload|]; [|done].
  unfold mbind, result_bind, rbind.
  destruct (Py.get "chunk_index" (JInt 0) payload) as [ci|]; [|done].
  destruct (Py.int J ci) as [i|]; [|done].
  destruct (0 <? i); [|by eexists].
  destruct (Py.get "content" (JObj []) payload) as [c|]; [|done].
  by eexists.
Qed.

Lemma load_chunk_files_all_load (J : codec) (dir : list string) (d : fs)
    (names : list string) :
  ∀ acc m, load_chunk_files J dir d names acc = Ok m →
  ∀ n, n ∈ names → is_chunk_name n →
       ∀ acc2, ∃ acc2',
         load_chunk_file J (default EmptyString (d !! (dir, n))) acc2 = Ok acc2'.
Proof.
  induction names as [|x names IH]; intros acc m Hload n Hn Hc acc2.
  - by apply elem_of_nil in Hn.
  - cbn [load_chunk_files] in Hload.
    destruct (Str.startswith x "summary_part") eqn:Hx.
    + destruct (load_chunk_file J (default EmptyString (d !! (dir, x))) acc)
        as [acc1|] eqn:Hfile; [|done].
      unfold mbind, result_bind, rbind in Hload.
      apply elem_of_cons in Hn as [-> | Hn].
      * by eapply load_chunk_file_any_acc.
      * by eapply IH.
    + apply elem_of_cons in Hn as [-> | Hn].
      * unfold is_chunk_name in Hc. congruence.
      * by eapply IH.
Qed.

(** a listing that holds one chunk-named file that is no JSON document, all
    the other chunk files loading, fails with [JSONDecodeError] *)
Lemma load_chunk_files_partial (J : codec) (dir : list string) (d : fs)
    (bad : string) (names : list string) :
  is_chunk_name bad →
  loads J (default EmptyString (d !! (dir, bad))) = None →
  (∀ n, n ∈ names → n ≠ bad → is_chunk_name n →
        ∀ acc, ∃ acc', load_chunk_file J (default EmptyString (d !! (dir, n))) acc
                       = Ok acc') →
  bad ∈ names →
  ∀ acc, load_chunk_files J dir d names acc = Raise JSONDecodeError.
Proof.
  intros Hc Hbad. induction names as [|x names IH]; intros Hothers Hin acc.
  - by apply elem_of_nil in Hin.
  - cbn [load_chunk_files]. destruct (decide (x = bad)) as [-> | Hne].
    + unfold is_chunk_name in Hc. rewrite Hc. unfold load_chunk_file.
      by rewrite Hbad.
    + assert (bad ∈ names) as Hin'.
      { apply elem_of_cons in Hin as [Heq | Hin]; [by subst|done]. }
      assert (∀ acc0, load_chunk_files J dir d names acc0 = Raise JSONDecodeError)
        as Hrest.
      { apply IH; [|done]. intros n Hn. apply Hothers. by right. }
      destruct (Str.startswith x "summary_part") eqn:Hx; [|apply Hrest].
      destruct (Hothers x ltac:(by left) Hne Hx acc) as (acc' & ->).
      unfold mbind, result_bind, rbind. apply Hrest.
Qed.

(** a partial temporary file of a chunk summary stops the loader *)
Lemma partial_temp_stops_the_loader (J : codec) (day : date) (idx : Z) (d : fs)
    (partial : string) (m : gmap Z json) :
  load_summary_chunks J d day = Ok m →
  loads J partial = None →
  load_summary_chunks J (<[temp_path (chunk_path day idx) := partial]> d) day
  = Raise JSONDecodeError.
Proof.
  intros Hload Hpartial. unfold load_summary_chunks.
  set (tmp := temp_path (chunk_path day idx)).
  assert (tmp = (summaries_dir day, tmp.2)) as Htmp by done.
  apply (load_chunk_files_partial J _ _ tmp.2).
  - apply temp_chunk_name_is_chunk_name.
  - by rewrite <- Htmp, lookup_insert_eq.
  - intros n Hn Hne Hc acc.
    assert ((summaries_dir day, n) ≠ tmp) as Hp.
    { rewrite Htmp. intros [= ?]. done. }
    rewrite lookup_insert_ne by done.
    apply (load_chunk_files_all_load J _ _ _ _ _ Hload); [|done].
    apply elem_of_iterdir. apply elem_of_iterdir in Hn.
    by rewrite lookup_insert_ne in Hn.
  - apply elem_of_iterdir. by rewrite <- Htmp, lookup_insert_eq.
Qed.

(** C8, as the code has it.  Every write of the persistence layer is
    [_atomic_write]: the whole text goes to a temporary file of the same
    directory, which one rename then installs, so wherever the process stops
    the final path holds its previous value or the complete new one.  A
    reader that opens the final path sees one of the two.  The loader of the
    chunk summaries opens no path: it reads every file of the directory whose
    name starts with [summary_part], and the temporary file of a chunk
    summary, [summary_partNN.json.tmp], has such a name.  A write of a chunk
    summary stopped in the middle of the temporary file leaves the final
    path as it was and a text that is no JSON document beside it, on which
    the next load of the day raises [JSONDecodeError].  So it is for the
    day of 45 items with chunks 1 and 2 cached when the write of chunk 3 is
    stopped: the next run raises before it does anything. *)
Theorem interrupted_chunk_write_stops_the_loader
    (J : codec) (day : date) (idx : Z) (d : fs) (text : string) (k : nat) :
  (∀ p data d0 d1,
     stops_at (_atomic_write_ops p data) d0 d1 →
     (temp_path p).1 = p.1 ∧ (d1 !! p = d0 !! p ∨ d1 !! p = Some data))
  ∧ (∀ p data d0, ∃ d_end, _atomic_write p data d0 = Ok d_end ∧ d_end !! p = Some data)
  ∧ (∀ st, save_state J st
           = atomic_write state_path (dumps_indent J (state_to_json st)))
  ∧ (∀ papers, ∃ data,
       save_raw_papers J day papers = atomic_write (raw_path day) data)
  ∧ (∀ chunk, save_summary_chunk J chunk
       = (day' ← lift (fromisoformat (date_ chunk));
          atomic_write (chunk_path day' (chunk_index chunk))
            (dumps_indent J (chunk_payload chunk))))
  ∧ (∀ i data, save_response_chunk J day i data
       = atomic_write (response_path day i) (dumps_indent J (JStr data)))
  ∧ (∀ summary, ∃ data,
       save_overall_summary J day summary = atomic_write (overall_path day) data)
  ∧ (∀ data, save_overall_response J day data
       = atomic_write (overall_response_path day) (dumps_indent J (JStr data)))
  ∧ is_chunk_name (temp_path (chunk_path day idx)).2
  ∧ (let d' := <[temp_path (chunk_path day idx) := substring 0 k text]> d in
     stops_at (_atomic_write_ops (chunk_path day idx) text) d d'
     ∧ d' !! chunk_path day idx = d !! chunk_path day idx
     ∧ ∀ m, load_summary_chunks J d day = Ok m →
            loads J (substring 0 k text) = None →
            load_summary_chunks J d' day = Raise JSONDecodeError)
  ∧ (let d0 := Ex.interrupted in
     let data := dumps_indent RefJson.J (chunk_payload Ex.chunk3) in
     let d1 := <[temp_path (chunk_path Ex.day 3) := substring 0 40 data]> d0 in
     stops_at (_atomic_write_ops (chunk_path Ex.day 3) data) d0 d1
     ∧ load_summary_chunks RefJson.J d0 Ex.day
       = Ok (<[1 := content Ex.chunk1]> (<[2 := content Ex.chunk2]> ∅))
     ∧ d1 !! chunk_path Ex.day 3 = None
     ∧ load_summary_chunks RefJson.J d1 Ex.day = Raise JSONDecodeError
     ∧ _run_once RefJson.J Ex.E Ex.config Ex.day (World d1 [])
       = (Raise JSONDecodeError, World d1 [])).
Proof.
  split.
  { intros p data d0 d1 Hstop. split; [done|]. by apply final_path_old_or_new. }
  split; [intros; apply _atomic_write_installs|].
  split; [done|]. split; [intros; eexists; reflexivity|].
  split; [done|]. split; [done|]. split; [intros; eexists; reflexivity|].
  split; [done|]. split; [apply temp_chunk_name_is_chunk_name|].
  split.
  - cbv zeta. split; [apply stop_in_write|]. split.
    + rewrite lookup_insert_ne; [done|]. apply temp_path_ne.
    + intros m Hload Hpartial. by eapply partial_temp_stops_the_loader.
  - cbv zeta. split; [apply stop_in_write|].
    split; [vm_compute; reflexivity|]. split; [vm_compute; reflexivity|].
    split; vm_compute; reflexivity.
Qed.

(** * Further properties *)

(** ** summarizer.py: [_chunk] *)

Lemma chunk_aux_lookup {A} (size : nat) :
  ∀ fuel (items : list A) i b,
    (length items ≤ fuel)%nat →
    chunk_aux fuel (S size) items !! i = Some b →
    b = take (S size) (drop (i * S size) items) ∧ b ≠ [].
Proof.
  induction fuel as [|fuel IH]; intros items i b Hlen Hb.
  - done.
  - cbn [chunk_aux] in Hb. destruct items as [|x items]; [done|].
    destruct i as [|i].
    + cbn in Hb. injection Hb as <-. by split.
    + change ((take (S size) (x :: items)
               :: chunk_aux fuel (S size) (drop (S size) (x :: items))) !! S i)
        with (chunk_aux fuel (S size) (drop (S size) (x :: items)) !! i) in Hb.
      apply IH in Hb as [-> Hne].
      * split; [|done]. by rewrite drop_drop.
      * rewrite length_drop. cbn [length] in *. lia.
Qed.

Lemma chunk_aux_concat {A} (size : nat) :
  ∀ fuel (items : list A),
    (length items ≤ fuel)%nat → concat (chunk_aux fuel (S size) items) = items.
Proof.
  induction fuel as [|fuel IH]; intros items Hlen.
  - destruct items; [done | cbn [length] in Hlen; lia].
  - cbn [chunk_aux]. destruct items as [|x items]; [done|].
    cbn [concat]. rewrite IH.
    + apply take_drop.
    + rewrite length_drop. cbn [length] in *. lia.
Qed.

Lemma chunk_aux_length {A} (size : nat) :
  ∀ fuel (items : list A),
    (length items ≤ fuel)%nat →
    Z.of_nat (length (chunk_aux fuel (S size) items))
    = (Z.of_nat (length items) + Z.of_nat size) / Z.of_nat (S size).
Proof.
  induction fuel as [|fuel IH]; intros items Hlen.
  - destruct items; [|cbn [length] in Hlen; lia].
    cbn [chunk_aux length]. rewrite Z.div_small; lia.
  - cbn [chunk_aux]. destruct items as [|x items].
    + cbn [length]. rewrite Z.div_small; lia.
    + assert (1 ≤ length (x :: items))%nat as Hpos by (cbn [length]; lia).
      change (length (take (S size) (x :: items)
                      :: chunk_aux fuel (S size) (drop (S size) (x :: items))))
        with (S (length (chunk_aux fuel (S size) (drop (S size) (x :: items))))).
      rewrite Nat2Z.inj_succ, IH.
      2:{ rewrite length_drop. cbn [length] in *. lia. }
      rewrite length_drop. generalize dependent (length (x :: items)).
      intros n _ Hn.
      destruct (decide (n ≤ S size)%nat) as [Hle|Hgt].
      * replace (n - S size)%nat with 0%nat by lia.
        rewrite Z.div_small by lia.
        rewrite <- (Z.div_unique (Z.of_nat n + Z.of_nat size) (Z.of_nat (S size)) 1
                      (Z.of_nat n - 1)); lia.
      * rewrite Nat2Z.inj_sub by lia.
        replace (Z.of_nat n + Z.of_nat size)
          with (Z.of_nat n - Z.of_nat (S size) + Z.of_nat size
                + 1 * Z.of_nat (S size)) by lia.
        rewrite Z.div_add by lia. lia.
Qed.

(** X1. [_chunk] cuts a list into consecutive batches: put end to end they
    are the list; batch [i] is the items from [i * size] on, at most [size]
    of them, never empty, and full unless it is the last; there are
    [ceil(len / size)] batches, which for the size 20 of a run is the number
    of chunks the run expects. A size of zero raises. *)
Theorem chunk_cuts_consecutive_batches {A} (items : list A) (size : nat) :
  _chunk items 0 = Raise ValueError
  ∧ ∃ batches,
      _chunk items (S size) = Ok batches
      ∧ concat batches = items
      ∧ (∀ i b, batches !! i = Some b →
                b = take (S size) (drop (i * S size) items)
                ∧ (0 < length b ≤ S size)%nat
                ∧ (S i < length batches → length b = S size)%nat)
      ∧ Z.of_nat (length batches)
        = (Z.of_nat (length items) + Z.of_nat size) / Z.of_nat (S size)
      ∧ (S size = chunk_size →
         Z.of_nat (length batches) = expected_chunks_of (length items)).
Proof.
  split; [done|]. unfold _chunk. cbn [Nat.eqb]. eexists. split; [reflexivity|].
  split; [by apply chunk_aux_concat|].
  assert (Z.of_nat (length (chunk_aux (length items) (S size) items))
          = (Z.of_nat (length items) + Z.of_nat size) / Z.of_nat (S size)) as Hcount
    by (by apply chunk_aux_length).
  split; [|split; [done|]].
  - intros i b Hb. pose proof Hb as Hb'.
    apply chunk_aux_lookup in Hb' as [-> Hne]; [|done].
    split; [done|]. split.
    + split.
      * destruct (take _ _); [done | cbn [length]; lia].
      * rewrite length_take. lia.
    + intros Hnext. rewrite length_take, length_drop.
      assert (S i < length (chunk_aux (length items) (S size) items))%nat as Hlt by done.
      apply Nat2Z.inj_lt in Hlt. rewrite Hcount in Hlt.
      assert ((Z.of_nat (S i) + 1) * Z.of_nat (S size)
              ≤ Z.of_nat (length items) + Z.of_nat size) as Hfull.
      { apply Z.le_trans with
          (((Z.of_nat (length items) + Z.of_nat size) / Z.of_nat (S size))
           * Z.of_nat (S size)).
        - apply Z.mul_le_mono_nonneg_r; lia.
        - rewrite Z.mul_comm. apply Z.mul_div_le. lia. }
      apply Nat.min_l. nia.
  - intros Hsize. rewrite Hcount. unfold expected_chunks_of.
    unfold chunk_size in Hsize. injection Hsize as ->. done.
Qed.

(** ** summarizer.py: what a stream asks and what it returns *)

Lemma filter_chunk_calls_app (l k : list event) :
  filter (λ e, is_chunk_call e = true) (l ++ k)
  = filter (λ e, is_chunk_call e = true) l ++ filter (λ e, is_chunk_call e = true) k.
Proof. apply filter_app. Qed.

Lemma filter_no_chunk_calls (l : list event) :
  Forall (λ e, is_chunk_call e = false) l →
  filter (λ e, is_chunk_call e = true) l = [].
Proof.
  induction 1 as [|e l He _ IH]; [done|].
  rewrite filter_cons_False; [done|]. by rewrite He.
Qed.

Lemma stream_loop_shape (J : codec) (E : env) (day : date) (existing : gmap Z json)
    (cb : option (Z → string → M unit)) :
  quiet_callback cb →
  ∀ batches idx outputs w,
    ∃ evs k,
      trace (stream_loop J E day existing cb idx batches outputs w).2 = trace w ++ evs
      ∧ filter (λ e, is_chunk_call e = true) evs
        = (λ ib, EvChunkCall ib.1 ib.2) <$> take k (missing_batches existing idx batches)
      ∧ ∀ pairs,
          (stream_loop J E day existing cb idx batches outputs w).1 = Ok pairs →
          (length (missing_batches existing idx batches) ≤ k)%nat
          ∧ ∃ new, pairs = outputs ++ new
                   ∧ new.*1 = seqZ idx (Z.of_nat (length batches))
                   ∧ ∀ i v c, (i, v) ∈ new → existing !! i = Some c → v = c.
Proof.
  intros Hcb. induction batches as [|b batches IH]; intros idx outputs w.
  - exists [], 0%nat. cbn. rewrite app_nil_r. split; [done|]. split; [done|].
    intros pairs [= <-]. split; [done|]. exists []. rewrite app_nil_r.
    split; [done|]. split; [done|]. intros i v c Hin. by apply elem_of_nil in Hin.
  - cbn [stream_loop missing_batches]. destruct (existing !! idx) as [c0|] eqn:Hidx.
    + destruct (IH (idx + 1) (outputs ++ [(idx, c0)]) w) as (evs & k & Htr & Hcalls & Hok).
      exists evs, k. split; [done|]. split; [done|].
      intros pairs Hpairs. destruct (Hok pairs Hpairs) as (Hk & new & -> & Hidxs & Hcached).
      split; [done|]. exists ((idx, c0) :: new). rewrite <- app_assoc. split; [done|].
      split.
      * cbn [fmap list_fmap fst length]. rewrite seqZ_succ. f_equal. exact Hidxs.
      * intros i v c Hin Hc. apply elem_of_cons in Hin as [[= -> ->]|Hin].
        -- congruence.
        -- by eapply Hcached.
    + set (w1 := World (disk w) (trace w ++ [EvChunkCall idx b])).
      rewrite (bind_ok _ _ w () w1) by done.
      destruct (chunk_model E day b) as [text|e] eqn:Hmodel.
      2:{ rewrite (bind_raise _ _ w1 e w1) by done.
          exists [EvChunkCall idx b], 1%nat. cbn [snd trace fst].
          split; [done|]. split; [done|]. intros pairs [=]. }
      rewrite (bind_ok _ _ w1 text w1) by done.
      destruct (Hcb idx text w1) as (w2 & Hrun & evs2 & Htr2 & Hquiet).
      rewrite (bind_ok _ _ w1 () w2) by done.
      unfold w1 in Htr2. cbn [trace] in Htr2.
      destruct (parse_output J text) as [payload|e] eqn:Hparse.
      2:{ rewrite (bind_raise _ _ w2 e w2) by done.
          exists (EvChunkCall idx b :: evs2), 1%nat. cbn [snd fst].
          split; [by rewrite Htr2, <- app_assoc|]. split; [|intros pairs [=]].
          rewrite filter_cons_True by done. by rewrite filter_no_chunk_calls. }
      rewrite (bind_ok _ _ w2 payload w2) by done.
      destruct (IH (idx + 1) (outputs ++ [(idx, payload)]) w2)
        as (evs & k & Htr & Hcalls & Hok).
      exists (EvChunkCall idx b :: evs2 ++ evs), (S k). split; [|split].
      * rewrite Htr, Htr2, <- !app_assoc. done.
      * rewrite filter_cons_True by done. rewrite filter_chunk_calls_app.
        rewrite filter_no_chunk_calls by done. cbn [app take fmap list_fmap fst snd].
        by rewrite Hcalls.
      * intros pairs Hpairs.
        destruct (Hok pairs Hpairs) as (Hk & new & -> & Hidxs & Hcached).
        split; [cbn [length]; lia|]. exists ((idx, payload) :: new).
        rewrite <- app_assoc. split; [done|]. split.
        -- cbn [fmap list_fmap fst length]. rewrite seqZ_succ. f_equal. exact Hidxs.
        -- intros i v c Hin Hc. apply elem_of_cons in Hin as [[= -> ->]|Hin].
           ++ congruence.
           ++ by eapply Hcached.
Qed.

Lemma save_response_is_quiet (J : codec) (day : date) :
  quiet_callback (Some (save_response_chunk J day)).
Proof.
  intros idx text w. eexists. split; [apply save_response_chunk_run|].
  eexists. cbn [trace]. split; [done|]. by repeat constructor.
Qed.

Lemma no_callback_is_quiet : quiet_callback None.
Proof.
  intros idx text w. exists w. split; [done|]. exists []. by rewrite app_nil_r.
Qed.

Lemma missing_batches_no_cache (batches : list (list Paper)) :
  ∀ idx, missing_batches ∅ idx batches
         = zip (seqZ idx (Z.of_nat (length batches))) batches.
Proof.
  induction batches as [|b batches IH]; intros idx; [done|].
  cbn [missing_batches length]. rewrite lookup_empty, seqZ_succ. cbn [zip zip_with].
  by rewrite IH.
Qed.

Lemma summarize_papers_stream_shape (J : codec) (E : env) (day : date)
    (papers : list Paper) (size : nat) (existing : gmap Z json)
    (cb : option (Z → string → M unit)) (w : world) :
  quiet_callback cb →
  ∃ batches evs k,
    _chunk papers (S size) = Ok batches
    ∧ trace (summarize_papers_stream J E day papers (S size) existing cb w).2
      = trace w ++ evs
    ∧ filter (λ e, is_chunk_call e = true) evs
      = (λ ib, EvChunkCall ib.1 ib.2) <$> take k (missing_batches existing 1 batches)
    ∧ ∀ pairs,
        (summarize_papers_stream J E day papers (S size) existing cb w).1 = Ok pairs →
        (length (missing_batches existing 1 batches) ≤ k)%nat
        ∧ pairs.*1 = seqZ 1 (Z.of_nat (length batches))
        ∧ ∀ i v c, (i, v) ∈ pairs → existing !! i = Some c → v = c.
Proof.
  intros Hcb. unfold summarize_papers_stream. destruct papers as [|p papers].
  - exists [], [], 0%nat. cbn. rewrite app_nil_r. split; [done|]. split; [done|].
    split; [done|]. intros pairs [= <-]. split; [done|]. split; [done|].
    intros i v c Hin. by apply elem_of_nil in Hin.
  - set (batches := chunk_aux (length (p :: papers)) (S size) (p :: papers)).
    assert (_chunk (p :: papers) (S size) = Ok batches) as Hchunk by done.
    rewrite (bind_ok _ _ w batches w) by (unfold lift; by rewrite Hchunk).
    destruct (stream_loop_shape J E day existing cb Hcb batches 1 [] w)
      as (evs & k & Htr & Hcalls & Hok).
    exists batches, evs, k. split; [done|]. split; [done|]. split; [done|].
    intros pairs Hpairs. destruct (Hok pairs Hpairs) as (Hk & new & -> & Hidx & Hc).
    done.
Qed.

(** X2. A stream asks the model for the batches that are not in the cache,
    in the order of their indices, and for nothing else; when a call or its
    parse fails the calls made are the missing batches up to that one. A
    stream that returns has asked for every missing batch, and returns one
    pair per batch, with the indices [1 .. n] in order, the cached payloads
    as the cache has them. Without a cache, as [summarize_papers] calls it,
    every batch is asked for and one payload per batch comes back. *)
Theorem stream_asks_for_the_missing_batches (J : codec) (E : env) (day : date)
    (papers : list Paper) (size : nat) (existing : gmap Z json) (w : world) :
  ∃ batches,
    _chunk papers (S size) = Ok batches
    ∧ (∃ evs k,
         trace (summarize_papers_stream J E day papers (S size) existing
                  (Some (save_response_chunk J day)) w).2 = trace w ++ evs
         ∧ filter (λ e, is_chunk_call e = true) evs
           = (λ ib, EvChunkCall ib.1 ib.2)
               <$> take k (missing_batches existing 1 batches)
         ∧ ∀ pairs,
             (summarize_papers_stream J E day papers (S size) existing
                (Some (save_response_chunk J day)) w).1 = Ok pairs →
             filter (λ e, is_chunk_call e = true) evs
             = (λ ib, EvChunkCall ib.1 ib.2) <$> missing_batches existing 1 batches
             ∧ pairs.*1 = seqZ 1 (Z.of_nat (length batches))
             ∧ ∀ i v c, (i, v) ∈ pairs → existing !! i = Some c → v = c)
    ∧ (∀ payloads w',
         summarize_papers J E day papers (S size) w = (Ok payloads, w') →
         length payloads = length batches
         ∧ ∃ evs, trace w' = trace w ++ evs
                  ∧ filter (λ e, is_chunk_call e = true) evs
                    = (λ ib, EvChunkCall ib.1 ib.2)
                        <$> zip (seqZ 1 (Z.of_nat (length batches))) batches).
Proof.
  destruct (summarize_papers_stream_shape J E day papers size existing
              (Some (save_response_chunk J day)) w (save_response_is_quiet J day))
    as (batches & evs & k & Hchunk & Htr & Hcalls & Hok).
  exists batches. split; [done|]. split.
  - exists evs, k. split; [done|]. split; [done|].
    intros pairs Hpairs. destruct (Hok pairs Hpairs) as (Hk & Hidx & Hcached).
    split; [|done]. by rewrite Hcalls, take_ge.
  - intros payloads w' Hrun. unfold summarize_papers in Hrun.
    destruct (summarize_papers_stream_shape J E day papers size ∅ None w
                no_callback_is_quiet)
      as (batches' & evs' & k' & Hchunk' & Htr' & Hcalls' & Hok').
    rewrite Hchunk in Hchunk'. injection Hchunk' as <-.
    unfold mbind, M_bind in Hrun.
    destruct (summarize_papers_stream J E day papers (S size) ∅ None w)
      as [[pairs|e] w1] eqn:Hstream; [|done].
    injection Hrun as <- <-.
    destruct (Hok' pairs eq_refl) as (Hk & Hidx & _). split.
    + rewrite length_fmap, <- (length_fmap fst), Hidx, length_seqZ. lia.
    + exists evs'. split; [done|].
      by rewrite Hcalls', take_ge, missing_batches_no_cache.
Qed.

(** ** The calendar: dates and their texts *)

Lemma days_of_year_checked (leapyear : bool) :
  forallb (month_day_ok leapyear) (seqZ 0 365) = true.
Proof. destruct leapyear; vm_compute; reflexivity. Qed.

Lemma month_day_spec (n : Z) (leapyear : bool) :
  0 ≤ n < 365 →
  let '(m, d) := month_day n leapyear in
  1 ≤ m ≤ 12 ∧ 1 ≤ d
  ∧ d ≤ _DAYS_IN_MONTH m + (if (m =? 2) && leapyear then 1 else 0)
  ∧ _DAYS_BEFORE_MONTH m + (if (2 <? m) && leapyear then 1 else 0) + d = n + 1.
Proof.
  intros Hn. pose proof (days_of_year_checked leapyear) as Hall.
  rewrite forallb_forall in Hall. specialize (Hall n).
  unfold month_day_ok in Hall. destruct (month_day n leapyear) as [m d].
  assert (In n (seqZ 0 365)) as Hin by (apply list_elem_of_In, elem_of_seqZ; lia).
  specialize (Hall Hin).
  repeat (apply andb_true_iff in Hall as [Hall ?]).
  repeat split; lia.
Qed.

Lemma _ord2ymd_unfold (n0 : Z) :
  _ord2ymd n0
  = let n := n0 - 1 in
    let a := n / 146097 in
    let b := (n mod 146097) / 36524 in
    let c := ((n mod 146097) mod 36524) / 1461 in
    let e := (((n mod 146097) mod 36524) mod 1461) / 365 in
    let r := (((n mod 146097) mod 36524) mod 1461) mod 365 in
    let year := a * 400 + 1 + b * 100 + c * 4 + e in
    if (e =? 4) || (b =? 4) then (year - 1, 12, 31)
    else
      let '(m, d) := month_day r ((e =? 3) && (negb (c =? 24) || (b =? 3))) in
      (year, m, d).
Proof.
  unfold _ord2ymd, month_day. cbv zeta.
  destruct (_ || _); [done|]. by destruct (_ <? _).
Qed.

Lemma _days_before_year_split (a b c e : Z) :
  0 ≤ a → 0 ≤ b ≤ 3 → 0 ≤ c ≤ 24 → 0 ≤ e ≤ 3 →
  _days_before_year (a * 400 + 1 + b * 100 + c * 4 + e)
  = 146097 * a + 36524 * b + 1461 * c + 365 * e.
Proof.
  intros Ha Hb Hc He. unfold _days_before_year. cbv zeta.
  Z.div_mod_to_equations. lia.
Qed.

Lemma _is_leap_split (a b c e : Z) :
  0 ≤ a → 0 ≤ b ≤ 3 → 0 ≤ c ≤ 24 → 0 ≤ e ≤ 3 →
  _is_leap (a * 400 + 1 + b * 100 + c * 4 + e)
  = (e =? 3) && (negb (c =? 24) || (b =? 3)).
Proof.
  intros Ha Hb Hc He. unfold _is_leap.
  destruct (Z.eqb_spec e 3) as [He3|He3];
    destruct (Z.eqb_spec c 24) as [Hc24|Hc24];
    destruct (Z.eqb_spec b 3) as [Hb3|Hb3]; cbn [negb andb orb];
    repeat match goal with
           | |- context [?x mod ?k =? 0] =>
               let H := fresh in destruct (Z.eqb_spec (x mod k) 0) as [H|H]
           end; cbn [negb andb orb]; try reflexivity;
    exfalso; Z.div_mod_to_equations; lia.
Qed.

(** the date of an ordinal is a calendar date and has that ordinal *)
Lemma _ord2ymd_spec (d : Z) :
  1 ≤ d ≤ MAXORDINAL →
  ∃ y m dd, _ord2ymd d = (y, m, dd)
            ∧ 1 ≤ y ≤ 9999 ∧ 1 ≤ m ≤ 12 ∧ 1 ≤ dd ≤ _days_in_month y m
            ∧ _ymd2ord y m dd = d.
Proof.
  unfold MAXORDINAL. intros Hd. rewrite _ord2ymd_unfold. cbv zeta.
  set (n := d - 1).
  set (a := n / 146097). set (r1 := n mod 146097).
  set (b := r1 / 36524). set (r2 := r1 mod 36524).
  set (c := r2 / 1461). set (r3 := r2 mod 1461).
  set (e := r3 / 365). set (r := r3 mod 365).
  assert (n = 146097 * a + 36524 * b + 1461 * c + 365 * e + r
          ∧ 0 ≤ a ≤ 24 ∧ 0 ≤ b ≤ 4 ∧ 0 ≤ c ≤ 24 ∧ 0 ≤ e ≤ 4 ∧ 0 ≤ r < 365
          ∧ (b = 4 → c = 0 ∧ e = 0 ∧ r = 0) ∧ (e = 4 → r = 0 ∧ c ≤ 23 ∨ b = 4)
          ∧ (a = 24 → 36524 * b + 1461 * c + 365 * e + r ≤ 145730)) as Hsplit.
  { unfold r, e, r3, c, r2, b, r1, a. subst n.
    Z.div_mod_to_equations. lia. }
  clearbody a b c e r. clear r1 r2 r3.
  destruct Hsplit as (Hn & Ha & Hb & Hc & He & Hr & Hb4 & He4 & Ha24).
  destruct (Z.eqb_spec e 4) as [He'|He'].
  - (* the last day of a leap year *)
    cbn [orb]. destruct (He4 He') as [[-> Hc23] | ->].
    + assert (b ≤ 3) as Hb3.
      { destruct (decide (b = 4)) as [Hb'|]; [|lia].
        destruct (Hb4 Hb') as (_ & ? & _). lia. }
      subst e. eexists _, _, _. split; [reflexivity|].
      replace (a * 400 + 1 + b * 100 + c * 4 + 4 - 1)
        with (a * 400 + 1 + b * 100 + c * 4 + 3) by lia.
      unfold _days_in_month, _ymd2ord, _days_before_month.
      rewrite _is_leap_split, _days_before_year_split by lia.
      rewrite (proj2 (Z.eqb_neq c 24)) by lia. cbn. lia.
    + destruct (Hb4 eq_refl) as (_ & ? & _). lia.
  - destruct (Z.eqb_spec b 4) as [Hb'|Hb'].
    + (* the last day of a 400-year cycle *)
      cbn [orb]. destruct (Hb4 Hb') as (-> & -> & ->). subst b.
      eexists _, _, _. split; [reflexivity|].
      replace (a * 400 + 1 + 4 * 100 + 0 * 4 + 0 - 1)
        with (a * 400 + 1 + 3 * 100 + 24 * 4 + 3) by lia.
      unfold _days_in_month, _ymd2ord, _days_before_month.
      rewrite _is_leap_split, _days_before_year_split by lia. cbn. lia.
    + cbn [orb].
      pose proof (month_day_spec r ((e =? 3) && (negb (c =? 24) || (b =? 3))) Hr)
        as Hmd.
      destruct (month_day r _) as [m dd]. destruct Hmd as (Hm & Hdd & Hdim & Hback).
      eexists _, _, _. split; [reflexivity|].
      unfold _days_in_month, _ymd2ord, _days_before_month.
      rewrite _is_leap_split, _days_before_year_split by lia.
      split; [lia|]. split; [lia|]. split; [|lia].
      split; [lia|].
      destruct ((m =? 2) && _) eqn:Hfeb; [|lia].
      apply andb_true_iff in Hfeb as [Hm2%Z.eqb_eq _]. subst m. cbn in Hdim. lia.
Qed.

Lemma years_checked : forallb (digits_ok 4) (seqZ 1 9999) = true.
Proof. vm_compute. reflexivity. Qed.

Lemma days_checked : forallb (digits_ok 2) (seqZ 1 31) = true.
Proof. vm_compute. reflexivity. Qed.

Lemma digits_ok_spec (w : nat) (n : Z) :
  digits_ok w n = true →
  String.length (Str.zfill w (Str.of_N (Z.to_N n))) = w
  ∧ forallb Str.is_digit (list_ascii_of_string (Str.zfill w (Str.of_N (Z.to_N n)))) = true
  ∧ Z.of_N (Str.to_N (Str.zfill w (Str.of_N (Z.to_N n)))) = n.
Proof.
  unfold digits_ok. cbv zeta. intros H.
  apply andb_true_iff in H as [H H3]. apply andb_true_iff in H as [H1 H2].
  apply Nat.eqb_eq in H1. apply Z.eqb_eq in H3. done.
Qed.

Lemma year_text (y : Z) :
  1 ≤ y ≤ 9999 →
  ∃ a b c d, Str.zfill 4 (Str.of_N (Z.to_N y))
             = String a (String b (String c (String d EmptyString)))
             ∧ Str.is_digit a = true ∧ Str.is_digit b = true
             ∧ Str.is_digit c = true ∧ Str.is_digit d = true
             ∧ Z.of_N (Str.to_N (String a (String b (String c (String d EmptyString)))))
               = y.
Proof.
  intros Hy. pose proof years_checked as Hall. rewrite forallb_forall in Hall.
  destruct (digits_ok_spec 4 y) as (Hlen & Hdig & Hval).
  { apply Hall, list_elem_of_In, elem_of_seqZ. lia. }
  destruct (Str.zfill 4 _) as [|a [|b [|c [|d [|x s]]]]]; try done.
  exists a, b, c, d. cbn in Hdig.
  repeat (apply andb_true_iff in Hdig as [? Hdig]). done.
Qed.

Lemma day_text (n : Z) :
  1 ≤ n ≤ 31 →
  ∃ a b, Str.zfill 2 (Str.of_N (Z.to_N n)) = String a (String b EmptyString)
         ∧ Str.is_digit a = true ∧ Str.is_digit b = true
         ∧ Z.of_N (Str.to_N (String a (String b EmptyString))) = n.
Proof.
  intros Hn. pose proof days_checked as Hall. rewrite forallb_forall in Hall.
  destruct (digits_ok_spec 2 n) as (Hlen & Hdig & Hval).
  { apply Hall, list_elem_of_In, elem_of_seqZ. lia. }
  destruct (Str.zfill 2 _) as [|a [|b [|x s]]]; try done.
  exists a, b. cbn in Hdig.
  repeat (apply andb_true_iff in Hdig as [? Hdig]). done.
Qed.

Lemma _days_in_month_le (y m : Z) : 1 ≤ m ≤ 12 → _days_in_month y m ≤ 31.
Proof.
  intros Hm. unfold _days_in_month. destruct (_ && _); [lia|].
  assert (m = 1 ∨ m = 2 ∨ m = 3 ∨ m = 4 ∨ m = 5 ∨ m = 6 ∨ m = 7 ∨ m = 8 ∨ m = 9
          ∨ m = 10 ∨ m = 11 ∨ m = 12) as Hcases by lia.
  repeat destruct Hcases as [-> | Hcases]; try subst m; cbn; lia.
Qed.

(** the text of a calendar date reads back as the date *)
Lemma fromisoformat_isoformat (d : date) :
  1 ≤ d ≤ MAXORDINAL → fromisoformat (isoformat d) = Ok d.
Proof.
  intros Hd. destruct (_ord2ymd_spec d Hd) as (y & m & dd & Hymd & Hy & Hm & Hdd & Hord).
  unfold isoformat. rewrite Hymd.
  pose proof (_days_in_month_le y m Hm) as H31.
  destruct (year_text y Hy) as (y1 & y2 & y3 & y4 & -> & ? & ? & ? & ? & Hyv).
  destruct (day_text m ltac:(lia)) as (m1 & m2 & -> & ? & ? & Hmv).
  destruct (day_text dd ltac:(lia)) as (d1 & d2 & -> & ? & ? & Hdv).
  change (String y1 (String y2 (String y3 (String y4 EmptyString))) +:+ "-"
          +:+ String m1 (String m2 EmptyString) +:+ "-"
          +:+ String d1 (String d2 EmptyString))
    with (String y1 (String y2 (String y3 (String y4 (String "-"
            (String m1 (String m2 (String "-" (String d1 (String d2 EmptyString)))))))))).
  unfold fromisoformat.
  change (Str.date_shape _)
    with (Str.is_digit y1 && Str.is_digit y2 && Str.is_digit y3 && Str.is_digit y4
          && Ascii.eqb "-" "-" && Str.is_digit m1 && Str.is_digit m2
          && Ascii.eqb "-" "-" && Str.is_digit d1 && Str.is_digit d2).
  repeat match goal with H : Str.is_digit _ = true |- _ => rewrite H; clear H end.
  change (substring 0 4 _) with (String y1 (String y2 (String y3 (String y4 EmptyString)))).
  change (substring 5 2 _) with (String m1 (String m2 EmptyString)).
  change (substring 8 2 _) with (String d1 (String d2 EmptyString)).
  cbn [andb Ascii.eqb Bool.eqb String.length Nat.eqb]. cbv zeta.
  rewrite Hyv, Hmv, Hdv.
  replace ((1 <=? y) && (1 <=? m) && (m <=? 12) && (1 <=? dd)
           && (dd <=? _days_in_month y m)) with true; [by rewrite Hord|].
  symmetry. repeat (apply andb_true_iff; split); apply Z.leb_le; lia.
Qed.

Lemma isoformat_inj (d d' : date) :
  1 ≤ d ≤ MAXORDINAL → 1 ≤ d' ≤ MAXORDINAL → isoformat d = isoformat d' → d = d'.
Proof.
  intros Hd Hd' Heq. apply fromisoformat_isoformat in Hd, Hd'.
  rewrite Heq in Hd. congruence.
Qed.

(** X3. The text of a calendar day reads back as the day: [parse_target_date]
    of what [isoformat] writes is that day, and the run it resolves to is for
    that day. The directories of two different days differ, and so do their
    snapshot and chunk files: no day reads or writes the files of another. *)
Theorem day_text_round_trip (d d' : date) :
  1 ≤ d ≤ MAXORDINAL → 1 ≤ d' ≤ MAXORDINAL →
  fromisoformat (isoformat d) = Ok d
  ∧ parse_target_date (Some (isoformat d)) = Ok (Some d)
  ∧ (∀ today, parse_target_date (Some (isoformat d))
              ≫= (λ v, _resolve_target_date v today) = Ok d)
  ∧ (d ≠ d' →
     _date_dir d ≠ _date_dir d'
     ∧ raw_path d ≠ raw_path d'
     ∧ ∀ i j, chunk_path d i ≠ chunk_path d' j ∧ response_path d i ≠ response_path d' j).
Proof.
  intros Hd Hd'. pose proof (fromisoformat_isoformat d Hd) as Hback.
  assert (parse_target_date (Some (isoformat d)) = Ok (Some d)) as Hparse.
  { unfold parse_target_date. destruct (String.eqb_spec (isoformat d) EmptyString) as [He|_].
    - rewrite He in Hback. discriminate Hback.
    - by rewrite Hback. }
  split; [done|]. split; [done|]. split; [by intros today; rewrite Hparse|].
  intros Hne.
  assert (isoformat d ≠ isoformat d') as Htext
    by (intros Heq; by apply Hne, isoformat_inj).
  split; [by intros [= ?]|]. split; [by intros [= ?]|].
  intros i j. split; by intros [= ?].
Qed.

Lemma day_text_round_trip_witness :
  fromisoformat (isoformat Ex.day) = Ok Ex.day
  ∧ parse_target_date (Some (isoformat Ex.day)) = Ok (Some Ex.day)
  ∧ raw_path Ex.day ≠ raw_path 738891.
Proof.
  assert (1 ≤ Ex.day ≤ MAXORDINAL) as H1 by (unfold Ex.day, MAXORDINAL; lia).
  assert (1 ≤ 738891 ≤ MAXORDINAL) as H2 by (unfold MAXORDINAL; lia).
  destruct (day_text_round_trip Ex.day 738891 H1 H2) as (A & B & _ & C).
  split; [exact A|]. split; [exact B|].
  apply C. unfold Ex.day. lia.
Defined.

(** ** storage.py: the state file *)

Lemma as_str_list_strs (ids : list string) : Py.as_str_list (JStr <$> ids) = Ok ids.
Proof.
  induction ids as [|s ids IH]; [done|].
  change (Py.as_str_list (JStr <$> s :: ids))
    with (s0 ← Py.as_str (JStr s); ss ← Py.as_str_list (JStr <$> ids); Ok (s0 :: ss)).
  by rewrite IH.
Qed.

Lemma decode_seen_encoded (l : list (Z * list string)) :
  (∀ e, e ∈ l → 1 ≤ e.1 ≤ MAXORDINAL) →
  ∀ acc : gmap Z (list string),
    decode_seen ((λ e : Z * list string, (isoformat e.1, JArr (JStr <$> e.2))) <$> l) acc
    = Ok (foldl (λ m e, <[e.1 := e.2]> m) acc l).
Proof.
  induction l as [|[d ids] l IH]; intros Hdays acc; [done|].
  cbn [fmap list_fmap decode_seen fst snd foldl].
  rewrite fromisoformat_isoformat by (apply (Hdays (d, ids)); by left).
  unfold mbind at 1, result_bind at 1, rbind at 1.
  rewrite as_str_list_strs.
  unfold mbind at 1, result_bind at 1, rbind at 1.
  apply IH. intros e He. apply Hdays. by right.
Qed.

Lemma foldl_insert_list_to_map (l : list (Z * list string)) :
  NoDup l.*1 →
  ∀ acc : gmap Z (list string),
    foldl (λ m e, <[e.1 := e.2]> m) acc l = list_to_map l ∪ acc.
Proof.
  induction l as [|[d ids] l IH]; intros Hnd acc.
  - cbn. by rewrite (left_id_L ∅ (∪)).
  - cbn [fmap list_fmap fst] in Hnd. apply NoDup_cons in Hnd as [Hd Hnd].
    cbn [foldl fst snd list_to_map foldr uncurry]. rewrite IH by done.
    rewrite <- insert_union_l. symmetry. apply insert_union_r.
    by apply not_elem_of_list_to_map_1.
Qed.

Lemma state_of_json_state_to_json (st : state) :
  (∀ d ids, seen_by_date st !! d = Some ids → 1 ≤ d ≤ MAXORDINAL) →
  state_of_json (state_to_json st) = Ok st.
Proof.
  intros Hdays. destruct st as [m lrd]. cbn [seen_by_date] in Hdays.
  unfold state_of_json, state_to_json. cbn [seen_by_date last_run_date].
  cbn [Py.get Py.assoc String.eqb Ascii.eqb Bool.eqb].
  unfold mbind at 1, result_bind at 1, rbind at 1.
  rewrite decode_seen_encoded.
  2:{ intros [d ids] He. apply elem_of_map_to_list in He. by eapply Hdays. }
  rewrite foldl_insert_list_to_map by apply NoDup_fst_map_to_list.
  rewrite list_to_map_to_list, (right_id_L ∅ (∪)).
  unfold mbind, result_bind, rbind. by destruct lrd.
Qed.

(** X4. The state a run saves is the state the next run loads: writing a
    state whose days are calendar days and loading it gives the state back,
    whatever was on disk, provided the JSON document reads back as written.
    So the ids a run records are the ids the next run finds recorded. *)
Theorem saved_state_loads_back (J : codec) (st : state) (w : world) :
  (∀ d ids, seen_by_date st !! d = Some ids → 1 ≤ d ≤ MAXORDINAL) →
  loads J (dumps_indent J (state_to_json st)) = Some (state_to_json st) →
  (save_state J st w).1 = Ok ()
  ∧ load_state J (disk (save_state J st w).2) = Ok st
  ∧ (∀ day papers now,
       1 ≤ day ≤ MAXORDINAL →
       let st' := update_state_with_papers st day papers now in
       loads J (dumps_indent J (state_to_json st')) = Some (state_to_json st') →
       load_state J (disk (save_state J st' w).2) = Ok st'
       ∧ ∀ p, p ∈ papers → paper_id p ∈ seen_on st' day).
Proof.
  intros Hdays Hjson.
  assert (∀ s, (∀ d ids, seen_by_date s !! d = Some ids → 1 ≤ d ≤ MAXORDINAL) →
               loads J (dumps_indent J (state_to_json s)) = Some (state_to_json s) →
               load_state J (disk (save_state J s w).2) = Ok s) as Hback.
  { intros s Hs Hl. rewrite save_state_run. cbn [snd disk].
    unfold load_state. rewrite lookup_insert_eq, Hl.
    by apply state_of_json_state_to_json. }
  split; [by rewrite save_state_run|]. split; [by apply Hback|].
  intros day papers now Hday st' Hjson'. split.
  - apply Hback; [|done]. intros d ids. unfold st', update_state_with_papers.
    cbn [seen_by_date]. destruct (decide (day = d)) as [<-|Hne].
    + by intros _.
    + rewrite lookup_insert_ne by done. apply Hdays.
  - intros p Hp. apply update_state_records, elem_of_list_to_set.
    by apply list_elem_of_fmap_2.
Qed.

Lemma saved_state_loads_back_witness :
  load_state RefJson.J (disk (save_state RefJson.J Ex.seen_state (World ∅ [])).2)
  = Ok Ex.seen_state.
Proof.
  assert (∀ d ids, seen_by_date Ex.seen_state !! d = Some ids → 1 ≤ d ≤ MAXORDINAL)
    as Hdays.
  { intros d ids. unfold Ex.seen_state, update_state_with_papers. cbn [seen_by_date].
    destruct (decide (Ex.day = d)) as [<-|Hne].
    - intros _. unfold Ex.day, MAXORDINAL. lia.
    - rewrite lookup_insert_ne by done. by rewrite lookup_empty. }
  assert (loads RefJson.J (dumps_indent RefJson.J (state_to_json Ex.seen_state))
          = Some (state_to_json Ex.seen_state)) as Hjson
    by (vm_compute; reflexivity).
  exact (proj1 (proj2 (saved_state_loads_back RefJson.J Ex.seen_state (World ∅ [])
                         Hdays Hjson))).
Defined.

(** ** storage.py: the snapshot file *)

Lemma string_of_list_app (l k : list ascii) :
  string_of_list_ascii (l ++ k) = string_of_list_ascii l +:+ string_of_list_ascii k.
Proof.
  induction l as [|a l IH]; [done|].
  cbn [app string_of_list_ascii]. by rewrite IH, append_cons.
Qed.

Lemma rev_cons (a : ascii) (s : string) :
  Str.rev (String a s) = Str.rev s +:+ String a EmptyString.
Proof.
  unfold Str.rev. cbn [list_ascii_of_string List.rev].
  by rewrite string_of_list_app.
Qed.

Lemma lines_aux_line (l : string) :
  forallb (λ a, negb (Py.is_linebreak a)) (list_ascii_of_string l) = true →
  ∀ cur rest,
    Py.lines_aux cur (l +:+ String Py.LF rest)
    = (Str.rev cur +:+ l) :: Py.lines_aux EmptyString rest.
Proof.
  induction l as [|a l IH]; intros Hl cur rest.
  - change (EmptyString +:+ String Py.LF rest) with (String Py.LF rest).
    rewrite append_empty_r. cbn [Py.lines_aux].
    change (Py.is_linebreak Py.LF) with true. cbv iota.
    destruct rest as [|b u]; [done|].
    by change (Ascii.eqb Py.LF Py.CR) with false.
  - cbn [list_ascii_of_string forallb] in Hl.
    apply andb_true_iff in Hl as [Ha Hl]. apply negb_true_iff in Ha.
    rewrite append_cons. cbn [Py.lines_aux]. rewrite Ha, IH by done.
    by rewrite rev_cons, append_assoc.
Qed.

Lemma splitlines_snapshot (lines : list string) :
  Forall (λ l, forallb (λ a, negb (Py.is_linebreak a)) (list_ascii_of_string l) = true)
    lines →
  Py.splitlines
    (Py.join (String Py.LF EmptyString) lines
     +:+ match lines with [] => EmptyString | _ => String Py.LF EmptyString end)
  = lines.
Proof.
  unfold Py.splitlines. induction 1 as [|l lines Hl Hlines IH]; [done|].
  destruct lines as [|l' lines].
  - cbn [Py.join]. rewrite lines_aux_line by done. done.
  - change (Py.join (String Py.LF EmptyString) (l :: l' :: lines))
      with (l +:+ String Py.LF EmptyString
            +:+ Py.join (String Py.LF EmptyString) (l' :: lines)).
    rewrite !append_assoc. rewrite append_cons.
    change (EmptyString +:+ ?x) with x.
    rewrite lines_aux_line by done. by rewrite IH.
Qed.

Lemma paper_of_item_to_dict (J : codec) (p : Paper) :
  datetime_fromisoformat J (published p) = Ok (published p) →
  datetime_fromisoformat J (updated p) = Ok (updated p) →
  paper_of_item J (to_dict p) = Ok p.
Proof.
  intros Hpub Hupd. destruct p as [pid ti su au li ca pu up].
  cbn [published updated] in Hpub, Hupd.
  unfold paper_of_item, to_dict.
  cbn [Py.item Py.assoc String.eqb Ascii.eqb Bool.eqb paper_id title summary authors
       link category published updated].
  unfold mbind, result_bind, rbind. cbn [Py.as_str].
  by rewrite as_str_list_strs, Hpub, Hupd.
Qed.

Lemma parse_lines_snapshot (J : codec) (papers : list Paper) :
  Forall (line_reads_back J) papers →
  parse_lines J ((λ p, dumps J (to_dict p)) <$> papers) = Ok (to_dict <$> papers).
Proof.
  induction 1 as [|p papers (_ & Htext & Hload & _) _ IH]; [done|].
  cbn [fmap list_fmap parse_lines]. rewrite Htext, Hload.
  unfold mbind, result_bind, rbind. by rewrite IH.
Qed.

Lemma papers_of_items_to_dict (J : codec) (papers : list Paper) :
  Forall (line_reads_back J) papers →
  papers_of_items J (to_dict <$> papers) = Ok papers.
Proof.
  induction 1 as [|p papers (_ & _ & _ & Hpub & Hupd) _ IH]; [done|].
  cbn [fmap list_fmap papers_of_items]. unfold mbind, result_bind, rbind.
  rewrite paper_of_item_to_dict by done. by rewrite IH.
Qed.

(** X5. A snapshot reads back as it was saved: when the JSON line of every
    item is on one line, is not blank and parses to what was written, and
    its timestamps are ISO texts, [read_raw_papers] after [save_raw_papers]
    gives the documents of the items and [_load_papers_from_storage] the
    items, in order; the snapshot of no item is the empty file and reads back
    as no item. The line has to be on one line: an item whose author's name
    holds the next-line character, which [json.dumps] leaves as it is and
    [splitlines] cuts at, is saved and then fails to load. *)
Theorem snapshot_round_trip (J : codec) (day : date) (papers : list Paper)
    (w : world) :
  Forall (line_reads_back J) papers →
  (save_raw_papers J day papers w).1 = Ok ()
  ∧ read_raw_papers J (disk (save_raw_papers J day papers w).2) day
    = Ok (to_dict <$> papers)
  ∧ _load_papers_from_storage J (disk (save_raw_papers J day papers w).2) day
    = Ok papers
  ∧ disk (save_raw_papers J day [] w).2 !! raw_path day = Some EmptyString
  ∧ _load_papers_from_storage J (disk (save_raw_papers J day [] w).2) day = Ok []
  ∧ (save_raw_papers RefJson.J day [next_line_paper] w).1 = Ok ()
  ∧ _load_papers_from_storage RefJson.J
      (disk (save_raw_papers RefJson.J day [next_line_paper] w).2) day
    = Raise JSONDecodeError.
Proof.
  intros Hlines.
  assert (read_raw_papers J (disk (save_raw_papers J day papers w).2) day
          = Ok (to_dict <$> papers)) as Hread.
  { rewrite save_raw_papers_run. cbn [snd disk]. unfold read_raw_papers.
    rewrite lookup_insert_eq. unfold snapshot_text.
    replace (match papers with [] => EmptyString | _ => String Py.LF EmptyString end)
      with (match (λ p, dumps J (to_dict p)) <$> papers with
            | [] => EmptyString | _ => String Py.LF EmptyString end)
      by (by destruct papers).
    rewrite splitlines_snapshot.
    - by apply parse_lines_snapshot.
    - apply Forall_fmap. eapply Forall_impl; [exact Hlines|]. by intros p (? & _). }
  split; [by rewrite save_raw_papers_run|]. split; [done|]. split.
  { unfold _load_papers_from_storage. rewrite Hread.
    by apply papers_of_items_to_dict. }
  rewrite !save_raw_papers_run. cbn [snd fst disk].
  unfold _load_papers_from_storage, read_raw_papers. rewrite !lookup_insert_eq.
  split; [done|]. split; [done|]. split; [done|].
  vm_compute. reflexivity.
Qed.

Lemma snapshot_round_trip_witness :
  _load_papers_from_storage RefJson.J
    (disk (save_raw_papers RefJson.J Ex.day (Ex.papers 3) (World ∅ [])).2) Ex.day
  = Ok (Ex.papers 3).
Proof.
  assert (Forall (line_reads_back RefJson.J) (Ex.papers 3)) as Hlines.
  { repeat constructor; vm_compute; reflexivity. }
  exact (proj1 (proj2 (proj2 (snapshot_round_trip RefJson.J Ex.day (Ex.papers 3)
                                (World ∅ []) Hlines)))).
Defined.

(** ** main.py: runs that stop before they act *)

(** X6. An unreadable input stops the run before it does anything: when the
    state file is no JSON document, or the state, the seen set or the stored
    snapshot cannot be read for any other reason, [_run_once] raises that
    exception and has fetched, asked and written nothing. With stored items
    the same holds for an unreadable chunk cache. No default stands in for a
    file that is there and cannot be read. *)
Theorem unreadable_input_stops_the_run (J : codec) (E : env) (config : AppConfig)
    (day : date) (w : world) (text : string) :
  disk w !! state_path = Some text →
  loads J text = None →
  _run_once J E config day w = (Raise JSONDecodeError, w)
  ∧ (∀ w0 e, load_state J (disk w0) = Raise e →
             _run_once J E config day w0 = (Raise e, w0))
  ∧ (∀ w0 st e,
       load_state J (disk w0) = Ok st →
       build_seen_set st (retention_days config) (today E) = Raise e →
       _run_once J E config day w0 = (Raise e, w0))
  ∧ (∀ w0 st seen e,
       load_state J (disk w0) = Ok st →
       build_seen_set st (retention_days config) (today E) = Ok seen →
       _load_papers_from_storage J (disk w0) day = Raise e →
       _run_once J E config day w0 = (Raise e, w0))
  ∧ (∀ w0 st seen p ps e,
       load_state J (disk w0) = Ok st →
       build_seen_set st (retention_days config) (today E) = Ok seen →
       _load_papers_from_storage J (disk w0) day = Ok (p :: ps) →
       load_summary_chunks J (disk w0) day = Raise e →
       _run_once J E config day w0 = (Raise e, w0)).
Proof.
  intros Hfile Hbad.
  assert (∀ w0 e, load_state J (disk w0) = Raise e →
                  _run_once J E config day w0 = (Raise e, w0)) as Hstate.
  { intros w0 e Hst. unfold _run_once, _run_chunks.
    rewrite bind_assoc_run.
    by rewrite (bind_raise _ _ w0 e w0) by (by apply read_raise). }
  split.
  { apply Hstate. unfold load_state. by rewrite Hfile, Hbad. }
  split; [done|]. split; [|split].
  - intros w0 st e Hst Hseen. unfold _run_once, _run_chunks.
    rewrite bind_assoc_run, (bind_ok _ _ w0 st w0) by (by apply read_ok).
    rewrite bind_assoc_run.
    by rewrite (bind_raise _ _ w0 e w0) by (unfold lift; by rewrite Hseen).
  - intros w0 st seen e Hst Hseen Hstored. unfold _run_once, _run_chunks.
    rewrite bind_assoc_run, (bind_ok _ _ w0 st w0) by (by apply read_ok).
    rewrite bind_assoc_run, (bind_ok _ _ w0 seen w0) by (unfold lift; by rewrite Hseen).
    rewrite bind_assoc_run.
    by rewrite (bind_raise _ _ w0 e w0) by (by apply read_raise).
  - intros w0 st seen p ps e Hst Hseen Hstored Hchunks. unfold _run_once, _run_chunks.
    rewrite bind_assoc_run, (bind_ok _ _ w0 st w0) by (by apply read_ok).
    rewrite bind_assoc_run, (bind_ok _ _ w0 seen w0) by (unfold lift; by rewrite Hseen).
    rewrite bind_assoc_run, (bind_ok _ _ w0 (p :: ps) w0) by (by apply read_ok).
    rewrite bind_assoc_run, (bind_ok _ _ w0 _ w0) by done.
    rewrite bind_assoc_run, (bind_ok _ _ w0 (p :: ps) w0) by done.
    rewrite bind_assoc_run.
    by rewrite (bind_raise _ _ w0 e w0) by (by apply read_raise).
Qed.

Lemma unreadable_input_stops_the_run_witness :
  _run_once RefJson.J Ex.E Ex.config Ex.day (World broken_state_disk [])
  = (Raise JSONDecodeError, World broken_state_disk []).
Proof.
  assert (disk (World broken_state_disk []) !! state_path = Some "{") as H1
    by (vm_compute; reflexivity).
  assert (loads RefJson.J "{" = None) as H2 by (vm_compute; reflexivity).
  exact (proj1 (unreadable_input_stops_the_run RefJson.J Ex.E Ex.config Ex.day
                  (World broken_state_disk []) "{" H1 H2)).
Defined.

Lemma _run_deliver_without_key (J : codec) (E : env) (config : AppConfig) (day : date)
    (papers : list Paper) (summaries : list json) (w : world) :
  configured (openai_api_key config) = false →
  confined (λ e, is_summarizer_call e = false) (state_or_snapshot day)
    (_run_deliver J E config day papers summaries) w.
Proof.
  intros Hkey. unfold _run_deliver. rewrite Hkey. cbn [negb].
  apply confined_bind; [by apply confined_unchanged, read_unchanged|].
  intros loaded w1 _.
  apply confined_bind.
  - destruct (match loaded with Some v => Py.truthy v | None => false end);
      apply confined_ret.
  - intros overall w2 _. destruct (_ && _); [|apply confined_ret].
    apply confined_bind; [by apply confined_emit|]. intros _ w3 _.
    apply confined_lift.
Qed.

(** X7. Without the key of the language-model service a run calls no model,
    neither for a batch nor for the overall digest, and writes nothing but
    the state and, when it fetched, the snapshot of the day: no summary and
    no response file appears or changes. The items it found new are recorded
    in the state all the same: a run over a stored snapshot that has no
    summaries writes the state with every stored item under the day, and
    ends. *)
Theorem run_without_key_calls_no_model (J : codec) (E : env) (config : AppConfig)
    (day : date) (w : world) :
  configured (openai_api_key config) = false →
  (∃ evs, trace (_run_once J E config day w).2 = trace w ++ evs
          ∧ Forall (λ e, is_summarizer_call e = false) evs)
  ∧ (∀ p, ¬ state_or_snapshot day p →
          disk (_run_once J E config day w).2 !! p = disk w !! p)
  ∧ (∀ i, disk (_run_once J E config day w).2 !! chunk_path day i
          = disk w !! chunk_path day i)
  ∧ (∀ st seen p ps,
       load_state J (disk w) = Ok st →
       build_seen_set st (retention_days config) (today E) = Ok seen →
       _load_papers_from_storage J (disk w) day = Ok (p :: ps) →
       load_summary_chunks J (disk w) day = Ok ∅ →
       _run_once J E config day w
       = (Ok (),
          World (<[state_path :=
                     dumps_indent J
                       (state_to_json
                          (update_state_with_papers st day (p :: ps) (utcnow E)))]>
                   (delete (temp_path state_path) (disk w)))
                (trace w
                 ++ [EvWrite state_path
                       (dumps_indent J
                          (state_to_json
                             (update_state_with_papers st day (p :: ps)
                                (utcnow E))))]))).
Proof.
  intros Hkey.
  assert (confined (λ e, is_summarizer_call e = false) (state_or_snapshot day)
            (_run_once J E config day) w) as [Hev Hd].
  { unfold _run_once. apply confined_bind.
    - unfold _run_chunks.
      apply confined_bind; [by apply confined_unchanged, read_unchanged|].
      intros st w1 _.
      apply confined_bind; [apply confined_lift|]. intros seen w2 _.
      apply confined_bind; [by apply confined_unchanged, read_unchanged|].
      intros stored w3 _.
      apply confined_bind; [apply confined_reading|]. intros has w4 _.
      apply confined_bind.
      { destruct stored; [|apply confined_ret].
        apply confined_bind; [by apply confined_emit|]. intros _ w5 _.
        apply confined_bind; [apply confined_lift|]. intros papers w6 _.
        apply confined_bind; [|intros; apply confined_ret].
        unfold save_raw_papers.
        apply confined_atomic_write; [done| |]; unfold state_or_snapshot; tauto. }
      intros papers w5 _.
      apply confined_bind; [by apply confined_unchanged, read_unchanged|].
      intros existing w6 _.
      apply confined_bind.
      { unfold save_state.
        apply confined_atomic_write; [done| |]; unfold state_or_snapshot; tauto. }
      intros _ w7 _. rewrite Hkey. cbn [negb].
      destruct (select_new_papers _ _ _ _ _); [|apply confined_ret].
      destruct (bool_decide _); apply confined_ret.
    - intros r w1 _. destruct r as [[papers summaries]|]; [|apply confined_ret].
      by apply _run_deliver_without_key. }
  split; [done|]. split; [done|]. split.
  - intros i. apply Hd. unfold state_or_snapshot.
    pose proof (not_raw_summaries day day (chunk_name i)) as Hnr.
    intros [H | [H | [H | H]]].
    + apply (f_equal fst) in H. cbn [fst] in H.
      unfold chunk_path, summaries_dir, _date_dir, state_path in H. cbn [fst app] in H.
      discriminate H.
    + apply (f_equal fst) in H. cbn [fst] in H.
      unfold chunk_path, summaries_dir, _date_dir, state_path, temp_path in H.
      cbn [fst app] in H. discriminate H.
    + apply Hnr. apply (f_equal fst) in H. exact H.
    + apply Hnr. apply (f_equal fst) in H. exact H.
  - intros st seen p ps Hst Hseen Hstored Hchunks.
    unfold _run_once, _run_chunks.
    rewrite bind_assoc_run, (bind_ok _ _ w st w) by (by apply read_ok).
    rewrite bind_assoc_run, (bind_ok _ _ w seen w) by (unfold lift; by rewrite Hseen).
    rewrite bind_assoc_run, (bind_ok _ _ w (p :: ps) w) by (by apply read_ok).
    rewrite bind_assoc_run, (bind_ok _ _ w _ w) by done.
    rewrite bind_assoc_run, (bind_ok _ _ w (p :: ps) w) by done.
    rewrite bind_assoc_run, (bind_ok _ _ w ∅ w) by (by apply read_ok).
    assert (select_new_papers (p :: ps) (p :: ps) (has_summary_for_date (disk w) day)
              ∅ seen = p :: ps) as ->.
    { unfold select_new_papers, reprocess. rewrite map_size_empty.
      pose proof (expected_chunks_pos (p :: ps) ltac:(done)) as Hpos.
      rewrite (proj2 (Z.ltb_lt _ _)) by (cbn [Z.of_nat]; lia).
      by rewrite orb_true_r. }
    rewrite bind_assoc_run. erewrite bind_ok by apply save_state_run.
    rewrite Hkey. reflexivity.
Qed.

Lemma run_without_key_calls_no_model_witness :
  (∃ evs, trace (_run_once RefJson.J Ex.E config_without_key Ex.day
                   (World (Ex.snapshot 3) [])).2 = [] ++ evs
          ∧ Forall (λ e, is_summarizer_call e = false) evs)
  ∧ ∀ i, disk (_run_once RefJson.J Ex.E config_without_key Ex.day
                 (World (Ex.snapshot 3) [])).2 !! chunk_path Ex.day i
         = Ex.snapshot 3 !! chunk_path Ex.day i.
Proof.
  destruct (run_without_key_calls_no_model RefJson.J Ex.E config_without_key Ex.day
              (World (Ex.snapshot 3) []) eq_refl) as (A & _ & B & _).
  exact (conj A B).
Defined.

(** ** main.py: the overall summary *)

Lemma save_overall_summary_run (J : codec) (day : date) (o : json) (w : world) :
  save_overall_summary J day o w
  = (Ok (), World (<[overall_path day := dumps_indent J (overall_payload day o)]>
                     (delete (temp_path (overall_path day)) (disk w)))
                  (trace w ++ [EvWrite (overall_path day)
                                 (dumps_indent J (overall_payload day o))])).
Proof. apply atomic_write_run. Qed.

Lemma save_overall_response_run (J : codec) (day : date) (text : string) (w : world) :
  save_overall_response J day text w
  = (Ok (), World (<[overall_response_path day := dumps_indent J (JStr text)]>
                     (delete (temp_path (overall_response_path day)) (disk w)))
                  (trace w ++ [EvWrite (overall_response_path day)
                                 (dumps_indent J (JStr text))])).
Proof. apply atomic_write_run. Qed.

Lemma load_overall_summary_saved (J : codec) (day : date) (o : json) (d : fs) :
  loads J (dumps_indent J (overall_payload day o)) = Some (overall_payload day o) →
  load_overall_summary J (<[overall_path day := dumps_indent J (overall_payload day o)]> d)
    day = Ok (Some o).
Proof.
  intros Hjson. unfold load_overall_summary. by rewrite lookup_insert_eq, Hjson.
Qed.

(** the mail stage of a delivery calls no model and writes nothing *)
Lemma mail_stage (E : env) (config : AppConfig) (day : date) (papers : list Paper)
    (summaries : list json) (overall : option json) (w : world) :
  ∃ evs,
    trace ((if configured (smtp_host config) && configured (smtp_user config)
               && configured (smtp_password config)
               && match smtp_to config with [] => false | _ => true end
            then
              let counts := category_counts papers in
              _ ← emit (EvEmail summaries overall counts);
              lift (send_email E day summaries overall counts)
            else mret ()) w).2 = trace w ++ evs
    ∧ Forall (λ e, is_summarizer_call e = false) evs
    ∧ disk ((if configured (smtp_host config) && configured (smtp_user config)
                && configured (smtp_password config)
                && match smtp_to config with [] => false | _ => true end
             then
               let counts := category_counts papers in
               _ ← emit (EvEmail summaries overall counts);
               lift (send_email E day summaries overall counts)
             else mret ()) w).2 = disk w.
Proof.
  destruct (_ && _).
  - cbv zeta. unfold mbind, M_bind, emit, lift. cbn.
    eexists. split; [reflexivity|]. split; [by repeat constructor|done].
  - exists []. cbn. by rewrite app_nil_r.
Qed.

(** X8. The overall digest is asked for when a key is configured, there are
    summaries, and no overall summary with content is on disk. Then nothing
    is written if the call fails; the raw response alone is written if its
    text cannot be parsed; otherwise the raw response and then the summary
    are written, the summary loads back as it was computed, and, unless it is
    empty, no later delivery of the day asks a model or writes anything. *)
Theorem overall_summary_is_computed_once (J : codec) (E : env) (config : AppConfig)
    (day : date) (papers : list Paper) (summaries : list json) (w : world)
    (loaded : option json) :
  configured (openai_api_key config) = true →
  summaries ≠ [] →
  load_overall_summary J (disk w) day = Ok loaded →
  match loaded with Some v => Py.truthy v | None => false end = false →
  (∀ e, overall_model E day summaries = Raise e →
        _run_deliver J E config day papers summaries w
        = (Raise e, World (disk w) (trace w ++ [EvOverallCall summaries])))
  ∧ (∀ text e,
       overall_model E day summaries = Ok text → parse_output J text = Raise e →
       _run_deliver J E config day papers summaries w
       = (Raise e,
          World (<[overall_response_path day := dumps_indent J (JStr text)]>
                   (delete (temp_path (overall_response_path day)) (disk w)))
                (trace w ++ [EvOverallCall summaries;
                             EvWrite (overall_response_path day)
                               (dumps_indent J (JStr text))])))
  ∧ (∀ text o,
       overall_model E day summaries = Ok text → parse_output J text = Ok o →
       (∃ evs,
          trace (_run_deliver J E config day papers summaries w).2
          = trace w ++ [EvOverallCall summaries;
                        EvWrite (overall_response_path day)
                          (dumps_indent J (JStr text));
                        EvWrite (overall_path day)
                          (dumps_indent J (overall_payload day o))] ++ evs
          ∧ Forall (λ e, is_summarizer_call e = false) evs)
       ∧ disk (_run_deliver J E config day papers summaries w).2
         = with_overall J day text o (disk w)
       ∧ (loads J (dumps_indent J (overall_payload day o))
          = Some (overall_payload day o) →
          load_overall_summary J
            (disk (_run_deliver J E config day papers summaries w).2) day
          = Ok (Some o)
          ∧ (Py.truthy o = true →
             ∀ E' config' papers' summaries',
               confined (λ e, is_summarizer_call e = false) (λ _, False)
                 (_run_deliver J E' config' day papers' summaries')
                 (_run_deliver J E config day papers summaries w).2))).
Proof.
  intros Hkey Hsome Hload Hfalsy.
  destruct summaries as [|s ss]; [done|]. clear Hsome.
  set (w1 := World (disk w) (trace w ++ [EvOverallCall (s :: ss)])).
  assert (_run_deliver J E config day papers (s :: ss) w
            = ((text_output ← lift (overall_model E day (s :: ss));
                _ ← save_overall_response J day text_output;
                o ← lift (parse_output J text_output);
                _ ← save_overall_summary J day o;
                (if configured (smtp_host config) && configured (smtp_user config)
                    && configured (smtp_password config)
                    && match smtp_to config with [] => false | _ => true end
                 then
                   let counts := category_counts papers in
                   _ ← emit (EvEmail (s :: ss) (Some o) counts);
                   lift (send_email E day (s :: ss) (Some o) counts)
                 else mret ())) w1)) as Hrun.
  { unfold _run_deliver.
    rewrite (bind_ok _ _ w loaded w) by (by apply read_ok).
    rewrite Hfalsy, Hkey. cbn [negb]. unfold summarize_overall.
    rewrite !bind_assoc_run. rewrite (bind_ok _ _ w () w1) by done.
    unfold mbind, M_bind, lift.
    destruct (overall_model E day (s :: ss)) as [text|e]; [|done].
    destruct (save_overall_response J day text w1) as [[[]|e] w2]; [|done].
    destruct (parse_output J text) as [o|e]; [|done].
    by destruct (save_overall_summary J day o w2) as [[[]|e] w3]. }
  rewrite Hrun. clear Hrun.
  split; [|split].
  - intros e Hmodel. by rewrite (bind_raise _ _ w1 e w1) by (unfold lift; by rewrite Hmodel).
  - intros text e Hmodel Hparse.
    rewrite (bind_ok _ _ w1 text w1) by (unfold lift; by rewrite Hmodel).
    erewrite bind_ok by apply save_overall_response_run.
    erewrite bind_raise by (unfold lift; by rewrite Hparse).
    unfold w1. cbn [disk trace]. by rewrite <- app_assoc.
  - intros text o Hmodel Hparse.
    rewrite (bind_ok _ _ w1 text w1) by (unfold lift; by rewrite Hmodel).
    erewrite bind_ok by apply save_overall_response_run.
    erewrite bind_ok by (unfold lift; by rewrite Hparse).
    erewrite bind_ok by apply save_overall_summary_run.
    match goal with
    | |- context [trace (?m ?w0).2] =>
        destruct (mail_stage E config day papers (s :: ss) (Some o) w0)
          as (evs & Htr & Hquiet & Hdisk)
    end.
    split; [|split].
    + exists evs. split; [|done]. rewrite Htr. unfold w1. cbn [trace disk].
      by rewrite <- !app_assoc.
    + rewrite Hdisk. done.
    + intros Hjson.
      assert (load_overall_summary J (with_overall J day text o (disk w)) day
              = Ok (Some o)) as Hback by (by apply load_overall_summary_saved).
      rewrite Hdisk. split; [exact Hback|].
      intros Htruthy E' config' papers' summaries'.
      apply _run_deliver_cached. rewrite Hdisk. by exists o.
Qed.

Lemma overall_summary_is_computed_once_witness :
  (∃ evs,
     trace (_run_deliver RefJson.J Ex.E Ex.config Ex.day (Ex.papers 45)
              (cached_in_order Ex.cache3) (World Ex.complete [])).2
     = [] ++ [EvOverallCall (cached_in_order Ex.cache3);
              EvWrite (overall_response_path Ex.day)
                (dumps_indent RefJson.J
                   (JStr (dumps RefJson.J (JObj [("summary", JStr "overall")]))));
              EvWrite (overall_path Ex.day)
                (dumps_indent RefJson.J
                   (overall_payload Ex.day (JObj [("summary", JStr "overall")])))]
       ++ evs
     ∧ Forall (λ e, is_summarizer_call e = false) evs)
  ∧ load_overall_summary RefJson.J
      (disk (_run_deliver RefJson.J Ex.E Ex.config Ex.day (Ex.papers 45)
               (cached_in_order Ex.cache3) (World Ex.complete [])).2) Ex.day
    = Ok (Some (JObj [("summary", JStr "overall")])).
Proof.
  assert (cached_in_order Ex.cache3 ≠ []) as Hne by (vm_compute; discriminate).
  assert (load_overall_summary RefJson.J (disk (World Ex.complete [])) Ex.day = Ok None)
    as Hload by (vm_compute; reflexivity).
  destruct (overall_summary_is_computed_once RefJson.J Ex.E Ex.config Ex.day
              (Ex.papers 45) (cached_in_order Ex.cache3) (World Ex.complete []) None
              eq_refl Hne Hload eq_refl) as (_ & _ & Hok).
  destruct (Hok (dumps RefJson.J (JObj [("summary", JStr "overall")]))
              (JObj [("summary", JStr "overall")]) eq_refl
              ltac:(vm_compute; reflexivity)) as (A & _ & B).
  split; [exact A|]. apply B. vm_compute. reflexivity.
Defined.

(** ** arxiv_client.py: [_normalize_title] *)

Lemma linebreak_is_space (a : ascii) : Py.is_linebreak a = true → Py.is_space a = true.
Proof. destruct a as [[] [] [] [] [] [] [] []]; vm_compute; congruence. Qed.

Lemma word_cons (a : ascii) (w : string) :
  Py.is_space a = false → (w = EmptyString ∨ word w) → word (String a w).
Proof.
  intros Ha Hw. split; [done|]. cbn [list_ascii_of_string forallb]. rewrite Ha.
  destruct Hw as [-> | [_ Hw]]; [done|]. by rewrite Hw.
Qed.

Lemma split_words (s : string) : Forall word (Text.split s).
Proof.
  induction s as [|a t IH]; [constructor|].
  cbn [Text.split]. destruct (Py.is_space a) eqn:Ha; [done|].
  destruct t as [|b t']; [constructor; [apply word_cons; auto | constructor]|].
  destruct (Py.is_space b) eqn:Hb.
  - constructor; [apply word_cons; auto | done].
  - destruct (Text.split (String b t')) as [|x xs].
    + constructor; [apply word_cons; auto | constructor].
    + apply Forall_cons in IH as [Hx Hxs]. constructor; [|done].
      apply word_cons; auto.
Qed.

Lemma split_word_then (w r : string) :
  word w → Text.split (w +:+ String " " r) = w :: Text.split r.
Proof.
  intros [Hne Hw]. induction w as [|a w IH]; [done|].
  cbn [list_ascii_of_string forallb] in Hw.
  apply andb_true_iff in Hw as [Ha Hw]. apply negb_true_iff in Ha.
  rewrite append_cons. cbn [Text.split]. rewrite Ha.
  destruct w as [|b w'].
  - change (EmptyString +:+ String " " r) with (String " "%char r).
    change (Py.is_space " ") with true. cbv iota. done.
  - rewrite append_cons.
    cbn [list_ascii_of_string forallb] in Hw. pose proof Hw as Hw'.
    apply andb_true_iff in Hw' as [Hb _]. apply negb_true_iff in Hb. rewrite Hb.
    rewrite <- append_cons, IH by done. done.
Qed.

Lemma split_word (w : string) : word w → Text.split w = [w].
Proof.
  intros [Hne Hw]. induction w as [|a w IH]; [done|].
  cbn [list_ascii_of_string forallb] in Hw.
  apply andb_true_iff in Hw as [Ha Hw]. apply negb_true_iff in Ha.
  cbn [Text.split]. rewrite Ha. destruct w as [|b w']; [done|].
  cbn [list_ascii_of_string forallb] in Hw. pose proof Hw as Hw'.
  apply andb_true_iff in Hw' as [Hb _]. apply negb_true_iff in Hb. rewrite Hb.
  by rewrite IH.
Qed.

Lemma split_join (ws : list string) :
  Forall word ws → Text.split (Py.join " " ws) = ws.
Proof.
  induction 1 as [|w ws Hw Hws IH]; [done|].
  destruct ws as [|w' ws]; [by apply split_word|].
  change (Py.join " " (w :: w' :: ws)) with (w +:+ " " +:+ Py.join " " (w' :: ws)).
  change (" " +:+ Py.join " " (w' :: ws)) with (String " "%char (Py.join " " (w' :: ws))).
  rewrite split_word_then by done. by rewrite IH.
Qed.

Lemma split_chars (s : string) :
  concat (list_ascii_of_string <$> Text.split s)
  = filter (λ a, Py.is_space a = false) (list_ascii_of_string s).
Proof.
  induction s as [|a t IH]; [done|].
  cbn [Text.split list_ascii_of_string]. destruct (Py.is_space a) eqn:Ha.
  - rewrite filter_cons_False by (by rewrite Ha). exact IH.
  - rewrite filter_cons_True by done. rewrite <- IH. clear IH.
    destruct t as [|b t']; [done|].
    destruct (Py.is_space b) eqn:Hb; [done|].
    by destruct (Text.split (String b t')).
Qed.

Lemma join_chars (ws : list string) (a : ascii) :
  a ∈ list_ascii_of_string (Py.join " " ws) →
  a = " "%char ∨ ∃ w, w ∈ ws ∧ a ∈ list_ascii_of_string w.
Proof.
  induction ws as [|w ws IH]; [by intros ?%elem_of_nil|].
  destruct ws as [|w' ws].
  - intros Ha. right. exists w. split; [by left|done].
  - change (Py.join " " (w :: w' :: ws))
      with (w +:+ String " "%char (Py.join " " (w' :: ws))).
    assert (∀ x y, list_ascii_of_string (x +:+ y)
                   = list_ascii_of_string x ++ list_ascii_of_string y) as Happ.
    { intros x y. induction x as [|c x IHx]; [done|].
      rewrite append_cons. cbn [list_ascii_of_string app]. by rewrite IHx. }
    rewrite Happ. cbn [list_ascii_of_string]. intros Ha.
    apply elem_of_app in Ha as [Ha|Ha].
    + right. exists w. split; [by left|done].
    + apply elem_of_cons in Ha as [->|Ha]; [by left|].
      destruct (IH Ha) as [->|(x & Hx & Hax)]; [by left|].
      right. exists x. split; [by right|done].
Qed.

(** X9. [_normalize_title] puts a text in a normal form: the result is the
    runs of non-blank characters of the text, in order, with one space
    between two runs. Normalising again changes nothing; the characters that
    are not white space are those of the text, in order; the only white
    space left is the space between two runs, so the result holds no line
    boundary and fits on a line of a snapshot. *)
Theorem normalized_title_is_a_normal_form (value : string) :
  _normalize_title (_normalize_title value) = _normalize_title value
  ∧ Text.split (_normalize_title value) = Text.split value
  ∧ Forall word (Text.split value)
  ∧ filter (λ a, Py.is_space a = false) (list_ascii_of_string (_normalize_title value))
    = filter (λ a, Py.is_space a = false) (list_ascii_of_string value)
  ∧ (∀ a, a ∈ list_ascii_of_string (_normalize_title value) →
          Py.is_space a = true → a = " "%char)
  ∧ forallb (λ a, negb (Py.is_linebreak a))
      (list_ascii_of_string (_normalize_title value)) = true.
Proof.
  pose proof (split_words value) as Hwords.
  assert (Text.split (_normalize_title value) = Text.split value) as Hsame
    by (by apply split_join).
  assert (∀ a, a ∈ list_ascii_of_string (_normalize_title value) →
               Py.is_space a = true → a = " "%char) as Hspace.
  { intros a Ha Hsp. destruct (join_chars _ _ Ha) as [->|(w & Hw & Haw)]; [done|].
    rewrite Forall_forall in Hwords. destruct (Hwords w Hw) as [_ Hchars].
    rewrite forallb_forall in Hchars.
    apply list_elem_of_In, Hchars in Haw. by rewrite Hsp in Haw. }
  split; [unfold _normalize_title at 1; by rewrite Hsame|].
  split; [done|]. split; [done|]. split.
  { by rewrite <- !split_chars, Hsame. }
  split; [done|].
  apply forallb_forall. intros a Ha. apply list_elem_of_In in Ha.
  destruct (Py.is_linebreak a) eqn:Hlb; [|done].
  rewrite (Hspace a Ha (linebreak_is_space a Hlb)) in Hlb. by vm_compute in Hlb.
Qed.

(** ** config.py: [_split_csv], [normalize_categories] *)

Lemma chars_app (x y : string) :
  list_ascii_of_string (x +:+ y) = list_ascii_of_string x ++ list_ascii_of_string y.
Proof.
  induction x as [|c x IH]; [done|].
  rewrite append_cons. cbn [list_ascii_of_string app]. by rewrite IH.
Qed.

Lemma lstrip_chars (P : ascii → bool) (s : string) :
  forallb P (list_ascii_of_string s) = true →
  forallb P (list_ascii_of_string (Text.lstrip s)) = true.
Proof.
  induction s as [|a t IH]; [done|]. intros H. cbn [Text.lstrip].
  destruct (Py.is_space a); [|done].
  cbn [list_ascii_of_string forallb] in H. apply andb_true_iff in H as [_ H]. auto.
Qed.

Lemma rstrip_chars (P : ascii → bool) (s : string) :
  forallb P (list_ascii_of_string s) = true →
  forallb P (list_ascii_of_string (Text.rstrip s)) = true.
Proof.
  induction s as [|a t IH]; [done|]. intros H.
  cbn [list_ascii_of_string forallb] in H. apply andb_true_iff in H as [Ha H].
  cbn [Text.rstrip]. specialize (IH H). destruct (Text.rstrip t) as [|b r].
  - destruct (Py.is_space a); [done|]. cbn. by rewrite Ha.
  - cbn [list_ascii_of_string forallb] in *. by rewrite Ha, IH.
Qed.

Lemma rstrip_rstrip (s : string) : Text.rstrip (Text.rstrip s) = Text.rstrip s.
Proof.
  induction s as [|a t IH]; [done|]. cbn [Text.rstrip].
  destruct (Text.rstrip t) as [|b r] eqn:Hr.
  - destruct (Py.is_space a) eqn:Ha; [done|]. cbn [Text.rstrip]. by rewrite Ha.
  - cbn [Text.rstrip]. cbn [Text.rstrip] in IH. by rewrite IH.
Qed.

Lemma lstrip_head (s : string) :
  match Text.lstrip s with
  | String a _ => Py.is_space a = false
  | EmptyString => True
  end.
Proof.
  induction s as [|a t IH]; [done|]. cbn [Text.lstrip].
  by destruct (Py.is_space a) eqn:Ha.
Qed.

Lemma rstrip_head (s : string) :
  match s with String a _ => Py.is_space a = false | EmptyString => True end →
  match Text.rstrip s with
  | String a _ => Py.is_space a = false
  | EmptyString => True
  end.
Proof.
  destruct s as [|a t]; [done|]. intros Ha. cbn [Text.rstrip].
  destruct (Text.rstrip t); [by rewrite Ha|done].
Qed.

Lemma lstrip_clean (s : string) :
  match s with String a _ => Py.is_space a = false | EmptyString => True end →
  Text.lstrip s = s.
Proof. destruct s as [|a t]; [done|]. intros Ha. cbn [Text.lstrip]. by rewrite Ha. Qed.

Lemma strip_strip (s : string) : Text.strip (Text.strip s) = Text.strip s.
Proof.
  unfold Text.strip. rewrite (lstrip_clean (Text.rstrip _)).
  - apply rstrip_rstrip.
  - apply rstrip_head, lstrip_head.
Qed.

Lemma strip_blank (s : string) :
  forallb Py.is_space (list_ascii_of_string s) = true → Text.strip s = EmptyString.
Proof.
  unfold Text.strip. induction s as [|a t IH]; [done|]. intros H.
  cbn [list_ascii_of_string forallb] in H. apply andb_true_iff in H as [Ha H].
  cbn [Text.lstrip]. rewrite Ha. auto.
Qed.

Lemma split_on_parts (sep : ascii) (P : ascii → bool) (s : string) :
  forallb (λ a, Ascii.eqb a sep || P a) (list_ascii_of_string s) = true →
  Forall (λ p, forallb (λ a, negb (Ascii.eqb a sep) && P a) (list_ascii_of_string p)
               = true)
    (Text.split_on sep s).
Proof.
  induction s as [|a t IH]; intros H; [by repeat constructor|].
  cbn [list_ascii_of_string forallb] in H. apply andb_true_iff in H as [Ha H].
  specialize (IH H). cbn [Text.split_on]. destruct (Ascii.eqb a sep) eqn:Hsep.
  - by constructor.
  - cbn [orb] in Ha. destruct (Text.split_on sep t) as [|x xs].
    + constructor; [|done]. cbn [list_ascii_of_string forallb]. by rewrite Hsep, Ha.
    + apply Forall_cons in IH as [Hx Hxs]. constructor; [|done].
      cbn [list_ascii_of_string forallb]. by rewrite Hsep, Hx, Ha.
Qed.

Lemma split_on_part_then (sep : ascii) (w r : string) :
  forallb (λ a, negb (Ascii.eqb a sep)) (list_ascii_of_string w) = true →
  Text.split_on sep (w +:+ String sep r) = w :: Text.split_on sep r.
Proof.
  induction w as [|a w IH]; intros Hw.
  - change (EmptyString +:+ String sep r) with (String sep r).
    cbn [Text.split_on]. by rewrite Ascii.eqb_refl.
  - cbn [list_ascii_of_string forallb] in Hw.
    apply andb_true_iff in Hw as [Ha Hw]. apply negb_true_iff in Ha.
    rewrite append_cons. cbn [Text.split_on]. by rewrite Ha, IH.
Qed.

Lemma split_on_part (sep : ascii) (w : string) :
  forallb (λ a, negb (Ascii.eqb a sep)) (list_ascii_of_string w) = true →
  Text.split_on sep w = [w].
Proof.
  induction w as [|a w IH]; intros Hw; [done|].
  cbn [list_ascii_of_string forallb] in Hw.
  apply andb_true_iff in Hw as [Ha Hw]. apply negb_true_iff in Ha.
  cbn [Text.split_on]. by rewrite Ha, IH.
Qed.

Lemma split_on_join (sep : ascii) (xs : list string) :
  xs ≠ [] →
  Forall (λ w, forallb (λ a, negb (Ascii.eqb a sep)) (list_ascii_of_string w) = true) xs →
  Text.split_on sep (Py.join (String sep EmptyString) xs) = xs.
Proof.
  intros Hne Hxs. induction Hxs as [|w xs Hw Hxs IH]; [done|].
  destruct xs as [|w' xs]; [by apply split_on_part|].
  change (Py.join (String sep EmptyString) (w :: w' :: xs))
    with (w +:+ String sep EmptyString +:+ Py.join (String sep EmptyString) (w' :: xs)).
  change (String sep EmptyString +:+ ?r) with (String sep r).
  rewrite split_on_part_then by done. by rewrite IH.
Qed.

Lemma forallb_weaken {A} (P Q : A → bool) (l : list A) :
  (∀ a, P a = true → Q a = true) → forallb P l = true → forallb Q l = true.
Proof.
  intros HPQ. induction l as [|a l IH]; [done|]. cbn [forallb].
  intros [Ha Hl]%andb_true_iff. by rewrite (HPQ _ Ha), IH.
Qed.

Lemma strip_chars (P : ascii → bool) (s : string) :
  forallb P (list_ascii_of_string s) = true →
  forallb P (list_ascii_of_string (Text.strip s)) = true.
Proof. intros H. by apply rstrip_chars, lstrip_chars. Qed.

Lemma split_on_comma_free (s : string) : Forall comma_free (Text.split_on "," s).
Proof.
  eapply Forall_impl; [apply (split_on_parts "," (λ _, true))|].
  - induction (list_ascii_of_string s) as [|a l IH]; [done|].
    cbn [forallb]. by rewrite orb_true_r.
  - intros p Hp. unfold comma_free. eapply forallb_weaken; [|exact Hp].
    cbn. by intros a ->%andb_true_iff%proj1.
Qed.

Lemma filter_fmap_strip (items : list string) :
  filter (λ p, p ≠ EmptyString) (Text.strip <$> items)
  = Text.strip <$> filter (λ item, Text.strip item ≠ EmptyString) items.
Proof.
  induction items as [|x xs IH]; [done|]. cbn [fmap list_fmap].
  rewrite !filter_cons, IH. by destruct (decide (Text.strip x ≠ EmptyString)).
Qed.

Lemma normalize_categories_trimmed (items : list string) :
  Forall trimmed (normalize_categories items).
Proof.
  unfold normalize_categories. apply Forall_fmap, Forall_forall.
  intros x [Hx _]%list_elem_of_filter. split; [done|apply strip_strip].
Qed.

Lemma normalize_categories_fixed (items : list string) :
  Forall trimmed items → normalize_categories items = items.
Proof.
  unfold normalize_categories. induction 1 as [|x xs [Hx Hs] _ IH]; [done|].
  rewrite filter_cons. rewrite decide_True by (by rewrite Hs).
  cbn [fmap list_fmap]. fold (@fmap list _ _ _ Text.strip). by rewrite Hs, IH.
Qed.

Lemma normalize_categories_blank (items : list string) :
  Forall (λ x, Text.strip x = EmptyString) items → normalize_categories items = [].
Proof.
  unfold normalize_categories. induction 1 as [|x xs Hx _ IH]; [done|].
  rewrite filter_cons. by rewrite decide_False by (by intros []).
Qed.

(** X10. [_split_csv] gives the default for no value and for the empty text
    only.  For every other value it gives the parts between the commas, each
    stripped of white space at both ends, without the empty ones: every item
    is non-empty, has no white space at either end and no comma.  A list of
    such items, joined with commas, is read back as it is; a value of commas
    and white space only gives the empty list (not the default).
    [normalize_categories] does to a list what [_split_csv] does to the
    parts of a value: it keeps the order, its items are non-empty and
    stripped, and it changes nothing in a list that is already so. *)
Theorem split_csv_gives_clean_items (default : list string) :
  _split_csv None default = default
  ∧ _split_csv (Some EmptyString) default = default
  ∧ (∀ s, s ≠ EmptyString →
       _split_csv (Some s) default = normalize_categories (Text.split_on "," s)
       ∧ Forall (λ p, trimmed p ∧ comma_free p) (_split_csv (Some s) default)
       ∧ (forallb (λ a, Ascii.eqb a "," || Py.is_space a) (list_ascii_of_string s)
          = true → _split_csv (Some s) default = []))
  ∧ (∀ items, items ≠ [] → Forall (λ p, trimmed p ∧ comma_free p) items →
       _split_csv (Some (Py.join "," items)) default = items)
  ∧ (∀ items,
       Forall trimmed (normalize_categories items)
       ∧ normalize_categories items `sublist_of` (Text.strip <$> items)
       ∧ normalize_categories (normalize_categories items) = normalize_categories items
       ∧ (Forall trimmed items → normalize_categories items = items)).
Proof.
  split; [done|]. split; [done|]. split; [|split].
  - intros s Hs.
    assert (Heq : _split_csv (Some s) default
                  = normalize_categories (Text.split_on "," s)).
    { unfold _split_csv. destruct (String.eqb_spec s EmptyString); [done|].
      apply filter_fmap_strip. }
    split; [done|]. split.
    + rewrite Heq. apply Forall_and. split; [apply normalize_categories_trimmed|].
      unfold normalize_categories. apply Forall_fmap, Forall_forall.
      intros x [_ Hx]%list_elem_of_filter. apply strip_chars.
      by eapply (proj1 (Forall_forall _ _) (split_on_comma_free s)).
    + intros Hblank. rewrite Heq. apply normalize_categories_blank.
      eapply Forall_impl; [exact (split_on_parts _ _ _ Hblank)|].
      intros x Hx. apply strip_blank.
      eapply forallb_weaken; [|exact Hx]. by intros a [_ ?]%andb_true_iff.
  - intros items Hne Hitems. apply Forall_and in Hitems as [Htrim Hfree].
    assert (Hjoin : Py.join "," items ≠ EmptyString).
    { destruct items as [|x [|y ys]]; [done| |].
      - apply Forall_inv in Htrim as [Hx _]. cbn. by destruct x.
      - apply Forall_inv in Htrim as [Hx _]. cbn. by destruct x. }
    unfold _split_csv. destruct (String.eqb_spec (Py.join "," items) EmptyString); [done|].
    cbn zeta. rewrite (split_on_join "," items Hne Hfree).
    rewrite filter_fmap_strip. by apply normalize_categories_fixed.
  - intros items. split; [apply normalize_categories_trimmed|]. split; [|split].
    + unfold normalize_categories. apply fmap_sublist, sublist_filter.
    + apply normalize_categories_fixed, normalize_categories_trimmed.
    + apply normalize_categories_fixed.
Qed.

(** ** main.py: the tally of the categories *)

Lemma sum_indicator (x : string) (ks : list string) :
  NoDup ks → x ∈ ks →
  sum_list ((λ c, if decide (x = c) then 1%nat else 0%nat) <$> ks) = 1%nat.
Proof.
  induction 1 as [|k ks Hk Hnd IH]; intros Hx; [by inv Hx|].
  cbn [fmap list_fmap sum_list]. fold (@fmap list _ _ _ (λ c : string, if decide (x = c) then 1%nat else 0%nat)).
  apply elem_of_cons in Hx as [->|Hx].
  - rewrite decide_True by done.
    assert (sum_list ((λ c, if decide (k = c) then 1%nat else 0%nat) <$> ks) = 0%nat)
      as ->; [|done].
    clear IH Hnd. induction ks as [|k' ks IH]; [done|].
    cbn [fmap list_fmap sum_list]. rewrite decide_False.
    + rewrite IH; [done|]. intros H. apply Hk. by right.
    + intros ->. apply Hk. by left.
  - rewrite decide_False by (intros ->; by apply Hk). by rewrite IH.
Qed.

Lemma sum_list_counts (cats ks : list string) :
  NoDup ks → (∀ x, x ∈ cats → x ∈ ks) →
  sum_list ((λ c, length (filter (λ c', c' = c) cats)) <$> ks) = length cats.
Proof.
  intros Hnd. induction cats as [|x cats IH]; intros Hin.
  - clear. induction ks as [|k ks IHk]; [done|].
    cbn [fmap list_fmap sum_list]. by rewrite IHk.
  - assert (sum_list ((λ c, length (filter (λ c', c' = c) (x :: cats))) <$> ks)
            = (sum_list ((λ c, if decide (x = c) then 1%nat else 0%nat) <$> ks)
               + sum_list ((λ c, length (filter (λ c', c' = c) cats)) <$> ks))%nat)
      as ->.
    { clear. induction ks as [|k ks IH]; [done|].
      cbn [fmap list_fmap sum_list]. rewrite IH, filter_cons.
      repeat case_decide; cbn [length]; unfold id; lia. }
    rewrite sum_indicator; [|done|apply Hin; by left].
    rewrite IH; [done|]. intros y Hy. apply Hin. by right.
Qed.

(** X11. The tally [category_counts] that a run hands to the mail: its keys
    are the categories of the items, each once, in increasing order; the
    number under a key is the number of items of that category, and is not
    zero; the numbers add up to the number of items. *)
Theorem category_counts_tally (papers : list Paper) :
  StronglySorted String.le (category_counts papers).*1
  ∧ NoDup (category_counts papers).*1
  ∧ (∀ c, c ∈ (category_counts papers).*1 ↔ ∃ p, p ∈ papers ∧ category p = c)
  ∧ (∀ c n, (c, n) ∈ category_counts papers →
            n = length (filter (λ p, category p = c) papers) ∧ (0 < n)%nat)
  ∧ sum_list (category_counts papers).*2 = length papers
  ∧ (category_counts papers = [] ↔ papers = []).
Proof.
  unfold category_counts. cbv zeta.
  set (cats := category <$> papers).
  set (ks := merge_sort String.le (remove_dups cats)).
  assert (Hperm : ks ≡ₚ remove_dups cats) by apply merge_sort_Permutation.
  assert (Hnd : NoDup ks) by (rewrite Hperm; apply NoDup_remove_dups).
  assert (Hin : ∀ c, c ∈ ks ↔ c ∈ cats).
  { intros c. rewrite Hperm. apply elem_of_remove_dups. }
  assert (Hfst : ((λ c, (c, length (filter (λ c', c' = c) cats))) <$> ks).*1 = ks).
  { rewrite <- list_fmap_compose. apply list_fmap_id. }
  assert (Hcount : ∀ c, length (filter (λ c', c' = c) cats)
                        = length (filter (λ p, category p = c) papers)).
  { intros c. unfold cats. clear. induction papers as [|p ps IH]; [done|].
    cbn [fmap list_fmap]. rewrite !filter_cons.
    destruct (decide (category p = c)); cbn [length]; by rewrite IH. }
  rewrite Hfst. split; [apply StronglySorted_merge_sort; apply _|].
  split; [done|]. split; [|split; [|split]].
  - intros c. rewrite Hin. unfold cats. rewrite list_elem_of_fmap.
    split; intros (p & H1 & H2); exists p; by split.
  - intros c n (c' & [= -> ->] & Hc)%list_elem_of_fmap. split; [apply Hcount|].
    apply Hin in Hc. apply list_elem_of_fmap in Hc as (p & -> & Hp).
    rewrite Hcount.
    assert (p ∈ filter (λ q, category q = category p) papers) as Hpf
      by (by apply list_elem_of_filter).
    destruct (filter _ papers); [by inv Hpf|cbn; lia].
  - rewrite <- list_fmap_compose.
    etrans; [apply (sum_list_counts cats ks Hnd); intros x; apply Hin|].
    unfold cats. by rewrite length_fmap.
  - split.
    + intros Hnil. apply fmap_nil_inv in Hnil.
      destruct papers as [|p ps]; [done|]. exfalso.
      assert (category p ∈ ks) as Hk by (apply Hin; unfold cats; by left).
      rewrite Hnil in Hk. by inv Hk.
    + by intros ->.
Qed.

(** ** main.py: a first run of a day, and the run after it *)

Lemma stream_loop_fresh (J : codec) (E : env) (day : date)
    (batches : list (list Paper)) (payloads : list json) :
  Forall2 (λ b v, model_answer J E day b = Ok v) batches payloads →
  ∀ idx outputs w,
    ∃ w', stream_loop J E day ∅ (Some (save_response_chunk J day)) idx batches outputs w
          = (Ok (outputs ++ zip (seqZ idx (Z.of_nat (length payloads))) payloads), w').
Proof.
  induction 1 as [|b v batches payloads Hb _ IH]; intros idx outputs w.
  - exists w. cbn. by rewrite app_nil_r.
  - cbn [stream_loop]. rewrite lookup_empty.
    unfold model_answer in Hb. destruct (chunk_model E day b) as [text|e] eqn:Hmodel;
      [|done]. cbn in Hb.
    set (w1 := World (disk w) (trace w ++ [EvChunkCall idx b])).
    rewrite (bind_ok _ _ w () w1) by done.
    rewrite (bind_ok _ _ w1 text w1) by done.
    erewrite bind_ok by apply save_response_chunk_run.
    erewrite bind_ok by (unfold lift; by rewrite Hb).
    edestruct IH as (w' & Hrun). rewrite Hrun. exists w'.
    cbn [length]. rewrite seqZ_succ. cbn [zip zip_with]. by rewrite <- app_assoc.
Qed.

Lemma mapM_ext_run {A B} (f g : A → M B) (l : list A) :
  (∀ x w, x ∈ l → f x w = g x w) → ∀ w, mapM f l w = mapM g l w.
Proof.
  induction l as [|x l IH]; intros Hfg w; [done|].
  rewrite !mapM_cons_run, Hfg by (by left).
  destruct (g x w) as [[y|e] w1]; [|done].
  rewrite IH; [done|]. intros z w2 Hz. apply Hfg. by right.
Qed.

Lemma mapM_fmap_run {A B C} (f : B → M C) (g : A → B) (l : list A) :
  ∀ w, mapM (λ x, f (g x)) l w = mapM f (g <$> l) w.
Proof.
  induction l as [|x l IH]; intros w; [done|].
  cbn [fmap list_fmap]. rewrite !mapM_cons_run.
  destruct (f (g x) w) as [[y|e] w1]; [|done]. by rewrite IH.
Qed.

Lemma load_state_text (J : codec) (d : fs) (st : state) :
  d !! state_path = Some (dumps_indent J (state_to_json st)) →
  reads_as_written J (state_to_json st) →
  (∀ day ids, seen_by_date st !! day = Some ids → 1 ≤ day ≤ MAXORDINAL) →
  load_state J d = Ok st.
Proof.
  intros Hd Hjson Hdays. unfold load_state. rewrite Hd, Hjson.
  by apply state_of_json_state_to_json.
Qed.

Lemma load_snapshot_text (J : codec) (d : fs) (day : date) (papers : list Paper) :
  d !! raw_path day = Some (snapshot_text J papers) →
  Forall (line_reads_back J) papers →
  _load_papers_from_storage J d day = Ok papers.
Proof.
  intros Hd Hlines. unfold _load_papers_from_storage, read_raw_papers.
  rewrite Hd. unfold snapshot_text.
  replace (match papers with [] => EmptyString | _ => String Py.LF EmptyString end)
    with (match (λ p, dumps J (to_dict p)) <$> papers with
          | [] => EmptyString | _ => String Py.LF EmptyString end)
    by (by destruct papers).
  rewrite splitlines_snapshot.
  - rewrite parse_lines_snapshot by done.
    unfold mbind, result_bind, rbind. by apply papers_of_items_to_dict.
  - apply Forall_fmap. eapply Forall_impl; [exact Hlines|]. by intros p (? & _).
Qed.

Lemma lookup_numbered_from (payloads : list json) :
  ∀ k, omap (λ i, (list_to_map (zip (seqZ k (Z.of_nat (length payloads))) payloads)
                    : gmap Z json) !! i)
         (seqZ k (Z.of_nat (length payloads)))
       = payloads.
Proof.
  induction payloads as [|v vs IH]; intros k; [done|].
  cbn [length]. rewrite seqZ_succ. cbn [zip zip_with list_to_map foldr fst snd omap list_omap].
  rewrite lookup_insert_eq. f_equal. rewrite <- (IH (k + 1)) at 2.
  apply list_omap_ext, Forall2_same_length_lookup. split; [done|].
  intros i x y Hx Hy. assert (x = y) as <- by congruence.
  apply lookup_insert_ne. apply lookup_seqZ in Hx. lia.
Qed.

Lemma numbered_keys (payloads : list json) :
  (numbered payloads).*1 = seqZ 1 (Z.of_nat (length payloads)).
Proof.
  unfold numbered. apply fst_zip. rewrite length_seqZ. lia.
Qed.

Lemma seqZ_sorted (n : nat) : ∀ k, StronglySorted Z.le (seqZ k (Z.of_nat n)).
Proof.
  induction n as [|n IH]; intros k; [constructor|].
  rewrite seqZ_succ. constructor; [apply IH|].
  apply Forall_forall. intros i Hi%elem_of_seqZ. lia.
Qed.

Lemma cached_in_order_numbered (payloads : list json) :
  cached_in_order (list_to_map (numbered payloads)) = payloads.
Proof.
  unfold cached_in_order, sorted_keys.
  assert (merge_sort Z.le (elements (dom (list_to_map (numbered payloads)
                                            : gmap Z json)))
          = seqZ 1 (Z.of_nat (length payloads))) as ->.
  { apply (StronglySorted_unique Z.le).
    - apply StronglySorted_merge_sort; apply _.
    - apply seqZ_sorted.
    - rewrite merge_sort_Permutation, dom_list_to_map_L, numbered_keys.
      apply elements_list_to_set, NoDup_seqZ. }
  apply lookup_numbered_from.
Qed.

Lemma in_summaries_not_responses (day : date) (p : path) :
  p.1 = summaries_dir day → ¬ in_responses day p.
Proof.
  unfold in_responses, summaries_dir, responses_dir, _date_dir. intros ->.
  cbn [app]. intros [=].
Qed.

Lemma chunks_of_numbered (J : codec) (day : date) (payloads : list json) :
  1 ≤ day ≤ MAXORDINAL →
  Forall (λ pr, reads_as_written J (chunk_payload (chunk_of day pr))) (numbered payloads) →
  Forall (reads_back J day) (chunk_of day <$> numbered payloads)
  ∧ NoDup (chunk_index <$> (chunk_of day <$> numbered payloads))
  ∧ (λ c, (chunk_index c, content c)) <$> (chunk_of day <$> numbered payloads)
    = numbered payloads.
Proof.
  intros Hday Hjson. split; [|split].
  - apply Forall_fmap, Forall_forall. intros [i v] Hin.
    split; [|split].
    + cbn [chunk_of chunk_index fst].
      assert (i ∈ (numbered payloads).*1) as Hi
        by (apply list_elem_of_fmap; by exists (i, v)).
      rewrite numbered_keys in Hi. apply elem_of_seqZ in Hi. lia.
    + cbn [chunk_of date_]. by apply fromisoformat_isoformat.
    + by apply (proj1 (Forall_forall _ _) Hjson (i, v)).
  - rewrite <- list_fmap_compose.
    change (chunk_index ∘ chunk_of day) with (@fst Z json).
    rewrite numbered_keys. apply NoDup_seqZ.
  - rewrite <- list_fmap_compose. etrans; [|apply list_fmap_id].
    apply list_fmap_ext. by intros _ [i v] _.
Qed.

Lemma save_chunks_in_summaries (J : codec) (day : date) (cs : list SummaryChunk) :
  Forall (reads_back J day) cs →
  ∀ w, confined (λ e, is_fetch e = false ∧ is_chunk_call e = false)
         (λ p, p.1 = summaries_dir day) (mapM (save_summary_chunk J) cs) w.
Proof.
  intros Hcs. apply confined_mapM. intros c w Hc.
  destruct (proj1 (Forall_forall _ _) Hcs c Hc) as (_ & Hdate & _).
  unfold save_summary_chunk. apply confined_bind; [apply confined_lift|].
  intros d w1 [Hd _]%lift_inv. assert (d = day) as -> by congruence.
  by apply confined_atomic_write.
Qed.

Lemma no_chunk_files_load (J : codec) (day : date) (d : fs) :
  (∀ n, is_chunk_name n → d !! (summaries_dir day, n) = None) →
  holds_chunks J day d [] ∧ load_summary_chunks J d day = Ok ∅.
Proof.
  intros Hempty.
  assert (holds_chunks J day d []) as Hholds.
  { split; [by intros c Hc; inv Hc|].
    intros n Hn [v Hv]. by rewrite (Hempty n Hn) in Hv. }
  split; [done|].
  rewrite (load_of_holds_chunks J day d [] Hholds); [done|constructor|constructor].
Qed.

Lemma build_seen_set_grows (st st' : state) (r : Z) (today : date) (seen : gset string) :
  build_seen_set st r today = Ok seen →
  (∀ d, seen_on st d ⊆ seen_on st' d) →
  ∃ seen', build_seen_set st' r today = Ok seen' ∧ seen ⊆ seen'.
Proof.
  intros Hseen Hgrow.
  assert (∃ seen', build_seen_set st' r today = Ok seen') as (seen' & Hseen').
  { unfold build_seen_set in *. destruct (sub_days today r); [by eexists|done]. }
  exists seen'. split; [done|]. intros id Hid.
  apply (build_seen_set_elem st r today seen Hseen) in Hid as (d & Hd & Hwin).
  apply (build_seen_set_elem st' r today seen' Hseen'). exists d. split; [|done].
  by apply Hgrow.
Qed.

(** the chunk stage of the first run of a day whose fetched items are
    answered: what it returns, what it asks, and what it leaves on disk *)
Lemma first_run_chunks (J : codec) (E : env) (config : AppConfig) (day : date)
    (w : world) (st : state) (seen : gset string) (fetched : list Paper)
    (batches : list (list Paper)) (payloads : list json) :
  1 ≤ day ≤ MAXORDINAL →
  load_state J (disk w) = Ok st →
  build_seen_set st (retention_days config) (today E) = Ok seen →
  fresh_day J (disk w) day →
  fetch_papers E (categories config) day = Ok fetched →
  configured (openai_api_key config) = true →
  filter (λ p, paper_id p ∉ seen) fetched ≠ [] →
  _chunk (filter (λ p, paper_id p ∉ seen) fetched) chunk_size = Ok batches →
  Forall2 (λ b v, model_answer J E day b = Ok v) batches payloads →
  Forall (λ pr, reads_as_written J (chunk_payload (chunk_of day pr)))
    (numbered payloads) →
  ∃ w', _run_chunks J E config day w = (Ok (Some (fetched, payloads)), w')
        ∧ disk w' !! raw_path day = Some (snapshot_text J fetched)
        ∧ disk w' !! state_path
          = Some (dumps_indent J
                    (state_to_json
                       (update_state_with_papers st day
                          (filter (λ p, paper_id p ∉ seen) fetched) (utcnow E))))
        ∧ holds_chunks J day (disk w') (chunk_of day <$> numbered payloads)
        ∧ ∃ evs, trace w' = trace w ++ EvFetch (categories config) day :: evs
                 ∧ Forall (λ e, is_fetch e = false) evs
                 ∧ filter (λ e, is_chunk_call e = true) evs
                   = (λ ib, EvChunkCall ib.1 ib.2)
                       <$> zip (seqZ 1 (Z.of_nat (length batches))) batches.
Proof.
  intros Hday Hst Hseen [Hstored Hempty] Hfetch Hkey Hne Hchunk Hanswers Hjson.
  destruct (chunks_of_numbered J day payloads Hday Hjson) as (Hback & Hnd & _).
  set (new_papers := filter (λ p, paper_id p ∉ seen) fetched) in *.
  set (st' := update_state_with_papers st day new_papers (utcnow E)).
  set (w2 := World (<[raw_path day := snapshot_text J fetched]>
                      (delete (temp_path (raw_path day)) (disk w)))
                   ((trace w ++ [EvFetch (categories config) day])
                    ++ [EvWrite (raw_path day) (snapshot_text J fetched)])).
  set (text := dumps_indent J (state_to_json st')).
  set (w3 := World (<[state_path := text]> (delete (temp_path state_path) (disk w2)))
                   (trace w2 ++ [EvWrite state_path text])).
  assert (∀ n, is_chunk_name n → disk w3 !! (summaries_dir day, n) = None) as Hempty3.
  { intros n Hn. unfold w3, w2. cbn [disk].
    rewrite lookup_insert_ne by done. rewrite lookup_delete_ne by done.
    pose proof (not_raw_summaries day day n) as Hnr.
    rewrite lookup_insert_ne by (intros H; apply Hnr; by rewrite <- H).
    rewrite lookup_delete_ne by (intros H; apply Hnr; by rewrite <- H).
    by apply Hempty. }
  assert (load_summary_chunks J (disk w2) day = Ok ∅) as Hchunks2.
  { apply no_chunk_files_load. intros n Hn. unfold w2. cbn [disk].
    pose proof (not_raw_summaries day day n) as Hnr.
    rewrite lookup_insert_ne by (intros H; apply Hnr; by rewrite <- H).
    rewrite lookup_delete_ne by (intros H; apply Hnr; by rewrite <- H).
    by apply Hempty. }
  (* the stream *)
  destruct (stream_loop_fresh J E day batches payloads Hanswers 1 [] w3)
    as (w4 & Hloop).
  change ([] ++ zip (seqZ 1 (Z.of_nat (length payloads))) payloads)
    with (numbered payloads) in Hloop.
  assert (summarize_papers_stream J E day new_papers chunk_size ∅
            (Some (save_response_chunk J day)) w3 = (Ok (numbered payloads), w4))
    as Hstream.
  { unfold summarize_papers_stream. destruct new_papers; [done|].
    by rewrite (bind_ok _ _ w3 batches w3) by (unfold lift; by rewrite Hchunk). }
  destruct (stream_loop_in_responses J E day ∅ batches 1 [] w3) as [_ Hdisk4].
  rewrite Hloop in Hdisk4. cbn [snd] in Hdisk4.
  destruct (stream_loop_confined J E day ∅ (λ e, is_fetch e = false)
              ltac:(done) batches 1 [] w3) as [(evs4 & Htr4 & Hev4) _].
  rewrite Hloop in Htr4. cbn [snd] in Htr4.
  destruct (stream_loop_shape J E day ∅ (Some (save_response_chunk J day))
              (save_response_is_quiet J day) batches 1 [] w3)
    as (evs4' & k & Htr4' & Hcalls & Hall).
  rewrite Hloop in Htr4', Hall. cbn [snd fst] in Htr4', Hall.
  assert (evs4' = evs4) as -> by (apply (app_inv_head (trace w3)); congruence).
  destruct (Hall _ eq_refl) as (Hk & _).
  rewrite take_ge in Hcalls by done. rewrite missing_batches_no_cache in Hcalls.
  (* the summaries *)
  destruct (save_chunks_run J day (chunk_of day <$> numbered payloads) w4 [])
    as (us & w5 & Hsave & Hholds); [|done|done|].
  { split; [by intros c Hc; inv Hc|]. intros n Hn [v Hv].
    rewrite Hdisk4 in Hv by apply summaries_not_responses.
    by rewrite (Hempty3 n Hn) in Hv. }
  cbn [app] in Hholds.
  destruct (save_chunks_in_summaries J day _ Hback w4) as [(evs5 & Htr5 & Hev5) Hdisk5].
  rewrite Hsave in Htr5, Hdisk5. cbn [snd] in Htr5, Hdisk5.
  assert (mapM (λ pr : Z * json,
                  match (∅ : gmap Z json) !! pr.1 with
                  | Some _ => mret ()
                  | None => save_summary_chunk J (mkSummaryChunk (isoformat day) pr.1 pr.2)
                  end) (numbered payloads) w4 = (Ok us, w5)) as Hmap.
  { rewrite (mapM_ext_run _ (λ pr, save_summary_chunk J (chunk_of day pr))).
    - by rewrite mapM_fmap_run.
    - intros pr w0 _. by rewrite lookup_empty. }
  exists w5. split; [|split; [|split; [|split]]].
  - unfold _run_chunks.
    rewrite (bind_ok _ _ w st w) by (by apply read_ok).
    rewrite (bind_ok _ _ w seen w) by (by rewrite Hseen).
    rewrite (bind_ok _ _ w [] w) by (by apply read_ok).
    rewrite (bind_ok _ _ w _ w) by done.
    rewrite (bind_ok _ _ w fetched w2).
    2:{ erewrite bind_ok by done.
        erewrite bind_ok by (unfold lift; by rewrite Hfetch).
        erewrite bind_ok by apply save_raw_papers_run. done. }
    rewrite (bind_ok _ _ w2 ∅ w2) by (by apply read_ok).
    change (select_new_papers [] fetched (has_summary_for_date (disk w) day) ∅ seen)
      with new_papers.
    erewrite bind_ok by apply save_state_run. fold st' text w3.
    destruct new_papers as [|p ps] eqn:Hnew; [done|].
    rewrite Hkey. cbn [negb].
    rewrite (bind_ok _ _ w3 _ w4 Hstream).
    rewrite (bind_ok _ _ w4 _ w5 Hmap).
    unfold numbered. rewrite snd_zip; [done|]. rewrite length_seqZ. lia.
  - rewrite Hdisk5, Hdisk4.
    + unfold w3, w2. cbn [disk]. rewrite lookup_insert_ne by done.
      rewrite lookup_delete_ne by done. by rewrite lookup_insert_eq.
    + unfold in_responses, raw_path, responses_dir, _date_dir. cbn [fst app].
      intros [=].
    + unfold raw_path, summaries_dir, _date_dir. cbn [fst app]. intros [=].
  - rewrite Hdisk5, Hdisk4.
    + unfold w3. cbn [disk]. by rewrite lookup_insert_eq.
    + unfold in_responses, state_path, responses_dir, _date_dir. cbn [fst app].
      intros [=].
    + unfold state_path, summaries_dir, _date_dir. cbn [fst app]. intros [=].
  - exact Hholds.
  - exists ([EvWrite (raw_path day) (snapshot_text J fetched); EvWrite state_path text]
            ++ evs4 ++ evs5).
    split; [|split].
    + rewrite Htr5, Htr4. unfold w3, w2. cbn [trace]. by rewrite <- !app_assoc.
    + apply Forall_app. split; [by repeat constructor|]. apply Forall_app. split; [done|].
      eapply Forall_impl; [exact Hev5|]. by intros e [? _].
    + rewrite !filter_chunk_calls_app. rewrite Hcalls.
      rewrite (filter_no_chunk_calls evs5)
        by (eapply Forall_impl; [exact Hev5|]; by intros e [_ ?]).
      by rewrite app_nil_r.
Qed.

(** the delivery stage leaves the state, the snapshot and the chunk files as
    they are *)
Lemma deliver_keeps_inputs (J : codec) (E : env) (config : AppConfig) (day : date)
    (papers : list Paper) (summaries : list json) (w : world) :
  disk (_run_deliver J E config day papers summaries w).2 !! state_path
  = disk w !! state_path
  ∧ disk (_run_deliver J E config day papers summaries w).2 !! raw_path day
    = disk w !! raw_path day
  ∧ ∀ n, is_chunk_name n →
         disk (_run_deliver J E config day papers summaries w).2 !! (summaries_dir day, n)
         = disk w !! (summaries_dir day, n).
Proof.
  destruct (_run_deliver_confined J E config day papers summaries w) as [_ Hd].
  split; [|split].
  - apply Hd. intros [H | [H | [H | H]]]; apply (f_equal fst) in H;
      by apply (not_raw_state day EmptyString) in H || discriminate H.
  - apply Hd. intros [H | [H | [H | H]]]; apply (f_equal fst) in H;
      by apply (not_raw_summaries day day EmptyString)
      || by apply (not_raw_responses day day EmptyString).
  - intros n Hn. apply Hd. intros [H | [H | [H | H]]].
    + unfold overall_path in H. injection H as H. subst n. by vm_compute in Hn.
    + unfold temp_path, overall_path in H. cbn [fst snd] in H.
      injection H as H. subst n. by vm_compute in Hn.
    + apply (f_equal fst) in H. cbn [fst] in H.
      unfold summaries_dir, overall_response_path, responses_dir, _date_dir in H.
      cbn [app fst] in H. injection H as H. discriminate.
    + apply (f_equal fst) in H. cbn [fst] in H.
      unfold summaries_dir, overall_response_path, responses_dir, _date_dir in H.
      cbn [app fst temp_path] in H. injection H as H. discriminate.
Qed.

Lemma holds_chunks_ext (J : codec) (day : date) (d d' : fs) (cs : list SummaryChunk) :
  (∀ n, is_chunk_name n → d' !! (summaries_dir day, n) = d !! (summaries_dir day, n)) →
  holds_chunks J day d cs → holds_chunks J day d' cs.
Proof.
  intros Hsame [H1 H2]. split.
  - intros c Hc. unfold chunk_path. rewrite Hsame by apply chunk_name_is_chunk_name.
    by apply H1.
  - intros n Hn Hsome. rewrite Hsame in Hsome by done. by apply H2.
Qed.

(** X12. The first run of a day makes the day replayable.  On a disk without
    items and chunk summaries of the day, with a feed that returns items of
    which some are new, a key, and a model whose answer parses for every
    batch of the new items, the chunk stage asks the feed once and the model
    once per batch, in order, and hands on the payloads.  When the run is
    over, the snapshot, the state and the chunk cache load back as the items
    fetched, the state with the new items recorded, and the payloads under
    the indices from 1, provided the documents read back as written.  If the
    day is inside the retention window and the new items make as many batches
    as the fetched ones, the next run, from whatever feed and model, asks
    neither and hands on the same payloads.  If they make fewer, the next run
    takes every item of the snapshot as new. *)
Theorem a_first_run_is_replayed (J : codec) (E : env) (config : AppConfig) (day : date)
    (w : world) (st : state) (seen : gset string) (fetched : list Paper)
    (batches : list (list Paper)) (payloads : list json) :
  1 ≤ day ≤ MAXORDINAL →
  (∀ d ids, seen_by_date st !! d = Some ids → 1 ≤ d ≤ MAXORDINAL) →
  load_state J (disk w) = Ok st →
  build_seen_set st (retention_days config) (today E) = Ok seen →
  fresh_day J (disk w) day →
  fetch_papers E (categories config) day = Ok fetched →
  configured (openai_api_key config) = true →
  filter (λ p, paper_id p ∉ seen) fetched ≠ [] →
  _chunk (filter (λ p, paper_id p ∉ seen) fetched) chunk_size = Ok batches →
  Forall2 (λ b v, model_answer J E day b = Ok v) batches payloads →
  Forall (line_reads_back J) fetched →
  reads_as_written J
    (state_to_json
       (update_state_with_papers st day (filter (λ p, paper_id p ∉ seen) fetched)
          (utcnow E))) →
  Forall (λ pr, reads_as_written J (chunk_payload (chunk_of day pr)))
    (numbered payloads) →
  (∃ w' evs,
     _run_chunks J E config day w = (Ok (Some (fetched, payloads)), w')
     ∧ trace w' = trace w ++ EvFetch (categories config) day :: evs
     ∧ Forall (λ e, is_fetch e = false) evs
     ∧ filter (λ e, is_chunk_call e = true) evs
       = (λ ib, EvChunkCall ib.1 ib.2)
           <$> zip (seqZ 1 (Z.of_nat (length batches))) batches)
  ∧ _load_papers_from_storage J (disk (_run_once J E config day w).2) day = Ok fetched
  ∧ load_state J (disk (_run_once J E config day w).2)
    = Ok (update_state_with_papers st day (filter (λ p, paper_id p ∉ seen) fetched)
            (utcnow E))
  ∧ load_summary_chunks J (disk (_run_once J E config day w).2) day
    = Ok (list_to_map (numbered payloads))
  ∧ (today E - day ≤ retention_days config →
     expected_chunks_of (length (filter (λ p, paper_id p ∉ seen) fetched))
     = expected_chunks_of (length fetched) →
     ∀ E', today E' = today E →
       (∃ w'', _run_chunks J E' config day (_run_once J E config day w).2
               = (Ok (Some (fetched, payloads)), w''))
       ∧ ∃ evs, trace (_run_once J E' config day (_run_once J E config day w).2).2
                = trace (_run_once J E config day w).2 ++ evs
                ∧ Forall (λ e, is_fetch e = false ∧ is_chunk_call e = false) evs)
  ∧ (expected_chunks_of (length (filter (λ p, paper_id p ∉ seen) fetched))
     < expected_chunks_of (length fetched) →
     ∀ seen',
       select_new_papers fetched fetched
         (has_summary_for_date (disk (_run_once J E config day w).2) day)
         (list_to_map (numbered payloads)) seen'
       = fetched).
Proof.
  intros Hday Hdays Hst Hseen Hfresh Hfetch Hkey Hne Hchunk Hanswers Hlines
    Hstate Hjson.
  destruct (first_run_chunks J E config day w st seen fetched batches payloads)
    as (w' & Hrun & Hraw & Htext & Hholds & evs & Htr & Hev & Hcalls); try done.
  destruct (chunks_of_numbered J day payloads Hday Hjson) as (Hback & Hnd & Hpairs).
  set (new_papers := filter (λ p, paper_id p ∉ seen) fetched) in *.
  set (st' := update_state_with_papers st day new_papers (utcnow E)) in *.
  set (chunks := (list_to_map (numbered payloads) : gmap Z json)).
  assert (_run_once J E config day w = _run_deliver J E config day fetched payloads w')
    as Honce by (unfold _run_once; by rewrite (bind_ok _ _ w _ w' Hrun)).
  rewrite Honce.
  destruct (deliver_keeps_inputs J E config day fetched payloads w')
    as (Hd_state & Hd_raw & Hd_chunks).
  set (w1 := (_run_deliver J E config day fetched payloads w').2) in *.
  assert (Hlen : Z.of_nat (length payloads) = expected_chunks_of (length new_papers)).
  { rewrite <- (Forall2_length _ _ _ Hanswers).
    unfold _chunk, chunk_size in Hchunk. cbn [Nat.eqb] in Hchunk.
    injection Hchunk as <-. by rewrite chunk_aux_length. }
  assert (Hfetched : fetched ≠ []) by (intros ->; by apply Hne).
  assert (Hstored : _load_papers_from_storage J (disk w1) day = Ok fetched).
  { apply load_snapshot_text; [by rewrite Hd_raw|done]. }
  assert (Hstate1 : load_state J (disk w1) = Ok st').
  { apply load_state_text; [by rewrite Hd_state|done|].
    intros d ids. unfold st', update_state_with_papers. cbn [seen_by_date].
    destruct (decide (day = d)) as [<-|Hned]; [by intros _|].
    rewrite lookup_insert_ne by done. apply Hdays. }
  assert (Hchunks1 : load_summary_chunks J (disk w1) day = Ok chunks).
  { rewrite (load_of_holds_chunks J day (disk w1) (chunk_of day <$> numbered payloads));
      [by rewrite Hpairs| |done|done].
    by apply (holds_chunks_ext J day (disk w')). }
  split; [by exists w', evs|]. split; [done|]. split; [done|]. split; [done|].
  split.
  - intros Hwindow Hsame E' Htoday.
    assert (replay_ready J E' config day (disk w1) fetched chunks) as Hready.
    { split; [|split; [done|split; [done|split; [done|]]]].
      - destruct (build_seen_set_grows st st' (retention_days config) (today E) seen
                    Hseen) as (seen' & Hseen' & Hsub).
        { intros d. apply update_state_keeps. }
        exists st', seen'. split; [done|]. split; [by rewrite Htoday|].
        apply Forall_forall. intros p Hp.
        destruct (decide (paper_id p ∈ seen)) as [Hin|Hnew]; [by apply Hsub|].
        apply (build_seen_set_elem st' _ _ seen' Hseen'). exists day.
        split; [|done]. apply update_state_records, elem_of_list_to_set.
        apply list_elem_of_fmap_2. by apply list_elem_of_filter.
      - intros i Hi. rewrite <- Hsame, <- Hlen in Hi.
        apply elem_of_dom. unfold chunks.
        rewrite dom_list_to_map_L, numbered_keys.
        apply elem_of_list_to_set, elem_of_seqZ. lia. }
    split.
    + destruct (run_chunks_replay J E' config day w1 fetched chunks Hready)
        as (text & Hreplay).
      eexists. rewrite Hreplay. unfold chunks. by rewrite cached_in_order_numbered.
    + destruct (run_once_replay J E' config day w1 fetched chunks Hready)
        as ((evs1 & Htr1 & Hev1) & _).
      destruct fetched as [|p ps]; [done|].
      destruct (run_with_snapshot_never_fetches J E' config day w1 p ps Hstored)
        as [(evs2 & Htr2 & Hev2) _].
      assert (evs2 = evs1) as -> by (apply (app_inv_head (trace w1)); congruence).
      exists evs1. split; [done|]. apply Forall_forall. intros e He. split.
      * by apply (proj1 (Forall_forall _ _) Hev2).
      * by apply (proj1 (Forall_forall _ _) Hev1).
  - intros Hless seen'. unfold select_new_papers, reprocess.
    destruct fetched as [|p ps]; [done|].
    assert ((Z.of_nat (size chunks) <? expected_chunks_of (length (p :: ps))) = true)
      as ->; [|by rewrite orb_true_r].
    apply Z.ltb_lt. unfold chunks.
    rewrite map_size_list_to_map by (rewrite numbered_keys; apply NoDup_seqZ).
    unfold numbered. rewrite length_zip_with, length_seqZ. lia.
Qed.

Lemma a_first_run_is_replayed_witness :
  ∃ w'',
    _run_chunks RefJson.J Ex.E_failing Ex.config Ex.day
      (_run_once RefJson.J Ex.E Ex.config Ex.day (World ∅ [])).2
    = (Ok (Some ([Ex.paper_n 0],
                 [JObj [("summary", JStr "ok"); ("count", JInt 1)]])), w'').
Proof.
  assert (filter (λ p, paper_id p ∉ (∅ : gset string)) [Ex.paper_n 0] = [Ex.paper_n 0])
    as Hnew by (by rewrite filter_cons_True by set_solver).
  assert (1 ≤ Ex.day ≤ MAXORDINAL) as Hday by (unfold Ex.day, MAXORDINAL; lia).
  assert (∀ d ids, seen_by_date (State ∅ None) !! d = Some ids → 1 ≤ d ≤ MAXORDINAL)
    as Hdays by (intros d ids; cbn [seen_by_date]; by rewrite lookup_empty).
  assert (load_state RefJson.J (disk (World ∅ [])) = Ok (State ∅ None)) as Hst
    by reflexivity.
  assert (build_seen_set (State ∅ None) (retention_days Ex.config) (today Ex.E) = Ok ∅)
    as Hseen by reflexivity.
  assert (fresh_day RefJson.J (disk (World ∅ [])) Ex.day) as Hfresh
    by (split; [reflexivity|intros n _; apply lookup_empty]).
  assert (fetch_papers Ex.E (categories Ex.config) Ex.day = Ok [Ex.paper_n 0]) as Hfetch
    by reflexivity.
  assert (configured (openai_api_key Ex.config) = true) as Hkey by reflexivity.
  assert (filter (λ p, paper_id p ∉ (∅ : gset string)) [Ex.paper_n 0] ≠ []) as Hne
    by (by rewrite Hnew).
  assert (_chunk (filter (λ p, paper_id p ∉ (∅ : gset string)) [Ex.paper_n 0]) chunk_size
          = Ok [[Ex.paper_n 0]]) as Hchunk by (by rewrite Hnew).
  assert (Forall2 (λ b v, model_answer RefJson.J Ex.E Ex.day b = Ok v) [[Ex.paper_n 0]]
            [JObj [("summary", JStr "ok"); ("count", JInt 1)]]) as Hanswers
    by (repeat constructor; vm_compute; reflexivity).
  assert (Forall (line_reads_back RefJson.J) [Ex.paper_n 0]) as Hlines
    by (repeat constructor; vm_compute; reflexivity).
  assert (reads_as_written RefJson.J
            (state_to_json
               (update_state_with_papers (State ∅ None) Ex.day
                  (filter (λ p, paper_id p ∉ (∅ : gset string)) [Ex.paper_n 0])
                  (utcnow Ex.E)))) as Hstate
    by (rewrite Hnew; vm_compute; reflexivity).
  assert (Forall (λ pr, reads_as_written RefJson.J (chunk_payload (chunk_of Ex.day pr)))
            (numbered [JObj [("summary", JStr "ok"); ("count", JInt 1)]])) as Hjson
    by (repeat constructor; vm_compute; reflexivity).
  assert (today Ex.E - Ex.day ≤ retention_days Ex.config) as Hwindow
    by (vm_compute; discriminate).
  assert (expected_chunks_of
            (length (filter (λ p, paper_id p ∉ (∅ : gset string)) [Ex.paper_n 0]))
          = expected_chunks_of (length [Ex.paper_n 0])) as Hsame
    by (by rewrite Hnew).
  exact (proj1 (proj1 (proj2 (proj2 (proj2 (proj2
           (a_first_run_is_replayed RefJson.J Ex.E Ex.config Ex.day (World ∅ [])
              (State ∅ None) ∅ [Ex.paper_n 0] [[Ex.paper_n 0]]
              [JObj [("summary", JStr "ok"); ("count", JInt 1)]]
              Hday Hdays Hst Hseen Hfresh Hfetch Hkey Hne Hchunk Hanswers Hlines
              Hstate Hjson))))) Hwindow Hsame Ex.E_failing eq_refl)).
Defined.

(** ** main.py: a run keeps to its day *)

Lemma run_chunks_in_run_files (J : codec) (E : env) (config : AppConfig) (day : date)
    (w : world) :
  1 ≤ day ≤ MAXORDINAL →
  confined (λ _, True) (run_files day) (_run_chunks J E config day) w.
Proof.
  intros Hday. unfold _run_chunks.
  apply confined_bind; [by apply confined_unchanged, read_unchanged|]. intros st w1 _.
  apply confined_bind; [apply confined_lift|]. intros seen w2 _.
  apply confined_bind; [by apply confined_unchanged, read_unchanged|].
  intros stored w3 _.
  apply confined_bind; [apply confined_reading|]. intros has w4 _.
  apply confined_bind.
  - destruct stored; [|apply confined_ret].
    apply confined_bind; [by apply confined_emit|]. intros _ w5 _.
    apply confined_bind; [apply confined_lift|]. intros papers w6 _.
    apply confined_bind; [|intros; apply confined_ret].
    unfold save_raw_papers. apply confined_atomic_write; [done| |]; right; by left.
  - intros papers w5 _.
    apply confined_bind; [by apply confined_unchanged, read_unchanged|].
    intros existing w6 _.
    apply confined_bind; [apply confined_atomic_write; [done|by left|by left]|].
    intros _ w7 _.
    destruct (select_new_papers _ _ _ _ _);
      [destruct (bool_decide _); apply confined_ret|].
    destruct (negb _); [apply confined_ret|].
    apply confined_bind.
    { eapply confined_mono; [| |apply stream_in_responses]; [done|].
      intros q Hq. right. right. by right. }
    intros pairs w8 _. apply confined_bind; [|intros; apply confined_ret].
    apply confined_mapM. intros pr w9 _.
    destruct (existing !! pr.1); [apply confined_ret|].
    unfold save_summary_chunk. apply confined_bind; [apply confined_lift|].
    intros d w10 [Hd _]%lift_inv. cbn [date_] in Hd.
    rewrite fromisoformat_isoformat in Hd by done. injection Hd as <-.
    apply confined_atomic_write; [done| |]; right; right; by left.
Qed.

Lemma run_once_in_run_files (J : codec) (E : env) (config : AppConfig) (day : date)
    (w : world) :
  1 ≤ day ≤ MAXORDINAL →
  confined (λ _, True) (run_files day) (_run_once J E config day) w.
Proof.
  intros Hday. unfold _run_once.
  apply confined_bind; [by apply run_chunks_in_run_files|].
  intros [[papers summaries]|] w1 _; [|apply confined_ret].
  eapply confined_mono; [| |apply _run_deliver_confined]; [done|].
  intros p [-> | [-> | [-> | ->]]]; unfold run_files; cbn [fst]; tauto.
Qed.

Lemma other_day_not_run_files (day day' : date) (p : path) :
  1 ≤ day ≤ MAXORDINAL → 1 ≤ day' ≤ MAXORDINAL → day' ≠ day →
  (∃ sub, p.1 = _date_dir day' ++ [sub]) → ¬ run_files day p.
Proof.
  intros Hday Hday' Hne (sub & Hp).
  assert (isoformat day' ≠ isoformat day) as Htext
    by (intros Heq; by apply Hne, isoformat_inj).
  unfold run_files, summaries_dir, responses_dir, _date_dir in *. rewrite Hp.
  cbn [app]. intros [H | [H | [H | H]]]; by injection H.
Qed.

(** X13. A run keeps to its day. Whatever the feed, the model and the mail
    do, and whether the run ends or raises, the files it leaves changed are
    in the state directory or in the raw, summaries and responses
    directories of its day. So the snapshot, the chunk cache and the overall
    summary of every other day load after the run as they did before it; the
    state is the one file the days share. *)
Theorem a_run_keeps_to_its_day (J : codec) (E : env) (config : AppConfig)
    (day day' : date) (w : world) :
  1 ≤ day ≤ MAXORDINAL → 1 ≤ day' ≤ MAXORDINAL → day' ≠ day →
  (∀ p, ¬ run_files day p → disk (_run_once J E config day w).2 !! p = disk w !! p)
  ∧ _load_papers_from_storage J (disk (_run_once J E config day w).2) day'
    = _load_papers_from_storage J (disk w) day'
  ∧ load_summary_chunks J (disk (_run_once J E config day w).2) day'
    = load_summary_chunks J (disk w) day'
  ∧ has_summary_for_date (disk (_run_once J E config day w).2) day'
    = has_summary_for_date (disk w) day'
  ∧ load_overall_summary J (disk (_run_once J E config day w).2) day'
    = load_overall_summary J (disk w) day'.
Proof.
  intros Hday Hday' Hne.
  destruct (run_once_in_run_files J E config day w Hday) as [_ Hd].
  assert (∀ sub n, disk (_run_once J E config day w).2 !! (_date_dir day' ++ [sub], n)
                   = disk w !! (_date_dir day' ++ [sub], n)) as Hother.
  { intros sub n. apply Hd. apply (other_day_not_run_files day day'); try done.
    by exists sub. }
  split; [done|]. split; [|split; [|split]].
  - apply read_raw_papers_ext, Hother.
  - apply load_summary_chunks_ext. intros n _. apply Hother.
  - apply has_summary_for_date_ext. intros n _. apply Hother.
  - unfold load_overall_summary, overall_path, summaries_dir. by rewrite Hother.
Qed.

Lemma a_run_keeps_to_its_day_witness :
  load_summary_chunks RefJson.J
    (disk (_run_once RefJson.J Ex.E Ex.config 738891 (World Ex.complete [])).2) Ex.day
  = load_summary_chunks RefJson.J (disk (World Ex.complete [])) Ex.day.
Proof.
  assert (1 ≤ 738891 ≤ MAXORDINAL) as H1 by (unfold MAXORDINAL; lia).
  assert (1 ≤ Ex.day ≤ MAXORDINAL) as H2 by (unfold Ex.day, MAXORDINAL; lia).
  assert (Ex.day ≠ 738891) as H3 by (unfold Ex.day; lia).
  exact (proj1 (proj2 (proj2
           (a_run_keeps_to_its_day RefJson.J Ex.E Ex.config 738891 Ex.day
              (World Ex.complete []) H1 H2 H3)))).
Defined.

(** ** summarizer.py: the span [_extract_json] reads *)

Lemma has_char_app (c : ascii) (a b : string) :
  has_char c (a +:+ b) = has_char c a || has_char c b.
Proof.
  induction a as [|x a IH]; [done|].
  rewrite append_cons. cbn [has_char]. by rewrite IH, orb_assoc.
Qed.

Lemma from_first_brace_found (pre r : string) :
  has_char "{" pre = false →
  Str.from_first_brace (pre +:+ String "{" r) = Some (String "{" r).
Proof.
  induction pre as [|a pre IH]; intros Hpre; [done|].
  cbn [has_char] in Hpre. apply orb_false_iff in Hpre as [Ha Hpre].
  rewrite append_cons. cbn [Str.from_first_brace]. rewrite Ha. by apply IH.
Qed.

Lemma from_first_brace_inv (text t : string) :
  Str.from_first_brace text = Some t →
  ∃ pre r, text = pre +:+ t ∧ has_char "{" pre = false ∧ t = String "{" r.
Proof.
  induction text as [|a text IH]; [done|]. cbn [Str.from_first_brace].
  destruct (Ascii.eqb a "{") eqn:Ha.
  - intros [= <-]. apply Ascii.eqb_eq in Ha as ->. by exists EmptyString, text.
  - intros (pre & r & -> & Hpre & ->)%IH. exists (String a pre), r.
    split; [done|]. split; [|done]. cbn [has_char]. by rewrite Ha.
Qed.

Lemma upto_last_brace_none (s : string) :
  Str.upto_last_brace s = None ↔ has_char "}" s = false.
Proof.
  induction s as [|a s IH]; [done|]. cbn [Str.upto_last_brace has_char].
  destruct (Str.upto_last_brace s) as [r|].
  - split; [done|]. intros [_ H]%orb_false_iff. by apply IH in H.
  - rewrite (proj1 IH eq_refl), orb_false_r. by destruct (Ascii.eqb a "}").
Qed.

Lemma upto_last_brace_found (s post : string) :
  has_char "}" post = false →
  Str.upto_last_brace (s +:+ String "}" post) = Some (s +:+ "}").
Proof.
  intros Hpost. apply upto_last_brace_none in Hpost.
  induction s as [|a s IH].
  - change (EmptyString +:+ ?x) with x. cbn [Str.upto_last_brace].
    by rewrite Hpost.
  - rewrite !append_cons. cbn [Str.upto_last_brace]. by rewrite IH.
Qed.

Lemma upto_last_brace_inv (t r : string) :
  Str.upto_last_brace t = Some r →
  ∃ body post, t = r +:+ post ∧ has_char "}" post = false ∧ r = body +:+ "}".
Proof.
  revert r. induction t as [|a t IH]; intros r; [done|].
  cbn [Str.upto_last_brace].
  destruct (Str.upto_last_brace t) as [r'|] eqn:Hr.
  - intros [= <-]. destruct (IH r' eq_refl) as (body & post & -> & Hpost & ->).
    exists (String a body), post. by rewrite !append_cons.
  - destruct (Ascii.eqb a "}") eqn:Ha; [|done]. intros [= <-].
    apply Ascii.eqb_eq in Ha as ->. exists EmptyString, t.
    split; [done|]. split; [by apply upto_last_brace_none|done].
Qed.

Lemma has_closing (x y : string) : has_char "}" (x +:+ String "}" y) = true.
Proof. rewrite has_char_app. cbn. by rewrite orb_true_r. Qed.

Lemma search_braces_some (pre mid post : string) :
  Str.search_braces (pre +:+ "{" +:+ mid +:+ "}" +:+ post) ≠ None.
Proof.
  assert (∀ s, has_char "}" s = true →
               match Str.from_first_brace (String "{" s) with
               | Some t => Str.upto_last_brace t
               | None => None
               end ≠ None) as Hhere.
  { intros s Hs. cbn [Str.from_first_brace]. rewrite Ascii.eqb_refl.
    intros Hn%upto_last_brace_none. cbn [has_char] in Hn.
    by rewrite Hs, orb_true_r in Hn. }
  unfold Str.search_braces. induction pre as [|a pre IH].
  - apply Hhere. apply (has_closing mid post).
  - rewrite append_cons. destruct (Ascii.eqb a "{") eqn:Ha.
    + apply Ascii.eqb_eq in Ha as ->. apply Hhere.
      rewrite has_char_app. apply orb_true_iff. right.
      change (has_char "}" (String "{" (mid +:+ String "}" post)) = true).
      cbn [has_char]. by rewrite has_closing, orb_true_r.
    + cbn [Str.from_first_brace]. rewrite Ha. apply IH.
Qed.

(** X14. What [_extract_json] reads of a text is the span from its first
    opening brace to its last closing brace: if the text is [pre], a brace,
    [mid], a brace and [post], with no opening brace in [pre] and no closing
    one in [post], the span is the two braces with [mid] between them, and
    the result is that span parsed, or [JSONDecodeError]. The span is always
    of this form. A text that has no closing brace after an opening one gives
    [ValueError]. So of an answer that holds two objects the span covers
    both, with what is between them. *)
Theorem extract_reads_first_to_last_brace (J : codec) (text : string) :
  (∀ pre mid post,
     has_char "{" pre = false → has_char "}" post = false →
     text = pre +:+ "{" +:+ mid +:+ "}" +:+ post →
     Str.search_braces text = Some ("{" +:+ mid +:+ "}")
     ∧ _extract_json J text
       = match loads J ("{" +:+ mid +:+ "}") with
         | Some v => Ok v
         | None => Raise JSONDecodeError
         end)
  ∧ (∀ s, Str.search_braces text = Some s →
       ∃ pre mid post,
         has_char "{" pre = false ∧ has_char "}" post = false
         ∧ text = pre +:+ "{" +:+ mid +:+ "}" +:+ post
         ∧ s = "{" +:+ mid +:+ "}")
  ∧ (Str.search_braces text = None ↔
     ∀ pre mid post, text ≠ pre +:+ "{" +:+ mid +:+ "}" +:+ post)
  ∧ (Str.search_braces text = None → _extract_json J text = Raise ValueError)
  ∧ (∀ a b c, has_char "{" a = false → has_char "}" c = false →
       text = a +:+ "{" +:+ "}" +:+ b +:+ "{" +:+ "}" +:+ c →
       Str.search_braces text = Some ("{" +:+ "}" +:+ b +:+ "{" +:+ "}")).
Proof.
  assert (∀ pre mid post,
            has_char "{" pre = false → has_char "}" post = false →
            Str.search_braces (pre +:+ "{" +:+ mid +:+ "}" +:+ post)
            = Some ("{" +:+ mid +:+ "}")) as Hfound.
  { intros pre mid post Hpre Hpost. unfold Str.search_braces.
    change ("{" +:+ mid +:+ "}" +:+ post) with (String "{" (mid +:+ String "}" post)).
    rewrite from_first_brace_found by done.
    change (String "{" (mid +:+ String "}" post))
      with (String "{" mid +:+ String "}" post).
    by rewrite upto_last_brace_found. }
  split; [|split; [|split; [|split]]].
  - intros pre mid post Hpre Hpost ->. split; [by apply Hfound|].
    unfold _extract_json. by rewrite Hfound.
  - intros s Hs. unfold Str.search_braces in Hs.
    destruct (Str.from_first_brace text) as [t|] eqn:Ht; [|done].
    apply from_first_brace_inv in Ht as (pre & r & -> & Hpre & ->).
    apply upto_last_brace_inv in Hs as (body & post & Ht & Hpost & ->).
    destruct body as [|x mid].
    { cbn in Ht. by injection Ht. }
    rewrite !append_cons in Ht. injection Ht as <- ->.
    exists pre, mid, post. split; [done|]. split; [done|]. split; [|done].
    by rewrite append_assoc.
  - split.
    + intros Hnone pre mid post ->. by apply (search_braces_some pre mid post).
    + intros Hno. destruct (Str.search_braces text) as [s|] eqn:Hs; [|done].
      exfalso. unfold Str.search_braces in Hs.
      destruct (Str.from_first_brace text) as [t|] eqn:Ht; [|done].
      apply from_first_brace_inv in Ht as (pre & r & -> & Hpre & ->).
      apply upto_last_brace_inv in Hs as (body & post & Ht & Hpost & ->).
      destruct body as [|x mid].
      { cbn in Ht. by injection Ht. }
      rewrite !append_cons in Ht. injection Ht as <- ->.
      apply (Hno pre mid post). by rewrite append_assoc.
  - intros Hnone. unfold _extract_json. by rewrite Hnone.
  - intros a b c Ha Hc ->.
    assert (a +:+ "{" +:+ "}" +:+ b +:+ "{" +:+ "}" +:+ c
            = a +:+ "{" +:+ ("}" +:+ b +:+ "{") +:+ "}" +:+ c) as ->.
    { do 2 f_equal. by rewrite !append_assoc. }
    rewrite (Hfound a ("}" +:+ b +:+ "{") c Ha Hc). do 2 f_equal.
    by rewrite !append_assoc.
Qed.

(** ** main.py: a day whose fetched items were all seen *)

Lemma trace_prefix_bind {A B} (m : M A) (k : A → M B) (w : world) (l : list event) :
  (∃ evs, trace (m w).2 = trace w ++ l ++ evs) →
  (∀ a w1, ∃ evs, trace (k a w1).2 = trace w1 ++ evs) →
  ∃ evs, trace ((m ≫= k) w).2 = trace w ++ l ++ evs.
Proof.
  intros (evs & Htr) Hk. unfold mbind, M_bind.
  destruct (m w) as [[a|e] w1]; cbn [snd] in *; [|by exists evs].
  destruct (Hk a w1) as (evs' & Htr'). exists (evs ++ evs').
  by rewrite Htr', Htr, <- !app_assoc.
Qed.

(** a stream whose first batch is not cached asks for it first *)
Lemma stream_first_call (J : codec) (E : env) (day : date) (p : Paper)
    (ps : list Paper) (existing : gmap Z json) (w : world) :
  existing !! 1 = None →
  ∃ evs,
    trace (summarize_papers_stream J E day (p :: ps) chunk_size existing
             (Some (save_response_chunk J day)) w).2
    = trace w ++ [EvChunkCall 1 (take chunk_size (p :: ps))] ++ evs.
Proof.
  intros Hmiss. unfold summarize_papers_stream.
  assert (_chunk (p :: ps) chunk_size
          = Ok (take chunk_size (p :: ps)
                  :: chunk_aux (length ps) chunk_size (drop chunk_size (p :: ps))))
    as Hchunk by done.
  rewrite (bind_ok _ _ w _ w) by (unfold lift; by rewrite Hchunk).
  cbn [stream_loop]. rewrite Hmiss.
  set (b := take chunk_size (p :: ps)).
  set (w1 := World (disk w) (trace w ++ [EvChunkCall 1 b])).
  rewrite (bind_ok _ _ w () w1) by done.
  match goal with |- ∃ evs, trace (?m w1).2 = _ =>
    assert (confined (λ _, True) (λ _, True) m w1) as [(evs & Htr & _) _]
  end.
  { apply confined_bind; [apply confined_lift|]. intros text w2 _.
    apply confined_bind; [by apply confined_atomic_write|]. intros _ w3 _.
    apply confined_bind; [apply confined_lift|]. intros payload w4 _.
    eapply confined_mono; [| |apply stream_loop_in_responses]; done. }
  exists evs. rewrite Htr. unfold w1. cbn [trace]. by rewrite <- app_assoc.
Qed.

(** the run of a day with stored items and no chunk summary: every stored
    item is taken as new, the state is written, and with a key the model is
    asked for the first batch *)
Lemma reprocessing_run_asks (J : codec) (E : env) (config : AppConfig) (day : date)
    (w : world) (st : state) (seen : gset string) (p : Paper) (ps : list Paper) :
  load_state J (disk w) = Ok st →
  build_seen_set st (retention_days config) (today E) = Ok seen →
  _load_papers_from_storage J (disk w) day = Ok (p :: ps) →
  load_summary_chunks J (disk w) day = Ok ∅ →
  configured (openai_api_key config) = true →
  ∃ evs,
    trace (_run_once J E config day w).2
    = trace w
      ++ [EvWrite state_path
            (dumps_indent J
               (state_to_json (update_state_with_papers st day (p :: ps) (utcnow E))));
          EvChunkCall 1 (take chunk_size (p :: ps))] ++ evs.
Proof.
  intros Hst Hseen Hstored Hchunks Hkey. unfold _run_once.
  apply trace_prefix_bind.
  2:{ intros [[papers summaries]|] w1.
      - destruct (_run_deliver_confined J E config day papers summaries w1)
          as [(evs & Htr & _) _]. by exists evs.
      - exists []. by rewrite app_nil_r. }
  unfold _run_chunks.
  rewrite (bind_ok _ _ w st w) by (by apply read_ok).
  rewrite (bind_ok _ _ w seen w) by (by rewrite Hseen).
  rewrite (bind_ok _ _ w (p :: ps) w) by (by apply read_ok).
  rewrite (bind_ok _ _ w _ w) by done.
  rewrite (bind_ok _ _ w (p :: ps) w) by done.
  rewrite (bind_ok _ _ w ∅ w) by (by apply read_ok).
  assert (select_new_papers (p :: ps) (p :: ps) (has_summary_for_date (disk w) day)
            ∅ seen = p :: ps) as ->.
  { unfold select_new_papers, reprocess. rewrite map_size_empty.
    pose proof (expected_chunks_pos (p :: ps) ltac:(done)) as Hexp.
    rewrite (proj2 (Z.ltb_lt 0 _)) by (cbn [Z.of_nat]; lia).
    by rewrite orb_true_r. }
  erewrite bind_ok by apply save_state_run.
  set (text := dumps_indent J (state_to_json _)).
  set (w1 := World _ _).
  rewrite Hkey. cbn [negb].
  change (trace w ++ [EvWrite state_path text; EvChunkCall 1 (take chunk_size (p :: ps))])
    with (trace w ++ [EvWrite state_path text]
                   ++ [EvChunkCall 1 (take chunk_size (p :: ps))]).
  assert (trace w ++ [EvWrite state_path text] = trace w1) as Htr1 by done.
  assert (∀ evs, trace w ++ ([EvWrite state_path text]
                            ++ [EvChunkCall 1 (take chunk_size (p :: ps))]) ++ evs
                 = trace w1 ++ [EvChunkCall 1 (take chunk_size (p :: ps))] ++ evs)
    as Hshift by (intros evs; rewrite <- Htr1; by rewrite <- !app_assoc).
  setoid_rewrite Hshift.
  apply trace_prefix_bind; [by apply stream_first_call|].
  intros pairs w2.
  match goal with |- ∃ evs, trace (?m w2).2 = _ =>
    assert (confined (λ _, True) (λ _, True) m w2) as [(evs & Htr & _) _]
  end; [|by exists evs].
  apply confined_bind; [|intros; apply confined_ret].
  apply confined_mapM. intros pr w3 _. rewrite lookup_empty.
  unfold save_summary_chunk. apply confined_bind; [apply confined_lift|].
  intros d w4 _. by apply confined_atomic_write.
Qed.

(** X15. A day whose fetched items are all in the seen set is skipped by the
    run that fetches it and summarized by the next one.  The first run asks
    the feed, writes the snapshot and the state, asks no model and returns.
    It leaves a stored snapshot without chunk summaries, so the next run
    takes every stored item as new, whatever the seen set holds, and with a
    key it writes the state and asks the model for the first batch of the
    stored items. *)
Theorem a_skipped_day_is_summarized_next (J : codec) (E E' : env) (config : AppConfig)
    (day : date) (w : world) (st : state) (seen : gset string)
    (fetched : list Paper) :
  1 ≤ day ≤ MAXORDINAL →
  (∀ d ids, seen_by_date st !! d = Some ids → 1 ≤ d ≤ MAXORDINAL) →
  load_state J (disk w) = Ok st →
  build_seen_set st (retention_days config) (today E) = Ok seen →
  fresh_day J (disk w) day →
  fetch_papers E (categories config) day = Ok fetched →
  fetched ≠ [] →
  Forall (λ p, paper_id p ∈ seen) fetched →
  Forall (line_reads_back J) fetched →
  reads_as_written J
    (state_to_json (update_state_with_papers st day [] (utcnow E))) →
  _run_once J E config day w
  = (Ok (),
     World (<[state_path :=
                dumps_indent J
                  (state_to_json (update_state_with_papers st day [] (utcnow E)))]>
              (delete (temp_path state_path)
                 (<[raw_path day := snapshot_text J fetched]>
                    (delete (temp_path (raw_path day)) (disk w)))))
           (trace w
            ++ [EvFetch (categories config) day;
                EvWrite (raw_path day) (snapshot_text J fetched);
                EvWrite state_path
                  (dumps_indent J
                     (state_to_json
                        (update_state_with_papers st day [] (utcnow E))))]))
  ∧ _load_papers_from_storage J (disk (_run_once J E config day w).2) day = Ok fetched
  ∧ load_summary_chunks J (disk (_run_once J E config day w).2) day = Ok ∅
  ∧ (∀ seen',
       select_new_papers fetched fetched
         (has_summary_for_date (disk (_run_once J E config day w).2) day) ∅ seen'
       = fetched)
  ∧ (configured (openai_api_key config) = true →
     1 ≤ today E' - retention_days config ≤ MAXORDINAL →
     ∃ text evs,
       trace (_run_once J E' config day (_run_once J E config day w).2).2
       = trace (_run_once J E config day w).2
         ++ [EvWrite state_path text; EvChunkCall 1 (take chunk_size fetched)] ++ evs).
Proof.
  intros Hday Hdays Hst Hseen [Hstored Hempty] Hfetch Hne Hall Hlines Hjson.
  set (st' := update_state_with_papers st day [] (utcnow E)) in *.
  set (text := dumps_indent J (state_to_json st')).
  set (w2 := World (<[raw_path day := snapshot_text J fetched]>
                      (delete (temp_path (raw_path day)) (disk w)))
                   ((trace w ++ [EvFetch (categories config) day])
                    ++ [EvWrite (raw_path day) (snapshot_text J fetched)])).
  set (w3 := World (<[state_path := text]> (delete (temp_path state_path) (disk w2)))
                   (trace w2 ++ [EvWrite state_path text])).
  assert (∀ n, is_chunk_name n → disk w2 !! (summaries_dir day, n) = None) as Hempty2.
  { intros n Hn. unfold w2. cbn [disk].
    pose proof (not_raw_summaries day day n) as Hnr.
    rewrite lookup_insert_ne by (intros H; apply Hnr; by rewrite <- H).
    rewrite lookup_delete_ne by (intros H; apply Hnr; by rewrite <- H).
    by apply Hempty. }
  assert (∀ n, is_chunk_name n → disk w3 !! (summaries_dir day, n) = None) as Hempty3.
  { intros n Hn. unfold w3. cbn [disk].
    rewrite lookup_insert_ne by done. rewrite lookup_delete_ne by done.
    by apply Hempty2. }
  assert (_run_chunks J E config day w = (Ok None, w3)) as Hchunks.
  { unfold _run_chunks.
    rewrite (bind_ok _ _ w st w) by (by apply read_ok).
    rewrite (bind_ok _ _ w seen w) by (by rewrite Hseen).
    rewrite (bind_ok _ _ w [] w) by (by apply read_ok).
    rewrite (bind_ok _ _ w _ w) by done.
    rewrite (bind_ok _ _ w fetched w2).
    2:{ erewrite bind_ok by done.
        erewrite bind_ok by (unfold lift; by rewrite Hfetch).
        erewrite bind_ok by apply save_raw_papers_run. done. }
    rewrite (bind_ok _ _ w2 ∅ w2)
      by (apply read_ok; by apply no_chunk_files_load).
    assert (select_new_papers [] fetched (has_summary_for_date (disk w) day) ∅ seen
            = []) as ->.
    { unfold select_new_papers, reprocess. by apply filter_all_seen. }
    erewrite bind_ok by apply save_state_run. done. }
  assert (_run_once J E config day w = (Ok (), w3)) as Hrun
    by (unfold _run_once; by rewrite (bind_ok _ _ w None w3 Hchunks)).
  rewrite Hrun. cbn [snd].
  assert (_load_papers_from_storage J (disk w3) day = Ok fetched) as Hstored3.
  { apply load_snapshot_text; [|done]. unfold w3, w2. cbn [disk].
    rewrite lookup_insert_ne by done. rewrite lookup_delete_ne by done.
    by rewrite lookup_insert_eq. }
  assert (load_summary_chunks J (disk w3) day = Ok ∅) as Hchunks3
    by (by apply no_chunk_files_load).
  split.
  { unfold w3, w2. cbn [disk trace]. by rewrite <- !app_assoc. }
  split; [done|]. split; [done|]. split.
  - intros seen'. unfold select_new_papers, reprocess.
    destruct fetched as [|p ps]; [done|]. rewrite map_size_empty.
    pose proof (expected_chunks_pos (p :: ps) ltac:(done)) as Hexp.
    rewrite (proj2 (Z.ltb_lt 0 _)) by (cbn [Z.of_nat]; lia).
    by rewrite orb_true_r.
  - intros Hkey Hwindow.
    destruct (build_seen_set_ok st' (retention_days config) (today E') Hwindow)
      as (seen' & Hseen').
    destruct fetched as [|p ps]; [done|].
    destruct (reprocessing_run_asks J E' config day w3 st' seen' p ps)
      as (evs & Htr); try done.
    { apply load_state_text; [by unfold w3; cbn [disk]; rewrite lookup_insert_eq|done|].
      intros d ids. unfold st', update_state_with_papers. cbn [seen_by_date].
      destruct (decide (day = d)) as [<-|Hned]; [by intros _|].
      rewrite lookup_insert_ne by done. apply Hdays. }
    by eexists _, evs.
Qed.

Lemma a_skipped_day_is_summarized_next_witness :
  ∃ text evs,
    trace (_run_once RefJson.J Ex.E Ex.config Ex.day
             (_run_once RefJson.J Ex.E Ex.config Ex.day
                (World (disk (save_state RefJson.J Ex.seen_state (World ∅ [])).2) [])).2).2
    = trace (_run_once RefJson.J Ex.E Ex.config Ex.day
               (World (disk (save_state RefJson.J Ex.seen_state (World ∅ [])).2) [])).2
      ++ [EvWrite state_path text; EvChunkCall 1 (take chunk_size [Ex.paper_n 0])] ++ evs.
Proof.
  set (w := World (disk (save_state RefJson.J Ex.seen_state (World ∅ [])).2) []).
  assert (1 ≤ Ex.day ≤ MAXORDINAL) as Hday by (unfold Ex.day, MAXORDINAL; lia).
  assert (∀ d ids, seen_by_date Ex.seen_state !! d = Some ids → 1 ≤ d ≤ MAXORDINAL)
    as Hdays.
  { intros d ids. unfold Ex.seen_state, update_state_with_papers. cbn [seen_by_date].
    destruct (decide (Ex.day = d)) as [<-|Hned]; [by intros _|].
    rewrite lookup_insert_ne by done. by rewrite lookup_empty. }
  assert (load_state RefJson.J (disk w) = Ok Ex.seen_state) as Hst.
  { apply load_state_text; [done|vm_compute; reflexivity|done]. }
  destruct (recorded_then_seen Ex.seen_state (retention_days Ex.config) (today Ex.E)
              Ex.day [Ex.paper_n 0] EmptyString) as (seen & Hseen & Hall).
  { vm_compute. split; discriminate. }
  { vm_compute. discriminate. }
  { intros p Hp%list_elem_of_singleton. subst p. apply seen_state_records.
    unfold Ex.papers. apply (list_elem_of_fmap_2 Ex.paper_n (seq 0 45) 0%nat).
    apply elem_of_seq. lia. }
  assert (fresh_day RefJson.J (disk w) Ex.day) as Hfresh.
  { split; [vm_compute; reflexivity|]. intros n _. unfold w.
    rewrite save_state_run. cbn [snd disk].
    rewrite lookup_insert_ne by done. rewrite lookup_delete_ne by done.
    apply lookup_empty. }
  assert (fetch_papers Ex.E (categories Ex.config) Ex.day = Ok [Ex.paper_n 0]) as Hfetch
    by reflexivity.
  assert ([Ex.paper_n 0] ≠ []) as Hne by done.
  assert (Forall (line_reads_back RefJson.J) [Ex.paper_n 0]) as Hlines
    by (repeat constructor; vm_compute; reflexivity).
  assert (reads_as_written RefJson.J
            (state_to_json
               (update_state_with_papers Ex.seen_state Ex.day [] (utcnow Ex.E))))
    as Hjson by (vm_compute; reflexivity).
  assert (configured (openai_api_key Ex.config) = true) as Hkey by reflexivity.
  assert (1 ≤ today Ex.E - retention_days Ex.config ≤ MAXORDINAL) as Hwindow
    by (vm_compute; split; discriminate).
  exact (proj2 (proj2 (proj2 (proj2
           (a_skipped_day_is_summarized_next RefJson.J Ex.E Ex.E Ex.config Ex.day w
              Ex.seen_state seen [Ex.paper_n 0]
              Hday Hdays Hst Hseen Hfresh Hfetch Hne Hall Hlines Hjson))))
           Hkey Hwindow).
Defined.

(** ** main.py: the mail is the last action of a run *)

Lemma stream_sends_no_mail (J : codec) (E : env) (day : date) (papers : list Paper)
    (size : nat) (existing : gmap Z json) (w : world) :
  confined (λ e, is_email e = false) (λ _, True)
    (summarize_papers_stream J E day papers size existing
       (Some (save_response_chunk J day))) w.
Proof.
  unfold summarize_papers_stream. destruct papers; [apply confined_ret|].
  apply confined_bind; [apply confined_lift|]. intros chunks w1 _.
  generalize (@nil (Z * json)) 1. revert w1.
  induction chunks as [|chunk chunks IH]; intros w1 outputs idx.
  - apply confined_ret.
  - cbn [stream_loop]. destruct (existing !! idx); [apply IH|].
    apply confined_bind; [by apply confined_emit|]. intros _ w2 _.
    apply confined_bind; [apply confined_lift|]. intros text w3 _.
    apply confined_bind; [by apply confined_atomic_write|]. intros _ w4 _.
    apply confined_bind; [apply confined_lift|]. intros payload w5 _.
    apply IH.
Qed.

Lemma run_chunks_sends_no_mail (J : codec) (E : env) (config : AppConfig) (day : date)
    (w : world) :
  confined (λ e, is_email e = false) (λ _, True) (_run_chunks J E config day) w.
Proof.
  unfold _run_chunks.
  apply confined_bind; [by apply confined_unchanged, read_unchanged|]. intros st w1 _.
  apply confined_bind; [apply confined_lift|]. intros seen w2 _.
  apply confined_bind; [by apply confined_unchanged, read_unchanged|].
  intros stored w3 _.
  apply confined_bind; [apply confined_reading|]. intros has w4 _.
  apply confined_bind.
  - destruct stored; [|apply confined_ret].
    apply confined_bind; [by apply confined_emit|]. intros _ w5 _.
    apply confined_bind; [apply confined_lift|]. intros papers w6 _.
    apply confined_bind; [|intros; apply confined_ret].
    unfold save_raw_papers. by apply confined_atomic_write.
  - intros papers w5 _.
    apply confined_bind; [by apply confined_unchanged, read_unchanged|].
    intros existing w6 _.
    apply confined_bind; [by apply confined_atomic_write|]. intros _ w7 _.
    destruct (select_new_papers _ _ _ _ _);
      [destruct (bool_decide _); apply confined_ret|].
    destruct (negb _); [apply confined_ret|].
    apply confined_bind.
    { apply stream_sends_no_mail. }
    intros pairs w8 _. apply confined_bind; [|intros; apply confined_ret].
    apply confined_mapM. intros pr w9 _.
    destruct (existing !! pr.1); [apply confined_ret|].
    unfold save_summary_chunk. apply confined_bind; [apply confined_lift|].
    intros d w10 _. by apply confined_atomic_write.
Qed.

(** the delivery: what comes before the mail is no mail, and the mail, if
    any, is one call that ends the run with its result and leaves the disk
    as it is *)
Lemma deliver_mails_last (J : codec) (E : env) (config : AppConfig) (day : date)
    (papers : list Paper) (summaries : list json) (w : world) :
  ∃ evs mail,
    trace (_run_deliver J E config day papers summaries w).2 = trace w ++ evs ++ mail
    ∧ Forall (λ e, is_email e = false) evs
    ∧ (mail = []
       ∨ ∃ overall,
           smtp_ready config = true
           ∧ mail = [EvEmail summaries overall (category_counts papers)]
           ∧ (_run_deliver J E config day papers summaries w).1
             = send_email E day summaries overall (category_counts papers)).
Proof.
  unfold _run_deliver. fold (smtp_ready config).
  destruct (load_overall_summary J (disk w) day) as [loaded|e] eqn:Hload.
  2:{ rewrite (bind_raise _ _ w e w) by (by apply read_raise).
      exists [], []. rewrite !app_nil_r. split; [done|]. split; [done|]. by left. }
  rewrite (bind_ok _ _ w loaded w) by (by apply read_ok).
  match goal with |- context [(?m ≫= _) w] =>
    assert (confined (λ e, is_email e = false) (λ _, True) m w) as [(evs & Htr & Hev) _];
    [|destruct (m w) as [[overall|e] w2] eqn:Hm]
  end.
  { destruct (match loaded with Some v => Py.truthy v | None => false end);
      [apply confined_ret|].
    destruct (negb (configured (openai_api_key config))); [apply confined_ret|].
    apply confined_bind.
    - unfold summarize_overall. destruct summaries; [apply confined_ret|].
      apply confined_bind; [by apply confined_emit|]. intros _ w2 _.
      apply confined_bind; [apply confined_lift|]. intros text w3 _.
      apply confined_bind; [|intros; apply confined_lift].
      by apply confined_atomic_write.
    - intros o w2 _. apply confined_bind; [|intros; apply confined_ret].
      by apply confined_atomic_write. }
  2:{ rewrite (bind_raise _ _ w e w2 Hm). cbn [snd] in *.
      exists evs, []. rewrite app_nil_r. split; [done|]. split; [done|]. by left. }
  rewrite (bind_ok _ _ w overall w2 Hm). cbn [snd] in Htr.
  destruct (smtp_ready config) eqn:Hready.
  - exists evs, [EvEmail summaries overall (category_counts papers)].
    cbv zeta. unfold mbind, M_bind, emit, lift. cbn [snd fst trace].
    split; [by rewrite Htr, <- app_assoc|]. split; [done|].
    right. by exists overall.
  - exists evs, []. rewrite app_nil_r. split; [done|]. split; [done|]. by left.
Qed.

(** X16. A run calls [send_email] at most once, as its last action, and only
    when host, user, password and recipients are all set: whatever else the
    run does comes before the call, the call is made with the summaries the
    chunk stage handed on, the overall summary and the tally of the
    categories of the day's items, and what the call returns or raises is
    what the run returns or raises. A run that stops early, or raises
    before, calls it not at all. *)
Theorem the_mail_is_the_last_action (J : codec) (E : env) (config : AppConfig)
    (day : date) (w : world) :
  ∃ evs mail,
    trace (_run_once J E config day w).2 = trace w ++ evs ++ mail
    ∧ Forall (λ e, is_email e = false) evs
    ∧ (mail = []
       ∨ ∃ papers summaries overall,
           smtp_ready config = true
           ∧ (_run_chunks J E config day w).1 = Ok (Some (papers, summaries))
           ∧ mail = [EvEmail summaries overall (category_counts papers)]
           ∧ (_run_once J E config day w).1
             = send_email E day summaries overall (category_counts papers)).
Proof.
  unfold _run_once.
  destruct (run_chunks_sends_no_mail J E config day w) as [(evs1 & Htr1 & Hev1) _].
  destruct (_run_chunks J E config day w) as [[[[papers summaries]|]|e] w1] eqn:Hc;
    cbn [snd fst] in *.
  - rewrite (bind_ok _ _ w _ w1 Hc).
    destruct (deliver_mails_last J E config day papers summaries w1)
      as (evs2 & mail & Htr2 & Hev2 & Hmail).
    exists (evs1 ++ evs2), mail. split; [|split].
    + by rewrite Htr2, Htr1, <- !app_assoc.
    + by apply Forall_app.
    + destruct Hmail as [->|(overall & Hready & -> & Hres)]; [by left|].
      right. by exists papers, summaries, overall.
  - rewrite (bind_ok _ _ w _ w1 Hc). exists evs1, []. rewrite app_nil_r.
    split; [done|]. split; [done|]. by left.
  - rewrite (bind_raise _ _ w _ w1 Hc). exists evs1, []. rewrite app_nil_r.
    split; [done|]. split; [done|]. by left.
Qed.

(** ** main.py: the chunk stage, step by step *)

(** the world in which the chunk stage has chosen the papers of the day:
    the world it started in when the stored snapshot has items, else that
    world after the call of the feed and the write of the snapshot *)
Lemma run_chunks_prelude (J : codec) (E : env) (config : AppConfig) (day : date)
    (w : world) (st : state) (seen : gset string) (stored papers : list Paper)
    (existing : gmap Z json) :
  load_state J (disk w) = Ok st →
  build_seen_set st (retention_days config) (today E) = Ok seen →
  _load_papers_from_storage J (disk w) day = Ok stored →
  (stored = [] → fetch_papers E (categories config) day = Ok papers) →
  (stored ≠ [] → papers = stored) →
  load_summary_chunks J (disk w) day = Ok existing →
  _run_chunks J E config day w
  = chunk_stage_tail J E config day papers existing
      (select_new_papers stored papers (has_summary_for_date (disk w) day)
         existing seen)
      (after_state J E day st
         (select_new_papers stored papers (has_summary_for_date (disk w) day)
            existing seen)
         (after_papers_chosen J config day stored papers w)).
Proof.
  intros Hst Hseen Hstored Hfetch Hsame Hchunks.
  unfold _run_chunks, chunk_stage_tail, after_state.
  rewrite (bind_ok _ _ w st w) by (by apply read_ok).
  rewrite (bind_ok _ _ w seen w) by (by rewrite Hseen).
  rewrite (bind_ok _ _ w stored w) by (by apply read_ok).
  rewrite (bind_ok _ _ w _ w) by done.
  set (w2 := after_papers_chosen J config day stored papers w).
  rewrite (bind_ok _ _ w papers w2).
  2:{ unfold w2, after_papers_chosen. destruct stored as [|p ps].
      - erewrite bind_ok by done.
        erewrite bind_ok by (unfold lift; by rewrite Hfetch).
        erewrite bind_ok by apply save_raw_papers_run.
        cbn [disk trace]. by rewrite <- app_assoc.
      - by rewrite (Hsame ltac:(done)). }
  assert (load_summary_chunks J (disk w2) day = Ok existing) as Hchunks2.
  { rewrite <- Hchunks. apply load_summary_chunks_ext. intros n _.
    unfold w2, after_papers_chosen. destruct stored; [|done]. cbn [disk].
    pose proof (not_raw_summaries day day n) as Hnr.
    rewrite lookup_insert_ne by (intros H; apply Hnr; by rewrite <- H).
    by rewrite lookup_delete_ne by (intros H; apply Hnr; by rewrite <- H). }
  rewrite (bind_ok _ _ w2 existing w2) by (by apply read_ok).
  by erewrite bind_ok by apply save_state_run.
Qed.


(** ** C3: the items a run treats as new, and what it does with them *)



(** ** C7: parsing the model's output *)

Lemma search_braces_found (pre mid post : string) :
  has_char "{" pre = false → has_char "}" post = false →
  Str.search_braces (pre +:+ "{" +:+ mid +:+ "}" +:+ post)
  = Some ("{" +:+ mid +:+ "}").
Proof.
  intros Hpre Hpost. unfold Str.search_braces.
  change ("{" +:+ mid +:+ "}" +:+ post) with (String "{" (mid +:+ String "}" post)).
  rewrite from_first_brace_found by done.
  change (String "{" (mid +:+ String "}" post))
    with (String "{" mid +:+ String "}" post).
  by rewrite upto_last_brace_found.
Qed.

Lemma search_braces_absent (text : string) :
  (∀ pre mid post, text ≠ pre +:+ "{" +:+ mid +:+ "}" +:+ post) →
  Str.search_braces text = None.
Proof.
  intros Hno. destruct (Str.search_braces text) as [s|] eqn:Hs; [|done].
  exfalso. unfold Str.search_braces in Hs.
  destruct (Str.from_first_brace text) as [t|] eqn:Ht; [|done].
  apply from_first_brace_inv in Ht as (pre & r & -> & Hpre & ->).
  apply upto_last_brace_inv in Hs as (body & post & Ht & Hpost & ->).
  destruct body as [|x mid].
  { cbn in Ht. by injection Ht. }
  rewrite !append_cons in Ht. injection Ht as <- ->.
  apply (Hno pre mid post). by rewrite append_assoc.
Qed.

(** the batches of a stream that are in the cache are passed without a call *)
Lemma stream_loop_cached_prefix (J : codec) (E : env) (day : date)
    (existing : gmap Z json) (cb : option (Z → string → M unit))
    (before tail : list (list Paper)) :
  ∀ idx outputs w,
    (∀ j, idx ≤ j < idx + Z.of_nat (length before) → is_Some (existing !! j)) →
    ∃ outs,
      stream_loop J E day existing cb idx (before ++ tail) outputs w
      = stream_loop J E day existing cb (idx + Z.of_nat (length before)) tail outs w.
Proof.
  induction before as [|b before IH]; intros idx outputs w Hcached.
  - exists outputs. cbn [app length Z.of_nat]. by rewrite Z.add_0_r.
  - cbn [app stream_loop]. destruct (Hcached idx) as [c ->]; [cbn [length]; lia|].
    destruct (IH (idx + 1) (outputs ++ [(idx, c)]) w) as (outs & Heq).
    { intros j Hj. apply Hcached. cbn [length]. lia. }
    exists outs. rewrite Heq. f_equal. cbn [length]. lia.
Qed.

(** a batch whose answer has no payload stops the stream *)
Lemma stream_loop_step_raise (J : codec) (E : env) (day : date)
    (existing : gmap Z json) (idx : Z) (chunk : list Paper)
    (rest : list (list Paper)) (outputs : list (Z * json)) (w : world)
    (text : string) (e : exn) :
  existing !! idx = None →
  chunk_model E day chunk = Ok text →
  parse_output J text = Raise e →
  stream_loop J E day existing (Some (save_response_chunk J day)) idx (chunk :: rest)
    outputs w
  = (Raise e,
     World (<[response_path day idx := dumps_indent J (JStr text)]>
              (delete (temp_path (response_path day idx)) (disk w)))
           (trace w ++ [EvChunkCall idx chunk;
                        EvWrite (response_path day idx) (dumps_indent J (JStr text))])).
Proof.
  intros Hmiss Hcall Hparse. cbn [stream_loop]. rewrite Hmiss.
  erewrite bind_ok by done.
  erewrite bind_ok by (unfold lift; by rewrite Hcall).
  erewrite bind_ok by apply save_response_chunk_run.
  erewrite bind_raise by (unfold lift; by rewrite Hparse).
  cbn [disk trace]. by rewrite <- app_assoc.
Qed.

(** C7. The text of the model is the payload of the batch when it is a
    JSON document; otherwise the text from its first opening brace to its
    last closing brace is read instead: for a text [pre{mid}post] with no
    opening brace in [pre] and no closing one in [post] the payload is the
    document [{mid}], and a text without such a span, or whose span is no
    document, has no payload. The batch fails exactly when both readings
    fail, and then the stream, called as the run calls it, stops there with
    the exception, the raw response written and nothing after it; the run
    raises that exception, its last actions being the call and the write of
    the response, with no chunk summary written. *)
Theorem parse_then_extract_then_fail
    (J : codec) (E : env) (day : date) (existing : gmap Z json)
    (idx : Z) (chunk : list Paper) (rest : list (list Paper))
    (outputs : list (Z * json)) (w : world) (text : string) :
  existing !! idx = None →
  chunk_model E day chunk = Ok text →
  (∀ v, loads J text = Some v → parse_output J text = Ok v)
  ∧ (loads J text = None →
     parse_output J text
     = match Str.search_braces text with
       | None => Raise ValueError
       | Some s => match loads J s with
                   | Some v => Ok v
                   | None => Raise JSONDecodeError
                   end
       end)
  ∧ (is_ok (parse_output J text) = false
     ↔ loads J text = None ∧ is_ok (_extract_json J text) = false)
  ∧ (let w1 :=
       World (<[response_path day idx := dumps_indent J (JStr text)]>
                (delete (temp_path (response_path day idx)) (disk w)))
             (trace w ++ [EvChunkCall idx chunk;
                          EvWrite (response_path day idx)
                            (dumps_indent J (JStr text))]) in
     stream_loop J E day existing (Some (save_response_chunk J day))
       idx (chunk :: rest) outputs w
     = match parse_output J text with
       | Ok payload =>
           stream_loop J E day existing (Some (save_response_chunk J day))
             (idx + 1) rest (outputs ++ [(idx, payload)]) w1
       | Raise e => (Raise e, w1)
       end)
  ∧ (∀ config e w0 w',
       _run_chunks J E config day w0 = (Raise e, w') →
       _run_once J E config day w0 = (Raise e, w'))
  ∧ (∀ pre mid post,
       has_char "{" pre = false → has_char "}" post = false →
       text = pre +:+ "{" +:+ mid +:+ "}" +:+ post →
       loads J text = None →
       parse_output J text
       = match loads J ("{" +:+ mid +:+ "}") with
         | Some v => Ok v
         | None => Raise JSONDecodeError
         end)
  ∧ ((∀ pre mid post, text ≠ pre +:+ "{" +:+ mid +:+ "}" +:+ post) →
     loads J text = None → parse_output J text = Raise ValueError)
  ∧ (∀ config w0 st seen stored papers before e,
       load_state J (disk w0) = Ok st →
       build_seen_set st (retention_days config) (today E) = Ok seen →
       _load_papers_from_storage J (disk w0) day = Ok stored →
       (stored = [] → fetch_papers E (categories config) day = Ok papers) →
       (stored ≠ [] → papers = stored) →
       load_summary_chunks J (disk w0) day = Ok existing →
       configured (openai_api_key config) = true →
       _chunk (select_new_papers stored papers (has_summary_for_date (disk w0) day)
                 existing seen) chunk_size
       = Ok (before ++ chunk :: rest) →
       idx = 1 + Z.of_nat (length before) →
       (∀ j, 1 ≤ j < idx → is_Some (existing !! j)) →
       parse_output J text = Raise e →
       ∃ w' evs,
         _run_once J E config day w0 = (Raise e, w')
         ∧ trace w'
           = trace w0 ++ evs
             ++ [EvChunkCall idx chunk;
                 EvWrite (response_path day idx) (dumps_indent J (JStr text))]
         ∧ Forall (λ ev, is_chunk_call ev = false) evs
         ∧ ∀ n, disk w' !! (summaries_dir day, n) = disk w0 !! (summaries_dir day, n)).
Proof.
  intros Hmiss Hcall. split; [|split; [|split; [|split; [|split; [|split; [|split]]]]]].
  - intros v Hv. unfold parse_output. by rewrite Hv.
  - intros Hn. unfold parse_output, _extract_json. by rewrite Hn.
  - unfold parse_output. destruct (loads J text); simpl; split.
    + done.
    + by intros [? _].
    + done.
    + by intros [_ ?].
  - cbv zeta. cbn [stream_loop]. rewrite Hmiss.
    unfold mbind at 1, M_bind at 1, emit.
    unfold mbind at 1, M_bind at 1, lift. rewrite Hcall.
    unfold mbind at 1, M_bind at 1. rewrite save_response_chunk_run. cbn [disk trace].
    rewrite <- app_assoc. cbn [app].
    unfold mbind at 1, M_bind at 1.
    by destruct (parse_output J text).
  - intros config e w0 w' Hrun. unfold _run_once.
    by rewrite (bind_raise _ _ _ _ _ Hrun).
  - intros pre mid post Hpre Hpost -> Hdirect. unfold parse_output, _extract_json.
    by rewrite Hdirect, search_braces_found.
  - intros Hno Hdirect. unfold parse_output, _extract_json.
    by rewrite Hdirect, (search_braces_absent text Hno).
  - intros config w0 st seen stored papers before e Hst Hseen Hstored Hfetch Hsame
      Hchunks Hkey Hbatches -> Hcached Hparse.
    pose proof (run_chunks_prelude J E config day w0 st seen stored papers existing
                  Hst Hseen Hstored Hfetch Hsame Hchunks) as Hrun.
    set (new_papers := select_new_papers _ _ _ _ _) in *.
    set (w3 := after_state J E day st new_papers
                 (after_papers_chosen J config day stored papers w0)) in *.
    destruct (stream_loop_cached_prefix J E day existing
                (Some (save_response_chunk J day)) before (chunk :: rest) 1 [] w3)
      as (outs & Hprefix).
    { intros j Hj. apply Hcached. lia. }
    set (w4 := World (<[response_path day (1 + Z.of_nat (length before)) :=
                          dumps_indent J (JStr text)]>
                        (delete (temp_path (response_path day
                                              (1 + Z.of_nat (length before))))
                           (disk w3)))
                     (trace w3
                      ++ [EvChunkCall (1 + Z.of_nat (length before)) chunk;
                          EvWrite (response_path day (1 + Z.of_nat (length before)))
                            (dumps_indent J (JStr text))])).
    assert (_run_chunks J E config day w0 = (Raise e, w4)) as Hraise.
    { rewrite Hrun. unfold chunk_stage_tail.
      destruct new_papers as [|p ps]; [by destruct before|].
      rewrite Hkey. cbn [negb].
      apply bind_raise. unfold summarize_papers_stream.
      rewrite (bind_ok _ _ w3 _ w3) by (unfold lift; by rewrite Hbatches).
      rewrite Hprefix.
      by apply stream_loop_step_raise. }
    exists w4. unfold _run_once. rewrite (bind_raise _ _ _ _ _ Hraise).
    exists (match stored with
            | [] => [EvFetch (categories config) day;
                     EvWrite (raw_path day) (snapshot_text J papers)]
            | _ => []
            end
            ++ [EvWrite state_path
                  (dumps_indent J
                     (state_to_json
                        (update_state_with_papers st day new_papers (utcnow E))))]).
    split; [done|]. split; [|split].
    + unfold w4, w3, after_state, after_papers_chosen. cbn [trace].
      destruct stored; cbn [trace app]; by rewrite <- ?app_assoc.
    + destruct stored; by repeat constructor.
    + intros n. unfold w4, w3, after_state, after_papers_chosen. cbn [disk].
      pose proof (not_raw_summaries day day n) as Hnr.
      rewrite lookup_insert_ne
        by (intros H; by apply (summaries_not_responses day n); rewrite <- H).
      rewrite lookup_delete_ne
        by (intros H; by apply (summaries_not_responses day n); rewrite <- H).
      rewrite lookup_insert_ne by done. rewrite lookup_delete_ne by done.
      destruct stored; [|done]. cbn [disk].
      rewrite lookup_insert_ne by (intros H; apply Hnr; by rewrite <- H).
      by rewrite lookup_delete_ne by (intros H; apply Hnr; by rewrite <- H).
Qed.

Lemma parse_then_extract_then_fail_witness :
  let text := Ex.answer [Ex.paper_n 0] in
  loads RefJson.J text = None
  ∧ parse_output RefJson.J text
    = Ok (JObj [("summary", JStr "ok"); ("count", JInt 1)])
  ∧ (stream_loop RefJson.J Ex.E Ex.day ∅ (Some (save_response_chunk RefJson.J Ex.day))
       1 [[Ex.paper_n 0]] [] (World ∅ [])).1
    = Ok [(1, JObj [("summary", JStr "ok"); ("count", JInt 1)])].
Proof.
  cbv zeta.
  destruct (parse_then_extract_then_fail RefJson.J Ex.E Ex.day ∅ 1 [Ex.paper_n 0]
              [] [] (World ∅ []) (Ex.answer [Ex.paper_n 0])
              (lookup_empty 1) eq_refl) as (_ & Hextract & _ & Hloop & _).
  assert (loads RefJson.J (Ex.answer [Ex.paper_n 0]) = None) as Hdirect
    by (vm_compute; reflexivity).
  assert (parse_output RefJson.J (Ex.answer [Ex.paper_n 0])
          = Ok (JObj [("summary", JStr "ok"); ("count", JInt 1)])) as Hparse.
  { rewrite (Hextract Hdirect). vm_compute. reflexivity. }
  split; [exact Hdirect|]. split; [exact Hparse|].
  cbv zeta in Hloop. rewrite Hloop, Hparse. reflexivity.
Defined.

(** ** C9: the migration of the legacy layout *)

Lemma destination_target (src dst : path) :
  legacy_target src = Ok (Some dst) ↔ destination src dst.
Proof.
  split.
  - destruct src as [dir name]. unfold legacy_target. cbn [fst snd].
    repeat case_decide; subst; [| | | |done].
    + unfold raw_target. destruct (glob_papers name) eqn:Hglob; [|done].
      destruct (Str.search_date name) as [tok|] eqn:Htok; [|done].
      destruct (fromisoformat tok) as [day|] eqn:Hday; [|done].
      intros [= <-]. by eapply destination_raw.
    + unfold summary_target.
      destruct (Str.startswith name "summary_") eqn:Hpre; [|done].
      destruct (String.eqb_spec (suffix name) ".json") as [Hsuf|]; [|done].
      cbn [andb]. destruct (Str.search_date name) as [tok|] eqn:Htok; [|done].
      destruct (fromisoformat tok) as [day|] eqn:Hday; [|done].
      cbn. destruct (Str.contains name "overall") eqn:Hov.
      * intros [= <-]. by eapply destination_summary_overall.
      * destruct (Str.search_part name) as [digits|] eqn:Hpart; [|done].
        intros [= <-]. by eapply destination_summary_part.
    + unfold response_target.
      destruct (Str.startswith name "response_") eqn:Hpre; [|done].
      destruct (Str.search_date name) as [tok|] eqn:Htok; [|done].
      destruct (fromisoformat tok) as [day|] eqn:Hday; [|done].
      cbn. destruct (Str.contains name "overall") eqn:Hov.
      * intros [= <-]. by eapply destination_response_overall.
      * destruct (Str.search_part name) as [digits|] eqn:Hpart; [|done].
        intros [= <-]. by eapply destination_response_part.
    + unfold prompt_target.
      destruct (Str.startswith name "prompt_") eqn:Hpre; [|done].
      destruct (Str.search_date name) as [tok|] eqn:Htok; [|done].
      destruct (fromisoformat tok) as [day|] eqn:Hday; [|done].
      cbn. destruct (Str.search_part name) as [digits|] eqn:Hpart; [|done].
      intros [= <-]. by eapply destination_prompt_part.
  - intros Hdest. unfold legacy_target.
    destruct Hdest; cbn [fst snd];
      repeat (case_decide; [try discriminate|]); try done.
    + unfold raw_target. by rewrite H, H0, H1.
    + unfold summary_target. rewrite H, H0, H1, H2. cbn. by rewrite H3.
    + unfold summary_target. rewrite H, H0, H1, H2. cbn. by rewrite H3, H4.
    + unfold response_target. rewrite H, H0, H1. cbn. by rewrite H2.
    + unfold response_target. rewrite H, H0, H1. cbn. by rewrite H2, H3.
    + unfold prompt_target. rewrite H, H0, H1. cbn. by rewrite H2.
Qed.

(** a legacy file whose date token, if it has one, is a calendar date has a
    destination or none: the loops do not raise on it *)
Lemma calendar_token_target (src : path) :
  (∀ tok, Str.search_date src.2 = Some tok → is_ok (fromisoformat tok) = true) →
  is_ok (legacy_target src) = true.
Proof.
  intros Htok. destruct src as [dir name]. cbn [snd] in Htok.
  unfold legacy_target. cbn [fst snd].
  assert (∀ A (k : date → result A) tok,
            Str.search_date name = Some tok →
            (∀ day, is_ok (k day) = true) →
            is_ok (fromisoformat tok ≫= k) = true) as Hbind.
  { intros A k tok Hs Hk. specialize (Htok tok Hs).
    destruct (fromisoformat tok) as [day|]; [apply Hk|done]. }
  repeat case_decide; subst; [| | | |done].
  - unfold raw_target. destruct (glob_papers name); [|done].
    destruct (Str.search_date name) as [tok|] eqn:Hs; [|done]. by apply Hbind.
  - unfold summary_target. destruct (_ && _); [|done].
    destruct (Str.search_date name) as [tok|] eqn:Hs; [|done]. apply Hbind; [done|].
    intros day. cbv zeta. destruct (Str.contains name "overall"); [done|].
    by destruct (Str.search_part name).
  - unfold response_target. destruct (Str.startswith _ _); [|done].
    destruct (Str.search_date name) as [tok|] eqn:Hs; [|done]. apply Hbind; [done|].
    intros day. cbv zeta. destruct (Str.contains name "overall"); [done|].
    by destruct (Str.search_part name).
  - unfold prompt_target. destruct (Str.startswith _ _); [|done].
    destruct (Str.search_date name) as [tok|] eqn:Hs; [|done]. apply Hbind; [done|].
    intros day. by destruct (Str.search_part name).
Qed.

(** the text of a calendar day: four digits, two digits and two digits,
    with hyphens between them *)
Lemma isoformat_shape (d : date) :
  1 ≤ d ≤ MAXORDINAL →
  ∃ y1 y2 y3 y4 m1 m2 d1 d2,
    isoformat d
    = String y1 (String y2 (String y3 (String y4 (String "-"
        (String m1 (String m2 (String "-" (String d1 (String d2 EmptyString)))))))))
    ∧ Str.is_digit y1 = true ∧ Str.is_digit y2 = true ∧ Str.is_digit y3 = true
    ∧ Str.is_digit y4 = true ∧ Str.is_digit m1 = true ∧ Str.is_digit m2 = true
    ∧ Str.is_digit d1 = true ∧ Str.is_digit d2 = true.
Proof.
  intros Hd. destruct (_ord2ymd_spec d Hd) as (y & m & dd & Hymd & Hy & Hm & Hdd & Hord).
  unfold isoformat. rewrite Hymd.
  pose proof (_days_in_month_le y m Hm) as H31.
  destruct (year_text y Hy) as (y1 & y2 & y3 & y4 & -> & ? & ? & ? & ? & Hyv).
  destruct (day_text m ltac:(lia)) as (m1 & m2 & -> & ? & ? & Hmv).
  destruct (day_text dd ltac:(lia)) as (d1 & d2 & -> & ? & ? & Hdv).
  by exists y1, y2, y3, y4, m1, m2, d1, d2.
Qed.

Lemma search_date_skip (a : ascii) (t : string) :
  Str.is_digit a = false → Str.search_date (String a t) = Str.search_date t.
Proof.
  intros Ha. cbn [Str.search_date].
  assert (Str.date_shape (String a t) = false) as ->; [|done].
  unfold Str.date_shape.
  destruct t as [|? [|? [|? [|? [|? [|? [|? [|? [|? ?]]]]]]]]]; try done.
  by rewrite Ha.
Qed.

Lemma search_date_here (s : string) :
  Str.date_shape s = true → Str.search_date s = Some (substring 0 10 s).
Proof. intros Hs. destruct s; cbn [Str.search_date]; by rewrite Hs. Qed.

(** the legacy snapshot of a calendar day has the snapshot of that day as
    its destination *)
Lemma destination_of_papers (day : date) :
  1 ≤ day ≤ MAXORDINAL →
  destination (["raw"], "papers_" +:+ isoformat day +:+ ".jsonl") (raw_path day).
Proof.
  intros Hday. pose proof (fromisoformat_isoformat day Hday) as Hback.
  destruct (isoformat_shape day Hday)
    as (y1 & y2 & y3 & y4 & m1 & m2 & d1 & d2 & Htext & Hy1 & Hy2 & Hy3 & Hy4
        & Hm1 & Hm2 & Hd1 & Hd2).
  apply (destination_raw _ (isoformat day) day); [| |done].
  - rewrite Htext. vm_compute. reflexivity.
  - rewrite Htext. cbv [append].
    do 7 (rewrite search_date_skip by reflexivity).
    rewrite search_date_here; [done|].
    unfold Str.date_shape. rewrite Hy1, Hy2, Hy3, Hy4, Hm1, Hm2, Hd1, Hd2.
    reflexivity.
Qed.

(** C9, as the code has it. On a disk on which the date token of every
    file name in the four flat directories is a calendar date the migration
    returns. It has moved each
    file of its list from a legacy directory to its destination, the
    day-partitioned location of the same kind and part under the day of the
    token, where no file was; the files that were in a day directory are as
    they were; every legacy file left behind that has a destination finds it
    taken; and a second migration of the resulting disk moves nothing. The
    legacy snapshot of any calendar day has the snapshot of that day as its
    destination; [papers_2024-01-05.jsonl] lands at
    [2024-01-05/raw/papers.jsonl], and one file of each kind lands at the
    file of its kind. *)
Theorem legacy_migration_moves_once (w : world) :
  (∀ dir name tok,
     dir ∈ [["raw"]; ["summaries"]; ["responses"]; ["prompts"]] →
     is_Some (disk w !! (dir, name)) → Str.search_date name = Some tok →
     is_ok (fromisoformat tok) = true) →
  (∃ moved w',
     migrate_legacy_data w = (Ok moved, w')
     ∧ trace w' = trace w
     ∧ relocates (disk w) (disk w') moved
     ∧ (∀ src dst : path, (src, dst) ∈ moved → destination src dst)
     ∧ (∀ src dst : path,
          is_Some (disk w' !! src) → destination src dst → is_Some (disk w' !! dst))
     ∧ migrate_legacy_data w' = (Ok [], w'))
  ∧ (∀ day, 1 ≤ day ≤ MAXORDINAL →
       destination (["raw"], "papers_" +:+ isoformat day +:+ ".jsonl") (raw_path day))
  ∧ (∀ text tr,
       migrate_legacy_data (World (Ex.legacy_raw text) tr)
       = (Ok [((["raw"], "papers_2024-01-05.jsonl"),
               (["2024-01-05"; "raw"], "papers.jsonl"))],
          World (Ex.migrated_raw text) tr))
  ∧ (∀ tr,
       migrate_legacy_data (World legacy_kinds tr)
       = (Ok [((["raw"], "papers_2024-01-05.jsonl"),
               (["2024-01-05"; "raw"], "papers.jsonl"));
              ((["summaries"], "summary_2024-01-05_overall.json"),
               (["2024-01-05"; "summaries"], "summary_overall.json"));
              ((["summaries"], "summary_2024-01-05_part03.json"),
               (["2024-01-05"; "summaries"], "summary_part03.json"));
              ((["responses"], "response_2024-01-05_part03.txt"),
               (["2024-01-05"; "responses"], "response_part03.txt"));
              ((["prompts"], "prompt_2024-01-05_part03.txt"),
               (["2024-01-05"; "prompts"], "prompt_part03.txt"))],
          World migrated_kinds tr)).
Proof.
  intros Hdates. split; [|split; [|split]].
  - destruct (migration_by_target w)
      as (moved & w' & Hrun & Htr & Hrel & Hmoved & Hleft & Hagain).
    { intros [dir name] Hsrc.
      destruct (decide (dir ∈ [["raw"]; ["summaries"]; ["responses"]; ["prompts"]]))
        as [Hdir|Hdir].
      - apply calendar_token_target. cbn [snd].
        intros tok. by apply (Hdates dir name tok).
      - unfold legacy_target. cbn [fst snd].
        repeat case_decide; subst; try done; exfalso; apply Hdir; set_solver. }
    exists moved, w'. split; [done|]. split; [done|]. split; [done|].
    split; [|split; [|done]].
    + intros src dst Hin. by apply destination_target, Hmoved.
    + intros src dst Hsrc Hdest. apply (Hleft src dst Hsrc).
      by apply destination_target.
  - apply destination_of_papers.
  - intros text tr. by vm_compute.
  - intros tr. by vm_compute.
Qed.

Lemma legacy_migration_moves_once_witness :
  migrate_legacy_data (World (Ex.legacy_raw "{}") [])
  = (Ok [((["raw"], "papers_2024-01-05.jsonl"),
          (["2024-01-05"; "raw"], "papers.jsonl"))],
     World (Ex.migrated_raw "{}") [])
  ∧ relocates (Ex.legacy_raw "{}") (Ex.migrated_raw "{}")
      [((["raw"], "papers_2024-01-05.jsonl"),
        (["2024-01-05"; "raw"], "papers.jsonl"))]
  ∧ migrate_legacy_data (World (Ex.migrated_raw "{}") [])
    = (Ok [], World (Ex.migrated_raw "{}") []).
Proof.
  assert (∀ dir name tok,
            dir ∈ [["raw"]; ["summaries"]; ["responses"]; ["prompts"]] →
            is_Some (Ex.legacy_raw "{}" !! (dir, name)) →
            Str.search_date name = Some tok →
            is_ok (fromisoformat tok) = true) as Hdates.
  { intros dir name tok _ [text Hsrc] Htok. unfold Ex.legacy_raw in Hsrc.
    apply lookup_singleton_Some in Hsrc as [[= <- <-] _].
    vm_compute in Htok. by injection Htok as <-. }
  destruct (legacy_migration_moves_once (World (Ex.legacy_raw "{}") []) Hdates)
    as ((moved & w' & Hrun & _ & Hmoves & _ & _ & Hagain) & _ & Hraw & _).
  rewrite (Hraw "{}" []) in Hrun. injection Hrun as <- <-.
  split; [apply Hraw|]. split; [exact Hmoves | exact Hagain].
Defined.

(** a name whose token matches the pattern and is no calendar date: the
    migration raises, moves nothing, and does so again when called again *)
Lemma migration_raises_on_a_non_date :
  is_Some (legacy_non_date !! (["raw"], "papers_2024-13-45.jsonl"))
  ∧ Str.search_date "papers_2024-13-45.jsonl" = Some "2024-13-45"
  ∧ migrate_legacy_data (World legacy_non_date [])
    = (Raise ValueError, World legacy_non_date [])
  ∧ ¬ ∃ moved w', migrate_legacy_data (World legacy_non_date []) = (Ok moved, w').
Proof.
  assert (migrate_legacy_data (World legacy_non_date [])
          = (Raise ValueError, World legacy_non_date [])) as Hrun
    by (vm_compute; reflexivity).
  split; [by eexists|]. split; [by vm_compute|]. split; [done|].
  intros (moved & w' & Hok). by rewrite Hrun in Hok.
Qed.

(** ** C2: what a replay asks of the models *)

Lemma load_overall_after_state (J : codec) (d : fs) (day : date) (text : string) :
  load_overall_summary J (<[state_path := text]> (delete (temp_path state_path) d)) day
  = load_overall_summary J d day.
Proof.
  destruct (overall_path_not_state day) as [H1 H2].
  unfold load_overall_summary. by rewrite lookup_insert_ne, lookup_delete_ne.
Qed.

Lemma cached_in_order_nonempty (chunks : gmap Z json) :
  chunks ≠ ∅ → cached_in_order chunks ≠ [].
Proof.
  intros Hne Hnil. destruct (map_choose chunks Hne) as (i & v & Hi).
  assert (v ∈ cached_in_order chunks) as Hin.
  { unfold cached_in_order. apply list_elem_of_omap. exists i. split; [|done].
    apply sorted_keys_elem. by exists v. }
  rewrite Hnil in Hin. by apply elem_of_nil in Hin.
Qed.

(** without an overall summary with content on disk, and with a key, the
    delivery asks for the overall digest first, once, and no other model *)
Lemma deliver_asks_once (J : codec) (E : env) (config : AppConfig) (day : date)
    (papers : list Paper) (summaries : list json) (w : world) (loaded : option json) :
  configured (openai_api_key config) = true →
  summaries ≠ [] →
  load_overall_summary J (disk w) day = Ok loaded →
  match loaded with Some v => Py.truthy v | None => false end = false →
  ∃ evs,
    trace (_run_deliver J E config day papers summaries w).2
    = trace w ++ EvOverallCall summaries :: evs
    ∧ Forall (λ e, is_summarizer_call e = false) evs.
Proof.
  intros Hkey Hsome Hload Hfalsy.
  destruct summaries as [|s ss]; [done|]. clear Hsome.
  set (w1 := World (disk w) (trace w ++ [EvOverallCall (s :: ss)])).
  assert (_run_deliver J E config day papers (s :: ss) w
            = ((text_output ← lift (overall_model E day (s :: ss));
                _ ← save_overall_response J day text_output;
                o ← lift (parse_output J text_output);
                _ ← save_overall_summary J day o;
                (if configured (smtp_host config) && configured (smtp_user config)
                    && configured (smtp_password config)
                    && match smtp_to config with [] => false | _ => true end
                 then
                   let counts := category_counts papers in
                   _ ← emit (EvEmail (s :: ss) (Some o) counts);
                   lift (send_email E day (s :: ss) (Some o) counts)
                 else mret ())) w1)) as Hrun.
  { unfold _run_deliver.
    rewrite (bind_ok _ _ w loaded w) by (by apply read_ok).
    rewrite Hfalsy, Hkey. cbn [negb]. unfold summarize_overall.
    rewrite !bind_assoc_run. rewrite (bind_ok _ _ w () w1) by done.
    unfold mbind, M_bind, lift.
    destruct (overall_model E day (s :: ss)) as [text|e]; [|done].
    destruct (save_overall_response J day text w1) as [[[]|e] w2]; [|done].
    destruct (parse_output J text) as [o|e]; [|done].
    by destruct (save_overall_summary J day o w2) as [[[]|e] w3]. }
  rewrite Hrun. clear Hrun.
  destruct (overall_model E day (s :: ss)) as [text|e] eqn:Hmodel.
  - rewrite (bind_ok _ _ w1 text w1) by done.
    erewrite bind_ok by apply save_overall_response_run.
    destruct (parse_output J text) as [o|e] eqn:Hparse.
    + erewrite bind_ok by done.
      erewrite bind_ok by apply save_overall_summary_run.
      match goal with
      | |- context [trace (?m ?w0).2] =>
          destruct (mail_stage E config day papers (s :: ss) (Some o) w0)
            as (evs & Htr & Hquiet & _)
      end.
      eexists. rewrite Htr. unfold w1. cbn [trace disk].
      rewrite <- !app_assoc. split; [reflexivity|].
      by repeat (constructor; [done|]).
    + erewrite bind_raise by done.
      eexists. unfold w1. cbn [trace disk]. rewrite <- !app_assoc.
      split; [reflexivity|]. by repeat constructor.
  - rewrite (bind_raise _ _ w1 e w1) by done.
    exists []. split; [done|]. constructor.
Qed.

(** C2, as the code has it. A day whose snapshot has items that are all in
    the seen set, and whose cache holds every expected chunk, is replayed
    without a call to the chunk summarizer: the run hands on the cached
    summaries in the order of their indices, and so does the next run. The
    overall digest is another matter: when the overall summary of the day is
    on disk with content, the two runs call no model at all; when it is not,
    and a key is configured, the run writes the state and then asks the
    overall model, once, with the cached summaries, and asks no other model.
    A day without stored items is fetched, and when every fetched item is in
    the seen set the run calls no chunk summarizer either. The same holds for
    the stream alone: with every batch cached it calls nothing. *)
Theorem replay_is_free (J : codec) (E1 E2 : env) (config : AppConfig) (day : date)
    (w : world) (papers : list Paper) (chunks : gmap Z json) :
  replay_ready J E1 config day (disk w) papers chunks →
  all_seen J E2 config (disk (_run_once J E1 config day w).2) papers →
  (∃ evs, trace (_run_once J E2 config day (_run_once J E1 config day w).2).2
          = trace w ++ evs
          ∧ Forall (λ e, is_chunk_call e = false) evs)
  ∧ (∃ w', _run_chunks J E1 config day w
           = (Ok (Some (papers, cached_in_order chunks)), w'))
  ∧ (∃ w', _run_chunks J E2 config day (_run_once J E1 config day w).2
           = (Ok (Some (papers, cached_in_order chunks)), w'))
  ∧ (overall_ready J (disk w) day →
     ∃ evs, trace (_run_once J E2 config day (_run_once J E1 config day w).2).2
            = trace w ++ evs
            ∧ Forall (λ e, is_summarizer_call e = false) evs)
  ∧ (∀ E w0 st seen fetched cached,
       load_state J (disk w0) = Ok st →
       build_seen_set st (retention_days config) (today E) = Ok seen →
       _load_papers_from_storage J (disk w0) day = Ok [] →
       fetch_papers E (categories config) day = Ok fetched →
       Forall (λ p, paper_id p ∈ seen) fetched →
       load_summary_chunks J (disk w0) day = Ok cached →
       (∃ w', _run_chunks J E config day w0
              = (Ok (if bool_decide (cached = ∅) then None
                     else Some (fetched, cached_in_order cached)), w'))
       ∧ ∃ evs, trace (_run_once J E config day w0).2 = trace w0 ++ evs
                ∧ Forall (λ e, is_chunk_call e = false) evs)
  ∧ StronglySorted Z.le (sorted_keys chunks)
  ∧ (∀ i, i ∈ sorted_keys chunks ↔ is_Some (chunks !! i))
  ∧ (∀ E new_papers batches on_response w0,
       _chunk new_papers chunk_size = Ok batches →
       (∀ i, 1 ≤ i ≤ Z.of_nat (length batches) → is_Some (chunks !! i)) →
       summarize_papers_stream J E day new_papers chunk_size chunks on_response w0
       = (Ok (cached_pairs chunks (length batches)), w0))
  ∧ (∀ loaded,
       configured (openai_api_key config) = true →
       load_overall_summary J (disk w) day = Ok loaded →
       match loaded with Some v => Py.truthy v | None => false end = false →
       ∃ text evs,
         trace (_run_once J E1 config day w).2
         = trace w ++ EvWrite state_path text
                      :: EvOverallCall (cached_in_order chunks) :: evs
         ∧ Forall (λ e, is_summarizer_call e = false) evs).
Proof.
  intros Hready Hseen2.
  destruct (run_once_replay J E1 config day w papers chunks Hready)
    as ((evs1 & Htr1 & Hev1) & Hstored1 & Hchunks1).
  assert (replay_ready J E2 config day (disk (_run_once J E1 config day w).2)
            papers chunks) as Hready2.
  { destruct Hready as (_ & _ & Hne & _ & Hfull). by repeat split. }
  destruct (run_once_replay J E2 config day _ papers chunks Hready2)
    as ((evs2 & Htr2 & Hev2) & _ & _).
  split; [|split; [|split; [|split; [|split; [|split; [|split; [|split]]]]]]].
  - exists (evs1 ++ evs2). split.
    + by rewrite Htr2, Htr1, app_assoc.
    + by apply Forall_app.
  - destruct (run_chunks_replay J E1 config day w papers chunks Hready) as (t & Ht).
    by eexists.
  - destruct (run_chunks_replay J E2 config day _ papers chunks Hready2) as (t & Ht).
    by eexists.
  - intros Hoverall.
    destruct (run_once_replay_cached J E1 config day w papers chunks Hready Hoverall)
      as (t1 & l1 & Ht1 & Hl1 & Hd1).
    assert (overall_ready J (disk (_run_once J E1 config day w).2) day) as Hoverall2.
    { rewrite Hd1. by apply overall_ready_after_state. }
    destruct (run_once_replay_cached J E2 config day _ papers chunks Hready2 Hoverall2)
      as (t2 & l2 & Ht2 & Hl2 & _).
    exists ((EvWrite state_path t1 :: l1) ++ EvWrite state_path t2 :: l2). split.
    + by rewrite Ht2, Ht1, <- app_assoc.
    + apply Forall_app. split; by constructor.
  - intros E w0 st seen fetched cached Hst Hsn Hstored Hfetch Hall Hcached.
    destruct (run_chunks_fetch_seen J E config day w0 st seen fetched cached
                Hst Hsn Hstored Hfetch Hall Hcached)
      as (w' & Hrun & s1 & s2 & Htr).
    split; [by eexists|].
    unfold _run_once. erewrite bind_ok by exact Hrun.
    destruct (bool_decide (cached = ∅)).
    + eexists. split; [exact Htr|]. by repeat constructor.
    + destruct (_run_deliver_confined J E config day fetched
                  (cached_in_order cached) w') as [(evs & Hev & Hno) _].
      eexists. rewrite Hev, Htr, <- app_assoc. split; [reflexivity|].
      apply Forall_app. split; [by repeat constructor|].
      eapply Forall_impl; [exact Hno|]. by intros e [_ ?].
  - apply StronglySorted_merge_sort; apply _.
  - apply sorted_keys_elem.
  - intros E new_papers batches on_response w0 Hb Hfull.
    unfold summarize_papers_stream. destruct new_papers as [|p ps].
    + unfold _chunk in Hb. cbn in Hb. by injection Hb as <-.
    + rewrite Hb. erewrite (bind_ok (lift _)) by done.
      rewrite stream_loop_cached; [done|]. intros i Hi. apply Hfull. lia.
  - intros loaded Hkey Hload Hfalsy.
    destruct (run_chunks_replay J E1 config day w papers chunks Hready) as (t & Ht).
    assert (chunks ≠ ∅) as Hnonempty.
    { destruct Hready as (_ & _ & Hne & _ & Hfull).
      pose proof (expected_chunks_pos papers Hne) as Hexp.
      intros ->. destruct (Hfull 1) as [c Hc]; [lia|]. by rewrite lookup_empty in Hc. }
    unfold _run_once. erewrite bind_ok by exact Ht.
    set (w1 := World _ _).
    destruct (deliver_asks_once J E1 config day papers (cached_in_order chunks) w1 loaded)
      as (evs & Htr & Hev); [done|by apply cached_in_order_nonempty| |done|].
    { unfold w1. cbn [disk]. by rewrite load_overall_after_state. }
    exists t, evs. split; [|done]. rewrite Htr. unfold w1. cbn [trace].
    by rewrite <- app_assoc.
Qed.

Lemma replay_is_free_witness :
  (∃ evs, trace (_run_once RefJson.J Ex.E Ex.config Ex.day
                   (_run_once RefJson.J Ex.E Ex.config Ex.day
                      (World Ex.delivered [])).2).2
          = [] ++ evs
          ∧ Forall (λ e, is_summarizer_call e = false) evs)
  ∧ (∃ w', _run_chunks RefJson.J Ex.E Ex.config Ex.day (World Ex.delivered [])
           = (Ok (Some (Ex.papers 45, cached_in_order Ex.cache3)), w'))
  ∧ (∃ w', _run_chunks RefJson.J Ex.E Ex.config Ex.day
             (_run_once RefJson.J Ex.E Ex.config Ex.day (World Ex.delivered [])).2
           = (Ok (Some (Ex.papers 45, cached_in_order Ex.cache3)), w')).
Proof.
  assert (replay_ready RefJson.J Ex.E Ex.config Ex.day (disk (World Ex.delivered []))
            (Ex.papers 45) Ex.cache3) as H1.
  { split; [|split; [|split; [|split]]].
    - destruct (recorded_then_seen Ex.seen_state 30 738891 Ex.day (Ex.papers 45)
                  EmptyString) as (seen & Hb & Hall).
      + unfold MAXORDINAL. lia.
      + unfold Ex.day. lia.
      + apply seen_state_records.
      + exists Ex.seen_state, seen. split; [vm_compute; reflexivity|]. by split.
    - vm_compute. reflexivity.
    - discriminate.
    - vm_compute. reflexivity.
    - intros i Hi. change (expected_chunks_of _) with 3 in Hi.
      assert (i = 1 ∨ i = 2 ∨ i = 3) as [-> | [-> | ->]] by lia;
        eexists; vm_compute; reflexivity. }
  assert (all_seen RefJson.J Ex.E Ex.config
            (disk (_run_once RefJson.J Ex.E Ex.config Ex.day (World Ex.delivered [])).2)
            (Ex.papers 45)) as H2.
  { destruct (recorded_then_seen
                (update_state_with_papers Ex.seen_state Ex.day [] (utcnow Ex.E))
                30 738891 Ex.day (Ex.papers 45) EmptyString)
      as (seen & Hb & Hall).
    - unfold MAXORDINAL. lia.
    - unfold Ex.day. lia.
    - intros p Hp. by apply update_state_keeps, seen_state_records.
    - eexists _, seen. split; [vm_compute; reflexivity|]. by split. }
  assert (overall_ready RefJson.J (disk (World Ex.delivered [])) Ex.day) as H3.
  { exists (JObj [("summary", JStr "overall")]). split; vm_compute; reflexivity. }
  destruct (replay_is_free RefJson.J Ex.E Ex.E Ex.config Ex.day
              (World Ex.delivered []) (Ex.papers 45) Ex.cache3 H1 H2)
    as (_ & B & C & D & _).
  exact (conj (D H3) (conj B C)).
Defined.

(** the day of the example with its three chunks cached, every item seen,
    and no overall summary on disk: a run asks the overall model; and with
    a model whose overall answer is the empty object, so does the run after
    it *)
Lemma replay_asks_for_the_overall_digest :
  replay_ready RefJson.J Ex.E Ex.config Ex.day Ex.complete (Ex.papers 45) Ex.cache3
  ∧ List.filter is_summarizer_call
      (trace (_run_once RefJson.J Ex.E Ex.config Ex.day (World Ex.complete [])).2)
    = [EvOverallCall (cached_in_order Ex.cache3)]
  ∧ ¬ Forall (λ e, is_summarizer_call e = false)
        (trace (_run_once RefJson.J Ex.E Ex.config Ex.day (World Ex.complete [])).2)
  ∧ List.filter is_summarizer_call
      (trace (_run_once RefJson.J E_blank Ex.config Ex.day
                (_run_once RefJson.J E_blank Ex.config Ex.day
                   (World Ex.complete [])).2).2)
    = [EvOverallCall (cached_in_order Ex.cache3);
       EvOverallCall (cached_in_order Ex.cache3)].
Proof.
  assert (List.filter is_summarizer_call
            (trace (_run_once RefJson.J Ex.E Ex.config Ex.day (World Ex.complete [])).2)
          = [EvOverallCall (cached_in_order Ex.cache3)]) as Hcalls
    by (vm_compute; reflexivity).
  split; [|split; [done|split]].
  - split; [|split; [|split; [|split]]].
    + destruct (recorded_then_seen Ex.seen_state 30 738891 Ex.day (Ex.papers 45)
                  EmptyString) as (seen & Hb & Hall).
      * unfold MAXORDINAL. lia.
      * unfold Ex.day. lia.
      * apply seen_state_records.
      * exists Ex.seen_state, seen. split; [vm_compute; reflexivity|]. by split.
    + vm_compute. reflexivity.
    + discriminate.
    + vm_compute. reflexivity.
    + intros i Hi. change (expected_chunks_of _) with 3 in Hi.
      assert (i = 1 ∨ i = 2 ∨ i = 3) as [-> | [-> | ->]] by lia;
        eexists; vm_compute; reflexivity.
  - intros Hnone.
    assert (In (EvOverallCall (cached_in_order Ex.cache3))
              (List.filter is_summarizer_call
                 (trace (_run_once RefJson.J Ex.E Ex.config Ex.day
                           (World Ex.complete [])).2))) as Hin
      by (rewrite Hcalls; by left).
    destruct (proj1 (List.filter_In _ _ _) Hin) as [Hin' _].
    pose proof (proj2 (list_elem_of_In _ _) Hin') as Hel.
    pose proof (proj1 (Forall_forall _ _) Hnone _ Hel) as Hno. discriminate Hno.
  - vm_compute. reflexivity.
Qed.
